(** * sketchup_mcp/server.py: the connection and request lifecycle, verified

    A shallow embedding of [SketchupConnection] (connect, disconnect,
    receive_full_response, send_command), of [get_sketchup_connection] and of
    the tool functions of [src/sketchup_mcp/server.py], followed by the
    properties of the specification that concern them.

    Conventions.
    - Python values that travel as JSON are values of [json]; a [dict] is an
      association list in insertion order whose keys are distinct.
    - Python floats are binary64 numbers: Rocq's primitive [float].
    - [bytes] is [list byte]; [str] is [string] (its UTF-8 text).
    - Exceptions are values of [exn]; a computation is a function from a
      state to a result ([Ret], [Raise]) and a new state. A loop whose
      recursion is not structural takes fuel, and [OutOfFuel] is the result
      of running out of it, which send_command never does.
    - The peer and the operating system are an explicit [world]: what each
      successive [recv], [sendall], liveness probe and [connect] does, what
      each successive [time.time()] reads, and the trace of what the program
      did to the socket.
    - The Python library functions the program calls but does not define
      (the UTF-8 codec, [json.loads], [json.dumps], [str] of a value and a
      few string methods) are the fields of the class [PyLib]; every theorem
      holds whatever they are. *)

From Stdlib Require Import ZArith List String Ascii Bool Lia Floats.
From Stdlib Require Import Strings.Byte DecimalString.
Import ListNotations.

Set Implicit Arguments.
Set Warnings "-register-all,-inexact-float,-notation-for-abbreviation".
Local Open Scope list_scope.
Local Open Scope string_scope.

(** ** JSON values and Python's operations on them *)

Inductive json : Type :=
| JNull
| JBool (b : bool)
| JInt (z : Z)
| JFloat (f : float)
| JStr (s : string)
| JArr (l : list json)
| JObj (kv : list (string * json)).

Notation dict := (list (string * json)) (only parsing).
Notation bytes := (list byte) (only parsing).

(** [b''.join(chunks)]. *)
Definition bytes_join (chunks : list bytes) : bytes := List.concat chunks.

(** [d.get(k)] on a dict, as an option. *)
Fixpoint dict_get (k : string) (d : dict) : option json :=
  match d with
  | [] => None
  | (k', v) :: d' => if String.eqb k k' then Some v else dict_get k d'
  end.

(** [k in d] on a dict. *)
Definition dict_has (k : string) (d : dict) : bool :=
  match dict_get k d with Some _ => true | None => false end.

(** [d.get(k, dflt)] on a dict. *)
Definition dict_get_default (k : string) (dflt : json) (d : dict) : json :=
  match dict_get k d with Some v => v | None => dflt end.

(** [d[k] = v] on a dict: replaces in place, or appends a new key. *)
Fixpoint dict_set (k : string) (v : json) (d : dict) : dict :=
  match d with
  | [] => [(k, v)]
  | (k', v') :: d' =>
      if String.eqb k k' then (k', v) :: d' else (k', v') :: dict_set k v d'
  end.

(** [needle in hay] on two strings. *)
Fixpoint str_contains (needle hay : string) : bool :=
  String.prefix needle hay
  || match hay with
     | EmptyString => false
     | String _ hay' => str_contains needle hay'
     end.

(** Exact comparison of a float with an integer, as Python's [==] does it. *)
Definition float_eq_Z (f : float) (z : Z) : bool :=
  match Prim2SF f with
  | S754_zero _ => (z =? 0)%Z
  | S754_finite s m e =>
      let v := if s then Z.neg m else Z.pos m in
      if (0 <=? e)%Z then (z =? v * 2 ^ e)%Z else (z * 2 ^ (- e) =? v)%Z
  | _ => false
  end.

Definition bool_Z (b : bool) : Z := if b then 1%Z else 0%Z.

(** Python's [a == b] on JSON values: [bool] is a subtype of [int], numbers
    compare by value, dicts compare as maps. *)
Fixpoint py_eq (a b : json) : bool :=
  match a with
  | JNull => match b with JNull => true | _ => false end
  | JBool x =>
      match b with
      | JBool y => Bool.eqb x y
      | JInt z => (bool_Z x =? z)%Z
      | JFloat f => float_eq_Z f (bool_Z x)
      | _ => false
      end
  | JInt x =>
      match b with
      | JBool y => (x =? bool_Z y)%Z
      | JInt y => (x =? y)%Z
      | JFloat f => float_eq_Z f x
      | _ => false
      end
  | JFloat x =>
      match b with
      | JBool y => float_eq_Z x (bool_Z y)
      | JInt y => float_eq_Z x y
      | JFloat y => PrimFloat.eqb x y
      | _ => false
      end
  | JStr s => match b with JStr t => String.eqb s t | _ => false end
  | JArr xs =>
      match b with
      | JArr ys =>
          (fix go (xs ys : list json) {struct xs} : bool :=
             match xs, ys with
             | [], [] => true
             | x :: xs', y :: ys' => py_eq x y && go xs' ys'
             | _, _ => false
             end) xs ys
      | _ => false
      end
  | JObj kv =>
      match b with
      | JObj kw =>
          (List.length kv =? List.length kw)%nat
          && (fix go (kv : list (string * json)) : bool :=
                match kv with
                | [] => true
                | (k, v) :: kv' =>
                    match dict_get k kw with
                    | Some w => py_eq v w
                    | None => false
                    end && go kv'
                end) kv
      | _ => false
      end
  end.

(** Python's truth value of a JSON value ([if v:]). *)
Definition py_truthy (v : json) : bool :=
  match v with
  | JNull => false
  | JBool b => b
  | JInt z => negb (z =? 0)%Z
  | JFloat f => negb (PrimFloat.eqb f 0%float)
  | JStr s => negb (String.eqb s "")
  | JArr l => match l with [] => false | _ => true end
  | JObj kv => match kv with [] => false | _ => true end
  end.

(** [type(v).__name__]. *)
Definition py_type_name (v : json) : string :=
  match v with
  | JNull => "NoneType"
  | JBool _ => "bool"
  | JInt _ => "int"
  | JFloat _ => "float"
  | JStr _ => "str"
  | JArr _ => "list"
  | JObj _ => "dict"
  end.

(** ** Exceptions *)

(** The subclasses of [OSError] that the program tells apart:
    [socket.timeout], [BrokenPipeError], [ConnectionResetError], the other
    [ConnectionError]s, and every other [OSError]. *)
Inductive os_kind : Type :=
| Timeout | BrokenPipe | ConnectionReset | ConnectionOther | OtherOSError.

Inductive exn : Type :=
| OSError (k : os_kind) (msg : string)
| JSONDecodeError (msg : string)
| UnicodeDecodeError (msg : string)
| AttributeError (msg : string)
| TypeError (msg : string)
| KeyError (msg : string)
| ValueError (msg : string)
| OverflowError (msg : string)
| PyException (msg : string).

(** [str(e)]. *)
Definition exn_str (e : exn) : string :=
  match e with
  | OSError _ m | JSONDecodeError m | UnicodeDecodeError m | AttributeError m
  | TypeError m | KeyError m | ValueError m | OverflowError m
  | PyException m => m
  end.

(** [except socket.timeout]. *)
Definition is_socket_timeout (e : exn) : bool :=
  match e with OSError Timeout _ => true | _ => false end.

(** [except (ConnectionError, BrokenPipeError, ConnectionResetError)]. *)
Definition is_connection_error (e : exn) : bool :=
  match e with
  | OSError (BrokenPipe | ConnectionReset | ConnectionOther) _ => true
  | _ => false
  end.

(** [except (socket.timeout, ConnectionError, BrokenPipeError,
    ConnectionResetError)], the handler of send_command's retry loop. *)
Definition is_transport_error (e : exn) : bool :=
  is_socket_timeout e || is_connection_error e.

(** [except json.JSONDecodeError]. *)
Definition is_json_decode_error (e : exn) : bool :=
  match e with JSONDecodeError _ => true | _ => false end.

(** ** Results and the state-and-exception monad *)

Inductive res (A : Type) : Type :=
| Ret (a : A)
| Raise (e : exn)
| OutOfFuel.
Arguments Ret {A} a.
Arguments Raise {A} e.
Arguments OutOfFuel {A}.

Definition M (S A : Type) : Type := S -> res A * S.

Definition ret {S A} (a : A) : M S A := fun st => (Ret a, st).
Definition raise {S A} (e : exn) : M S A := fun st => (Raise e, st).
Definition bind {S A B} (m : M S A) (f : A -> M S B) : M S B :=
  fun st =>
    match m st with
    | (Ret a, st') => f a st'
    | (Raise e, st') => (Raise e, st')
    | (OutOfFuel, st') => (OutOfFuel, st')
    end.

(** [try: body except Exception as e: handler e]; every modelled exception
    is an [Exception]. A handler that does not apply re-raises. *)
Definition try_except {S A} (body : M S A) (handler : exn -> M S A) : M S A :=
  fun st =>
    match body st with
    | (Raise e, st') => handler e st'
    | r => r
    end.

Definition get {S} : M S S := fun st => (Ret st, st).
Definition modify {S} (f : S -> S) : M S unit := fun st => (Ret tt, f st).

Declare Scope py_scope.
Delimit Scope py_scope with py.
Notation "x <- m ;; k" := (bind m (fun x => k))
  (at level 100, m at next level, right associativity) : py_scope.
Notation "m ;;; k" := (bind m (fun _ => k))
  (at level 100, right associativity) : py_scope.
Local Open Scope py_scope.

(** The outcome of code that only computes: a value or an exception. *)
Inductive outcome (A : Type) : Type :=
| Ok (a : A)
| Err (e : exn).
Arguments Ok {A} a.
Arguments Err {A} e.

Definition rbind {A B} (r : outcome A) (f : A -> outcome B) : outcome B :=
  match r with
  | Ok a => f a
  | Err e => Err e
  end.
Notation "x <~ r ;; k" := (rbind r (fun x => k))
  (at level 100, r at next level, right associativity) : py_scope.

(** Running it inside a computation. *)
Definition lift {S A} (r : outcome A) : M S A :=
  fun st =>
    match r with
    | Ok a => (Ret a, st)
    | Err e => (Raise e, st)
    end.

(** ** Attribute access and subscripts on arbitrary JSON values *)

(** [v.get(k, dflt)]: only a dict has the method. *)
Definition py_get (v : json) (k : string) (dflt : json) : outcome json :=
  match v with
  | JObj d => Ok (dict_get_default k dflt d)
  | _ => Err (AttributeError
                  ("'" ++ py_type_name v ++ "' object has no attribute 'get'"))
  end.

(** [k in v] for a string [k]. *)
Definition py_in (k : string) (v : json) : outcome bool :=
  match v with
  | JObj d => Ok (dict_has k d)
  | JArr l => Ok (existsb (py_eq (JStr k)) l)
  | JStr s => Ok (str_contains k s)
  | _ => Err (TypeError
                  ("argument of type '" ++ py_type_name v
                   ++ "' is not iterable"))
  end.

(** [v[k]] for a string [k]. *)
Definition py_getitem (v : json) (k : string) : outcome json :=
  match v with
  | JObj d =>
      match dict_get k d with
      | Some x => Ok x
      | None => Err (KeyError ("'" ++ k ++ "'"))
      end
  | JStr _ => Err (TypeError "string indices must be integers, not 'str'")
  | JArr _ =>
      Err (TypeError "list indices must be integers or slices, not str")
  | _ => Err (TypeError
                  ("'" ++ py_type_name v ++ "' object is not subscriptable"))
  end.

(** ** The Python library, as an interface *)

Class PyLib : Type := {
  (** [data.decode('utf-8')]; [None] is UnicodeDecodeError. *)
  utf8_decode : bytes -> option string;
  (** [json.loads text]; [None] is json.JSONDecodeError. *)
  json_loads : string -> option json;
  (** [json.dumps v]. *)
  json_dumps : json -> string;
  (** [str(v)] of a value that is not a [str]. *)
  py_repr : json -> string;
  (** [s.capitalize()] and [s.upper()]. *)
  str_capitalize : string -> string;
  str_upper : string -> string;
  (** [float(s)] of a string; [None] is ValueError. *)
  float_of_str : string -> option float;
  (** The format specification [:.2f]. *)
  format_2f : float -> string
}.

(** [str(v)], which f-strings apply to what they interpolate. *)
Definition py_str `{PyLib} (v : json) : string :=
  match v with
  | JStr s => s
  | _ => py_repr v
  end.

(** ** The world: the peer, the operating system and the clock *)

(** What one call of [sock.recv] does: it returns bytes ([b''] when the peer
    has closed) or raises an [OSError]. *)
Inductive recv_event : Type :=
| RData (b : bytes)
| RError (k : os_kind) (msg : string).

(** What the program did to its socket, in order. *)
Inductive event : Type :=
| EvConnect (h : string) (p : Z) (ok : bool)
| EvProbe (ok : bool)
| EvClose
| EvSend (data : bytes)
| EvSleep (d : float).

Record world : Type := mkWorld {
  clock : nat -> float;          (* the k-th reading of time.time() *)
  ticks : nat;                   (* readings taken so far *)
  recvs : list recv_event;       (* the successive sock.recv calls *)
  sends : list (option (os_kind * string));
                                 (* the successive sock.sendall calls *)
  probes : list bool;            (* the successive sock.send(b'') probes *)
  conns : list bool;             (* the successive socket connects *)
  trace : list event
}.

Record socket : Type := mkSocket { timeout : float }.

Record SketchupConnection : Type := mkConn {
  host : string;
  port : Z;
  sock : option socket
}.

(** The state a method runs in: its [self] and the world. *)
Record mstate : Type := mkState { self : SketchupConnection; env : world }.

Definition set_env (w : world) (st : mstate) : mstate :=
  mkState (self st) w.
Definition log (ev : event) (w : world) : world :=
  mkWorld (clock w) (ticks w) (recvs w) (sends w) (probes w) (conns w)
          (trace w ++ [ev]).
Definition emit (ev : event) : M mstate unit :=
  modify (fun st => set_env (log ev (env st)) st).

(** [self.sock = s]. *)
Definition set_sock (s : option socket) : M mstate unit :=
  modify (fun st => mkState (mkConn (host (self st)) (port (self st)) s)
                            (env st)).

(** [time.time()]. *)
Definition time_time : M mstate float :=
  fun st =>
    let w := env st in
    (Ret (clock w (ticks w)),
     set_env (mkWorld (clock w) (S (ticks w)) (recvs w) (sends w) (probes w)
                      (conns w) (trace w)) st).

(** [time.sleep(d)]. *)
Definition time_sleep (d : float) : M mstate unit := emit (EvSleep d).

Definition none_has_no (attr : string) : exn :=
  AttributeError ("'NoneType' object has no attribute '" ++ attr ++ "'").

(** [self.sock.settimeout(t)]. *)
Definition sock_settimeout (t : float) : M mstate unit :=
  st <- get;;
  match sock (self st) with
  | None => raise (none_has_no "settimeout")
  | Some _ => set_sock (Some (mkSocket t))
  end.

(** [self.sock.sendall(data)]: an exhausted [sends] means it succeeds. *)
Definition sock_sendall (data : bytes) : M mstate unit :=
  st <- get;;
  match sock (self st) with
  | None => raise (none_has_no "sendall")
  | Some _ =>
      emit (EvSend data);;;
      fun st =>
        let w := env st in
        match sends w with
        | [] => (Ret tt, st)
        | o :: rest =>
            let st' := set_env (mkWorld (clock w) (ticks w) (recvs w) rest
                                        (probes w) (conns w) (trace w)) st in
            match o with
            | None => (Ret tt, st')
            | Some (k, msg) => (Raise (OSError k msg), st')
            end
        end
  end.

(** [self.sock.send(b'')] of connect's liveness test: [true] when it does
    not raise. An exhausted [probes] means it succeeds. *)
Definition sock_probe : M mstate bool :=
  fun st =>
    let w := env st in
    let '(ok, rest) := match probes w with
                       | [] => (true, [])
                       | b :: rest => (b, rest)
                       end in
    (Ret ok,
     set_env (log (EvProbe ok)
                  (mkWorld (clock w) (ticks w) (recvs w) (sends w) rest
                           (conns w) (trace w))) st).

(** Creating a socket and connecting it: [true] when nothing raises. An
    exhausted [conns] means it succeeds. *)
Definition os_connect : M mstate bool :=
  fun st =>
    let w := env st in
    let '(ok, rest) := match conns w with
                       | [] => (true, [])
                       | b :: rest => (b, rest)
                       end in
    (Ret ok,
     set_env (log (EvConnect (host (self st)) (port (self st)) ok)
                  (mkWorld (clock w) (ticks w) (recvs w) (sends w) (probes w)
                           rest (trace w))) st).

(** ** SketchupConnection.disconnect and SketchupConnection.connect *)

Definition disconnect : M mstate unit :=
  st <- get;;
  match sock (self st) with
  | Some _ => emit EvClose;;; set_sock None
  | None => ret tt
  end.

Definition connect : M mstate bool :=
  st <- get;;
  alive <- match sock (self st) with
           | Some _ =>
               (* try: settimeout(0.1); send(b''); return True
                  except (socket.error, ...): self.disconnect() *)
               sock_settimeout 0.1;;;
               ok <- sock_probe;;
               if ok then ret true else (disconnect;;; ret false)
           | None => ret false
           end;;
  if alive then ret true
  else
    (* try: socket(); setsockopt; settimeout(10.0); connect;
            settimeout(30.0); return True
       except Exception: self.sock = None; return False *)
    ok <- os_connect;;
    if ok then (set_sock (Some (mkSocket 30));;; ret true)
    else (set_sock None;;; ret false).

(** ** SketchupConnection.receive_full_response *)

Section Receive.
Context `{PyLib}.

Definition max_response_time : float := 120.

Inductive parse_outcome : Type := Complete | NotJson | NotUtf8.

(** [data.decode('utf-8')] then [json.loads]. *)
Definition try_parse (data : bytes) : parse_outcome :=
  match utf8_decode data with
  | None => NotUtf8
  | Some text =>
      match json_loads text with
      | Some _ => Complete
      | None => NotJson
      end
  end.

(** How the receive loop ends: [return data], an exception, or the end of
    the loop (its condition false, or [break]) with the chunks so far. *)
Inductive recv_exit : Type :=
| RxReturn (data : bytes)
| RxRaise (e : exn)
| RxFall (chunks : list bytes).

(** The [while time.time() - response_start_time < max_response_time] loop.
    It recurses on the script of recv calls; an exhausted script is a peer
    that has closed, whose [recv] returns [b'']. The second and third
    components are the script left and the clock readings taken. *)
Fixpoint recv_loop (clk : nat -> float) (start : float)
    (script : list recv_event) (t : nat) (chunks : list bytes)
    : recv_exit * list recv_event * nat :=
  let closed (rest : list recv_event) :=
    match chunks with
    | [] => (RxRaise (PyException
                        "Connection closed before receiving any data"),
             rest, S t)
    | _ => (RxFall chunks, rest, S t)
    end in
  if (clk t - start <? max_response_time)%float then
    match script with
    | [] => closed []
    | RData [] :: script' => closed script'
    | RData chunk :: script' =>
        let chunks' := (chunks ++ [chunk])%list in
        match try_parse (bytes_join chunks') with
        | Complete => (RxReturn (bytes_join chunks'), script', S t)
        | _ => recv_loop clk start script' (S t) chunks'
        end
    | RError k msg :: script' =>
        let e := OSError k msg in
        if is_socket_timeout e then
          match chunks with
          | [] => (RxFall [], script', S t)
          | _ =>
              match try_parse (bytes_join chunks) with
              | Complete => (RxReturn (bytes_join chunks), script', S t)
              | _ => recv_loop clk start script' (S t) chunks
              end
          end
        else if is_connection_error e then
          match chunks with
          | [] => (RxRaise e, script', S t)
          | _ =>
              match try_parse (bytes_join chunks) with
              | Complete => (RxReturn (bytes_join chunks), script', S t)
              | _ => (RxRaise e, script', S t)
              end
          end
        else (RxRaise e, script', S t)
    end
  else (RxFall chunks, script, S t).

(** "Try to parse what we have", after the loop. *)
Definition final_parse (chunks : list bytes) : outcome bytes :=
  match chunks with
  | [] => Err (PyException "No data received")
  | _ =>
      match try_parse (bytes_join chunks) with
      | Complete => Ok (bytes_join chunks)
      | NotJson => Err (PyException "Incomplete JSON response received")
      | NotUtf8 => Err (PyException "Invalid response encoding")
      end
  end.

(** [self.receive_full_response(self.sock)]: its [sock] argument is
    [self.sock] at the only call. *)
Definition receive_full_response : M mstate bytes :=
  sock_settimeout 30;;;
  response_start_time <- time_time;;
  fun st =>
    let w := env st in
    let '(exit, script', t') :=
      recv_loop (clock w) response_start_time (recvs w) (ticks w) [] in
    let st' := set_env (mkWorld (clock w) t' script' (sends w) (probes w)
                                (conns w) (trace w)) st in
    match exit with
    | RxReturn data => (Ret data, st')
    | RxRaise e => (Raise e, st')
    | RxFall chunks => lift (final_parse chunks) st'
    end.

End Receive.

(** ** SketchupConnection.send_command *)

Section SendCommand.
Context `{PyLib}.

(** [params] is [None] or a dict; [bool(params)] and [params or {}]. *)
Definition params_truthy (params : option dict) : bool :=
  match params with
  | Some (_ :: _) => true
  | _ => false
  end.
Definition params_or_empty (params : option dict) : dict :=
  match params with
  | Some d => d
  | None => []
  end.

(** The JSON-RPC envelope ("Ensure we're sending a proper JSON-RPC
    request"). *)
Definition build_request (method : string) (params : option dict)
    (request_id : json) : json :=
  if (method =? "tools/call") && params_truthy params
     && dict_has "name" (params_or_empty params)
     && dict_has "arguments" (params_or_empty params)
  then JObj [("jsonrpc", JStr "2.0"); ("method", JStr method);
             ("params", JObj (params_or_empty params)); ("id", request_id)]
  else JObj [("jsonrpc", JStr "2.0"); ("method", JStr "tools/call");
             ("params", JObj [("name", JStr method);
                              ("arguments", JObj (params_or_empty params))]);
             ("id", request_id)].

(** "Determine appropriate timeout based on operation". *)
Definition operation_timeout (method : string) (params : option dict)
    : float :=
  if (method =? "tools/call") && params_truthy params then
    let tool_name := dict_get_default "name" JNull (params_or_empty params) in
    if py_eq tool_name (JStr "create_component") then 60
    else if existsb (py_eq tool_name)
              [JStr "boolean_operation"; JStr "create_dovetail";
               JStr "create_mortise_tenon"; JStr "create_finger_joint"]
    then 180
    else if py_eq tool_name (JStr "eval_ruby") then 300
    else 120
  else 120.

Definition max_retries : nat := 3.

(** [float(n)] of a small natural number. *)
Definition float_of_nat (n : nat) : float :=
  PrimFloat.of_uint63 (Uint63.of_Z (Z.of_nat n)).

(** Python's [min(a, b)] on floats. *)
Definition py_min (a b : float) : float :=
  if (b <? a)%float then b else a.

(** [min(retry_count * 0.5, 2.0)], the progressive backoff. *)
Definition backoff (retry_count : nat) : float :=
  py_min (float_of_nat retry_count * 0.5) 2.

(** [method == "tools/call" and params and
     params.get("name") == "create_component"]. *)
Definition is_create_component (method : string) (params : option dict)
    : bool :=
  (method =? "tools/call") && params_truthy params
  && py_eq (dict_get_default "name" JNull (params_or_empty params))
           (JStr "create_component").

(** How one iteration of the receive loop ends. *)
Inductive ctl : Type :=
| Continue (operation_id : json)
| Break
| Return (v : json).

(** The classification of one parsed response (lines 255 to 284): an error
    response, a status update, a final result, or something else. *)
Definition handle_response (request_id operation_id response : json)
    : outcome ctl :=
  has_error <~ py_in "error" response;;
  if has_error then
    err <~ py_getitem response "error";;
    msg <~ py_get err "message" (JStr "Unknown error from Sketchup");;
    Err (PyException (py_str msg))
  else
    meth <~ py_get response "method" JNull;;
    if py_eq meth (JStr "operation/status") then
      status_params <~ py_get response "params" (JObj []);;
      operation_id' <~ py_get status_params "operation_id" JNull;;
      status <~ py_get status_params "status" JNull;;
      message <~ py_get status_params "message" (JStr "");;
      if py_eq status (JStr "failed") then
        Err (PyException ("Operation failed: " ++ py_str message))
      else if py_eq status (JStr "completed") then
        r <~ py_get status_params "result" (JObj []);;
        Ok (Return r)
      else Ok (Continue operation_id')
    else
      has_result <~ py_in "result" response;;
      id_matches <~ (if has_result : bool then
                       id <~ py_get response "id" JNull;;
                       Ok (py_eq id request_id)
                     else Ok false);;
      if id_matches : bool then
        r <~ py_get response "result" (JObj []);;
        Ok (Return r)
      else Ok (Continue operation_id).

(** How the receive loop ends when it does not raise. *)
Inductive wait_exit : Type :=
| Returned (v : json)
| TimedOut (operation_id : json).

(** [json.loads(response_data.decode('utf-8'))]. The text of the two codec
    exceptions is not modelled. *)
Definition decode_response (response_data : bytes) : outcome json :=
  match utf8_decode response_data with
  | None => Err (UnicodeDecodeError "'utf-8' codec can't decode bytes")
  | Some text =>
      match json_loads text with
      | None => Err (JSONDecodeError "Expecting value")
      | Some response => Ok response
      end
  end.

(** The [while time.time() - start_time < operation_timeout] loop. In the
    source no exception that its two handlers catch can be raised after
    [operation_id] is assigned, so a handler sees the [operation_id] the
    iteration started with. *)
Fixpoint wait_loop (fuel : nat) (method : string) (params : option dict)
    (request_id : json) (op_timeout start_time : float) (operation_id : json)
    : M mstate wait_exit :=
  match fuel with
  | O => fun st => (OutOfFuel, st)
  | S fuel' =>
      now <- time_time;;
      if (now - start_time <? op_timeout)%float then
        c <- try_except
               (response_data <- receive_full_response;;
                response <- lift (decode_response response_data);;
                lift (handle_response request_id operation_id response))
               (fun e =>
                  if is_socket_timeout e then
                    if is_create_component method params then
                      now' <- time_time;;
                      if (30 <? now' - start_time)%float then ret Break
                      else ret (Continue operation_id)
                    else ret (Continue operation_id)
                  else if is_json_decode_error e then
                    ret (Continue operation_id)
                  else raise e);;
        match c with
        | Continue operation_id' =>
            wait_loop fuel' method params request_id op_timeout start_time
                      operation_id'
        | Break => ret (TimedOut operation_id)
        | Return v => ret (Returned v)
        end
      else ret (TimedOut operation_id)
  end.

(** [json.dumps(request).encode('utf-8') + b'\n']. *)
Definition request_bytes (request : json) : bytes :=
  (list_byte_of_string (json_dumps request) ++ ["010"%byte])%list.

(** The body of the [try] of the retry loop: one attempt. Every iteration
    of the receive loop takes an event of the recv script or ends the loop,
    so the length of the script bounds the iterations. *)
Definition attempt (request : json) (method : string) (params : option dict)
    (request_id : json) (op_timeout : float) : M mstate json :=
  sock_settimeout 30;;;
  sock_sendall (request_bytes request);;;
  sock_settimeout op_timeout;;;
  start_time <- time_time;;
  st <- get;;
  x <- wait_loop (S (List.length (recvs (env st)))) method params request_id
                 op_timeout start_time JNull;;
  match x with
  | Returned v => ret v
  | TimedOut operation_id =>
      if py_truthy operation_id then
        raise (PyException ("Operation " ++ py_str operation_id
                            ++ " timed out after "
                            ++ py_str (JFloat op_timeout) ++ " seconds"))
      else
        raise (PyException ("No response received within "
                            ++ py_str (JFloat op_timeout) ++ " seconds"))
  end.

Definition communication_error (e : exn) : exn :=
  PyException ("Communication error with Sketchup: " ++ exn_str e).

(** The [while retry_count <= max_retries] loop with its three handlers. *)
Fixpoint retry_loop (fuel : nat) (request : json) (method : string)
    (params : option dict) (request_id : json) (op_timeout : float)
    (retry_count : nat) : M mstate json :=
  match fuel with
  | O => fun st => (OutOfFuel, st)
  | S fuel' =>
      if (retry_count <=? max_retries)%nat then
        try_except
          (attempt request method params request_id op_timeout)
          (fun e =>
             if is_transport_error e then
               (* except (socket.timeout, ConnectionError, ...) *)
               let retry_count := S retry_count in
               if (retry_count <=? max_retries)%nat then
                 disconnect;;;
                 time_sleep (backoff retry_count);;;
                 _ <- connect;;
                 retry_loop fuel' request method params request_id op_timeout
                            retry_count
               else
                 set_sock None;;;
                 raise (PyException
                          ("Connection to Sketchup lost after 4 attempts: "
                           ++ exn_str e))
             else if is_json_decode_error e then
               (* except json.JSONDecodeError *)
               raise (PyException ("Invalid response from Sketchup: "
                                   ++ exn_str e))
             else
               (* except Exception *)
               if str_contains "Connection closed" (exn_str e)
                  && (retry_count <? max_retries)%nat
               then
                 disconnect;;;
                 time_sleep 0.5;;;
                 ok <- connect;;
                 if ok then
                   retry_loop fuel' request method params request_id
                              op_timeout (S retry_count)
                 else
                   set_sock None;;;
                   raise (communication_error e)
               else
                 set_sock None;;;
                 raise (communication_error e))
      else ret JNull
  end.

Definition send_command (method : string) (params : option dict)
    (request_id : json) : M mstate json :=
  ok <- connect;;
  if negb ok then raise (OSError ConnectionOther "Not connected to Sketchup")
  else
    retry_loop 5 (build_request method params request_id) method params
               request_id (operation_timeout method params) 0.

End SendCommand.

(** ** The global connection and get_sketchup_connection *)

(** The state a tool runs in: the global [_sketchup_connection] and the
    world. *)
Record tstate : Type := mkTState {
  conn : option SketchupConnection;
  tenv : world
}.

(** [_sketchup_connection = c]. *)
Definition set_conn (c : option SketchupConnection) : M tstate unit :=
  modify (fun ts => mkTState c (tenv ts)).

(** A method call on the object that [_sketchup_connection] refers to: the
    tools hold no other reference, so what the method does to [self] is
    done to the global. *)
Definition method {A} (m : M mstate A) : M tstate A :=
  fun ts =>
    match conn ts with
    | None => (Raise (none_has_no "connect"), ts)
    | Some c =>
        let '(r, st) := m (mkState c (tenv ts)) in
        (r, mkTState (Some (self st)) (env st))
    end.

Definition could_not_connect : exn :=
  PyException
    "Could not connect to Sketchup. Make sure the Sketchup extension is running.".

(** It returns the global, which is then [Some]. A socket that the
    connection holds is open ([disconnect] discards what it closes), so its
    [fileno()] is not -1 and the [except] of the liveness test is never
    entered. *)
Definition get_sketchup_connection : M tstate unit :=
  ts <- get;;
  valid <- match conn ts with
           | Some c =>
               match sock c with
               | Some _ => ret true
               | None => set_conn None;;; ret false
               end
           | None => ret false
           end;;
  if valid : bool then ret tt
  else
    set_conn (Some (mkConn "localhost" 9876 None));;;
    ok <- method connect;;
    if ok : bool then ret tt
    else (set_conn None;;; raise could_not_connect).

(** ** The tools *)

(** A Python number. *)
Inductive pynum : Type :=
| PInt (z : Z)
| PFloat (f : float).

Definition pynum_json (d : pynum) : json :=
  match d with
  | PInt z => JInt z
  | PFloat f => JFloat f
  end.

(** [float(z)] of a Python int: the nearest double, ties to even, and an
    OverflowError when that is beyond the largest double. *)
Definition float_of_int (z : Z) : outcome float :=
  match binary_normalize prec emax z 0 false with
  | S754_infinity _ => Err (OverflowError "int too large to convert to float")
  | sf => Ok (SF2Prim sf)
  end.

(** [float(d)] of a number. *)
Definition pynum_float (d : pynum) : outcome float :=
  match d with
  | PInt z => float_of_int z
  | PFloat f => Ok f
  end.

(** Python's [max(a, b)] on floats. *)
Definition py_max (a b : float) : float :=
  if (a <? b)%float then b else a.

(** [[max(0.1, float(d)) for d in dimensions]]: the elements are converted
    from left to right, and the first that cannot be converted raises. *)
Fixpoint clamp_dimensions (dimensions : list pynum) : outcome (list float) :=
  match dimensions with
  | [] => Ok []
  | d :: rest =>
      f <~ pynum_float d;;
      fs <~ clamp_dimensions rest;;
      Ok (py_max 0.1 f :: fs)
  end.

(** [while len(dimensions) < 3:
       dimensions.append(dimensions[-1] if dimensions else 1.0)];
    the list grows by one each time, so three iterations suffice. *)
Fixpoint pad_dimensions (fuel : nat) (dimensions : list pynum)
    : list pynum :=
  match fuel with
  | O => dimensions
  | S fuel' =>
      if (List.length dimensions <? 3)%nat then
        pad_dimensions fuel' (dimensions ++ [last dimensions (PFloat 1)])
      else dimensions
  end.

(** "Validate and normalize dimensions before sending" (create_component,
    lines 466 to 477). *)
Definition normalize_dimensions (type : string)
    (dimensions : option (list pynum)) : outcome (list float) :=
  let dimensions :=
    match dimensions with
    | None => [PInt 1; PInt 1; PInt 1]
    | Some dims =>
        if (List.length dims =? 2)%nat && (type =? "cylinder") then
          match dims with
          | [d0; d1] => [d0; d0; d1]
          | _ => dims
          end
        else if (List.length dims <? 3)%nat then pad_dimensions 3 dims
        else dims
    end in
  clamp_dimensions dimensions.

Definition valid_directions : list string :=
  ["up"; "down"; "forward"; "back"; "right"; "left"; "auto"].
Definition valid_origin_modes : list string :=
  ["center"; "bottom_center"; "top_center"; "min_corner"; "max_corner"].

(** [x or [0, 0, 0]]. *)
Definition or_origin (x : json) : json :=
  if py_truthy x then x else JArr [JInt 0; JInt 0; JInt 0].

Section Tools.
Context `{PyLib}.

(** [float(v)] of a JSON value. *)
Definition py_float (v : json) : outcome float :=
  match v with
  | JInt z => float_of_int z
  | JFloat f => Ok f
  | JBool b => Ok (if b then 1 else 0)%float
  | JStr s =>
      match float_of_str s with
      | Some f => Ok f
      | None => Err (ValueError ("could not convert string to float: "
                                   ++ py_repr v))
      end
  | _ => Err (TypeError
                  ("float() argument must be a string or a real number, not '"
                   ++ py_type_name v ++ "'"))
  end.

(** [result and result.get("success")], as a truth value. *)
Definition reports_success (result : json) : outcome bool :=
  if py_truthy result then
    s <~ py_get result "success" JNull;;
    Ok (py_truthy s)
  else Ok false.

(** The payloads of the tools that answer with a JSON object. *)
Definition payload (message : string) (details : json) : string :=
  json_dumps (JObj [("message", JStr message); ("details", details)]).
Definition error_payload (message : string) : string :=
  json_dumps (JObj [("message", JStr message); ("error", JBool true);
                    ("details", JNull)]).

(** The arguments of a "tools/call" request. *)
Definition tool_params (name : string) (arguments : dict) : option dict :=
  Some [("name", JStr name); ("arguments", JObj arguments)].

(** [sketchup = get_sketchup_connection();
     result = sketchup.send_command("tools/call", {...}, ctx.request_id)]. *)
Definition call_sketchup (name : string) (arguments : dict)
    (request_id : json) : M tstate json :=
  get_sketchup_connection;;;
  method (send_command "tools/call" (tool_params name arguments) request_id).

(** [float(b.get(k, 0)) if b.get(k) is not None else 0.0]. *)
Definition bound_value (bounds_data : json) (k : string) : outcome float :=
  v <~ py_get bounds_data k JNull;;
  match v with
  | JNull => Ok 0%float
  | _ =>
      v' <~ py_get bounds_data k (JInt 0);;
      py_float v'
  end.

(** The plain English summary of a successful creation (lines 506 to
    528). *)
Definition create_component_message (type direction origin_mode : string)
    (result : json) : outcome string :=
  component_id <~ py_get result "id" JNull;;
  let comp_type_from_input := str_capitalize type in
  verification <~ py_get result "verification" (JObj []);;
  comp_type_from_result <~
    py_get verification "type" (JStr comp_type_from_input);;
  let comp_type_for_message :=
    match comp_type_from_result with
    | JStr s => str_capitalize s
    | _ => comp_type_from_input
    end in
  bounds <~ py_get verification "bounds" (JObj []);;
  actual_center <~ py_get bounds "center" (JStr "N/A");;
  let bounds_data := bounds in
  dims_str <~
    (if py_truthy bounds_data then
       has_w <~ py_in "width" bounds_data;;
       has_h <~ (if has_w : bool then py_in "height" bounds_data
                 else Ok false);;
       has_d <~ (if has_h : bool then py_in "depth" bounds_data
                 else Ok false);;
       if has_d : bool then
         width <~ bound_value bounds_data "width";;
         height <~ bound_value bounds_data "height";;
         depth <~ bound_value bounds_data "depth";;
         Ok ("[" ++ format_2f width ++ ", " ++ format_2f height ++ ", "
              ++ format_2f depth ++ "]")%string
       else Ok "N/A"
     else Ok "N/A");;
  let directional_info :=
    ("Created with direction='" ++ direction ++ "', origin_mode='"
     ++ origin_mode ++ "'. ")%string in
  explanation <~ py_get result "positioning_explanation" (JStr "");;
  Ok (comp_type_for_message ++ " (ID: " ++ py_str component_id
       ++ ") created. " ++ directional_info ++ "Actual center: "
       ++ py_str actual_center ++ ", Dimensions (W,H,D): " ++ dims_str
       ++ ". " ++ py_str explanation)%string.

(** The arguments create_component forwards to the peer. *)
Definition create_component_arguments (type : string) (position : json)
    (dimensions : list float) (direction origin_mode : string) : dict :=
  [("type", JStr type);
   ("position", or_origin position);
   ("dimensions", JArr (map JFloat dimensions));
   ("direction", JStr direction);
   ("origin_mode", JStr origin_mode)].

Definition create_component (request_id : json) (type : string)
    (position : json) (dimensions : option (list pynum))
    (direction origin_mode : string) : M tstate string :=
  try_except
    (dimensions <- lift (normalize_dimensions type dimensions);;
     if negb (existsb (String.eqb direction) valid_directions) then
       raise (ValueError
                ("Invalid direction '" ++ direction
                 ++ "'. Must be one of: ['up', 'down', 'forward', 'back', 'right', 'left', 'auto']"))
     else if negb (existsb (String.eqb origin_mode) valid_origin_modes) then
       raise (ValueError
                ("Invalid origin_mode '" ++ origin_mode
                 ++ "'. Must be one of: ['center', 'bottom_center', 'top_center', 'min_corner', 'max_corner']"))
     else
       result <- call_sketchup "create_component_with_verification"
                   (create_component_arguments type position dimensions
                      direction origin_mode) request_id;;
       ok <- lift (reports_success result);;
       if ok : bool then
         message <- lift (create_component_message type direction
                            origin_mode result);;
         ret (payload message result)
       else
         error_message <- lift (py_get result "error"
                          (JStr "Unknown error during component creation."));;
         ret (payload ("Failed to create component: "
                       ++ py_str error_message) result))
    (fun e => ret (error_payload ("Error creating component: "
                                  ++ exn_str e))).

(** The three-way answer shared by delete_component, transform_component,
    get_selection, set_material and export_scene:
    [if result and result.get("success"): ... elif result: ... else: ...]. *)
Definition answer (result : json) (on_success : outcome string)
    (default_reason : string) (failure : string -> string)
    (empty_message : string) : outcome string :=
  ok <~ reports_success result;;
  if ok : bool then
    message <~ on_success;;
    Ok (payload message result)
  else if py_truthy result then
    error_reason <~ py_get result "message" (JStr default_reason);;
    Ok (payload (failure (py_str error_reason)) result)
  else Ok (error_payload empty_message).

Definition delete_component (request_id : json) (id : string)
    : M tstate string :=
  try_except
    (result <- call_sketchup "delete_component" [("id", JStr id)] request_id;;
     lift (answer result
             (Ok ("Component with ID '" ++ id ++ "' deleted successfully.")%string)
             ("Component ID '" ++ id ++ "' not found or another error occurred.")
             (fun error_reason =>
                "Failed to delete component with ID '" ++ id ++ "'. Reason: "
                ++ error_reason)
             ("Received an unexpected or empty response when trying to delete component ID '"
              ++ id ++ "'.")))
    (fun e => ret (error_payload ("Error deleting component ID '" ++ id
                                  ++ "': " ++ exn_str e))).

(** [if x is not None: arguments[k] = x;
     applied_transformations.append(f"{what} to {x}")]. *)
Definition add_transformation (k : string) (x : json)
    (acc : dict * list string) : dict * list string :=
  match x with
  | JNull => acc
  | _ => (dict_set k x (fst acc),
          (snd acc ++ [(k ++ " to " ++ py_str x)%string])%list)
  end.

Definition no_transformation_message : string :=
  "No transformation (position, rotation, or scale) provided. Component not changed.".

Definition transform_component (request_id : json) (id : string)
    (position rotation scale : json) : M tstate string :=
  try_except
    (get_sketchup_connection;;;
     let '(arguments, applied_transformations) :=
       add_transformation "scale" scale
         (add_transformation "rotation" rotation
            (add_transformation "position" position
               ([("id", JStr id)], []))) in
     match applied_transformations with
     | [] =>
         ret (payload no_transformation_message
                (JObj [("success", JBool true); ("id", JStr id);
                       ("changes_applied", JBool false)]))
     | _ =>
         result <- method (send_command "tools/call"
                             (tool_params "transform_component" arguments)
                             request_id);;
         lift (answer result
                 (Ok ("Component ID '" ++ id ++ "' transformed successfully: "
                       ++ String.concat ", " applied_transformations ++ ".")%string)
                 ("Component ID '" ++ id ++ "' not found or transform failed.")
                 (fun error_reason =>
                    "Failed to transform component ID '" ++ id
                    ++ "'. Reason: " ++ error_reason)
                 ("Received an unexpected or empty response when trying to transform component ID '"
                  ++ id ++ "'."))
     end)
    (fun e => ret (error_payload ("Error transforming component ID '" ++ id
                                  ++ "': " ++ exn_str e))).

(** [for item in v]: the items a loop over [v] visits. *)
Definition py_iter (v : json) : outcome (list json) :=
  match v with
  | JArr l => Ok l
  | JObj kv => Ok (map (fun p => JStr (fst p)) kv)
  | JStr s => Ok (map (fun c => JStr (String c EmptyString))
                       (list_ascii_of_string s))
  | _ => Err (TypeError ("'" ++ py_type_name v
                           ++ "' object is not iterable"))
  end.

(** The loop that describes the selected items. *)
Fixpoint item_descs (items : list json) : outcome (list string) :=
  match items with
  | [] => Ok []
  | item :: rest =>
      item_id <~ py_get item "id" (JStr "Unknown ID");;
      item_type <~ py_get item "type" (JStr "Entity");;
      descs <~ item_descs rest;;
      Ok ((py_str item_type ++ " (ID: " ++ py_str item_id ++ ")")%string
           :: descs)
  end.

Definition nat_str (n : nat) : string :=
  DecimalString.NilZero.string_of_uint (Nat.to_uint n).

Definition selection_message (result : json) : outcome string :=
  selected_items <~ py_get result "selection" (JArr []);;
  if py_truthy selected_items then
    items <~ py_iter selected_items;;
    descs <~ item_descs items;;
    Ok ("Currently selected components (" ++ nat_str (List.length items)
         ++ "): " ++ String.concat ", " descs ++ ".")%string
  else Ok "No components are currently selected.".

Definition get_selection (request_id : json) : M tstate string :=
  try_except
    (result <- call_sketchup "get_selection" [] request_id;;
     lift (answer result (selection_message result)
             "Failed to retrieve selection from Sketchup."
             (fun error_reason =>
                "Could not retrieve selection. Reason: " ++ error_reason)
             "Received an unexpected or empty response when trying to get selection."))
    (fun e => ret (error_payload ("Error getting selection: " ++ exn_str e))).

Definition set_material (request_id : json) (id material : string)
    : M tstate string :=
  try_except
    (result <- call_sketchup "set_material"
                 [("id", JStr id); ("material", JStr material)] request_id;;
     lift (answer result
             (Ok ("Material for component ID '" ++ id
                   ++ "' successfully set to '" ++ material ++ "'.")%string)
             ("Component ID '" ++ id ++ "' or material '" ++ material
              ++ "' not found, or another error occurred.")
             (fun error_reason =>
                "Failed to set material '" ++ material
                ++ "' for component ID '" ++ id ++ "'. Reason: "
                ++ error_reason)
             ("Received an unexpected or empty response when trying to set material for component ID '"
              ++ id ++ "'.")))
    (fun e => ret (error_payload ("Error setting material for component ID '"
                                  ++ id ++ "': " ++ exn_str e))).

Definition export_scene (request_id : json) (format : string)
    : M tstate string :=
  try_except
    (result <- call_sketchup "export" [("format", JStr format)] request_id;;
     lift (answer result
             (file_path <~ py_get result "file_path"
                             (JStr "An unspecified location by SketchUp");;
              Ok ("Scene successfully exported in " ++ str_upper format
                   ++ " format. File saved to: " ++ py_str file_path
                   ++ ".")%string)
             ("Export to " ++ str_upper format ++ " format failed.")
             (fun error_reason =>
                "Failed to export scene in " ++ str_upper format
                ++ " format. Reason: " ++ error_reason)
             ("Received an unexpected or empty response when trying to export scene in "
              ++ str_upper format ++ " format.")))
    (fun e => ret (error_payload ("Error exporting scene in "
                                  ++ str_upper format ++ " format: "
                                  ++ exn_str e))).

(** The ["result"] of eval_ruby's answer: the text of the first content
    item when [result.get("content")] is a non-empty list, else "Success". *)
Definition eval_ruby_text (result : json) : outcome json :=
  content <~ py_get result "content" JNull;;
  match content with
  | JArr (first :: _) => py_get first "text" (JStr "Success")
  | _ => Ok (JStr "Success")
  end.

Definition eval_ruby (request_id : json) (code : string) : M tstate string :=
  try_except
    (result <- call_sketchup "eval_ruby" [("code", JStr code)] request_id;;
     text <- lift (eval_ruby_text result);;
     ret (json_dumps (JObj [("success", JBool true); ("result", text)])))
    (fun e => ret (json_dumps (JObj [("success", JBool false);
                                     ("error", JStr (exn_str e))]))).

(** The tools that forward their arguments, return [json.dumps(result)] and
    on an exception return [f"Error ...: {str(e)}"]. *)
Definition forwarding_tool (name : string) (arguments : dict)
    (error_prefix : string) (request_id : json) : M tstate string :=
  try_except
    (result <- call_sketchup name arguments request_id;;
     ret (json_dumps result))
    (fun e => ret (error_prefix ++ exn_str e)%string).

Definition create_mortise_tenon (request_id mortise_id tenon_id width height
    depth offset_x offset_y offset_z : json) : M tstate string :=
  forwarding_tool "create_mortise_tenon"
    [("mortise_id", mortise_id); ("tenon_id", tenon_id); ("width", width);
     ("height", height); ("depth", depth); ("offset_x", offset_x);
     ("offset_y", offset_y); ("offset_z", offset_z)]
    "Error creating mortise and tenon joint: " request_id.

Definition create_dovetail (request_id tail_id pin_id width height depth
    angle num_tails offset_x offset_y offset_z : json) : M tstate string :=
  forwarding_tool "create_dovetail"
    [("tail_id", tail_id); ("pin_id", pin_id); ("width", width);
     ("height", height); ("depth", depth); ("angle", angle);
     ("num_tails", num_tails); ("offset_x", offset_x);
     ("offset_y", offset_y); ("offset_z", offset_z)]
    "Error creating dovetail joint: " request_id.

Definition create_finger_joint (request_id board1_id board2_id width height
    depth num_fingers offset_x offset_y offset_z : json) : M tstate string :=
  forwarding_tool "create_finger_joint"
    [("board1_id", board1_id); ("board2_id", board2_id); ("width", width);
     ("height", height); ("depth", depth); ("num_fingers", num_fingers);
     ("offset_x", offset_x); ("offset_y", offset_y); ("offset_z", offset_z)]
    "Error creating finger joint: " request_id.

Definition calculate_distance (request_id point1 point2 : json)
    : M tstate string :=
  forwarding_tool "calculate_distance"
    [("point1", point1); ("point2", point2)]
    "Error calculating distance: " request_id.

Definition measure_components (request_id component_ids type : json)
    : M tstate string :=
  forwarding_tool "measure_components"
    [("component_ids", component_ids); ("type", type)]
    "Error measuring components: " request_id.

Definition inspect_component (request_id component_id : json)
    : M tstate string :=
  forwarding_tool "inspect_component" [("component_id", component_id)]
    "Error inspecting component: " request_id.

Definition create_reference_markers (request_id points size color
    label_prefix : json) : M tstate string :=
  forwarding_tool "create_reference_markers"
    [("points", points); ("size", size); ("color", color);
     ("label_prefix", label_prefix)]
    "Error creating reference markers: " request_id.

Definition clear_reference_markers (request_id label_prefix : json)
    : M tstate string :=
  forwarding_tool "clear_reference_markers"
    [("label_prefix", label_prefix)]
    "Error clearing reference markers: " request_id.

Definition snap_align_component (request_id source_component_id
    target_component_id alignment_type offset : json) : M tstate string :=
  forwarding_tool "snap_align_component"
    [("source_component_id", source_component_id);
     ("target_component_id", target_component_id);
     ("alignment_type", alignment_type); ("offset", or_origin offset)]
    "Error snapping/aligning component: " request_id.

Definition create_grid_system (request_id origin x_spacing y_spacing x_count
    y_count marker_size show_labels color label_prefix : json)
    : M tstate string :=
  forwarding_tool "create_grid_system"
    [("origin", or_origin origin); ("x_spacing", x_spacing);
     ("y_spacing", y_spacing); ("x_count", x_count); ("y_count", y_count);
     ("marker_size", marker_size); ("show_labels", show_labels);
     ("color", color); ("label_prefix", label_prefix)]
    "Error creating grid system: " request_id.

(** Here [get_sketchup_connection()] precedes the construction of the
    arguments, which cannot raise. *)
Definition query_all_components (request_id include_details type_filter
    : json) : M tstate string :=
  forwarding_tool "query_all_components"
    (if py_truthy type_filter
     then [("include_details", include_details); ("type_filter", type_filter)]
     else [("include_details", include_details)])
    "Error querying components: " request_id.

Definition position_relative_to_component (request_id source_component_id
    reference_component_id relative_position offset : json)
    : M tstate string :=
  forwarding_tool "position_relative_to_component"
    [("source_component_id", source_component_id);
     ("reference_component_id", reference_component_id);
     ("relative_position", relative_position); ("offset", or_origin offset)]
    "Error positioning component relatively: " request_id.

Definition position_between_components (request_id source_component_id
    component1_id component2_id ratio offset : json) : M tstate string :=
  forwarding_tool "position_between_components"
    [("source_component_id", source_component_id);
     ("component1_id", component1_id); ("component2_id", component2_id);
     ("ratio", ratio); ("offset", or_origin offset)]
    "Error positioning component between others: " request_id.

Definition show_component_bounds (request_id component_ids show_wireframe
    color label_prefix : json) : M tstate string :=
  forwarding_tool "show_component_bounds"
    [("component_ids", component_ids); ("show_wireframe", show_wireframe);
     ("color", color); ("label_prefix", label_prefix)]
    "Error showing component bounds: " request_id.

Definition preview_position (request_id type position dimensions : json)
    : M tstate string :=
  forwarding_tool "preview_position"
    [("type", type); ("position", or_origin position);
     ("dimensions", if py_truthy dimensions then dimensions
                    else JArr [JInt 1; JInt 1; JInt 1])]
    "Error previewing position: " request_id.

End Tools.

(** ** The inventory of the tools *)

(** One call of a tool, with its arguments. *)
Inductive tool_call : Type :=
| CreateComponent (type : string) (position : json)
    (dimensions : option (list pynum)) (direction origin_mode : string)
| DeleteComponent (id : string)
| TransformComponent (id : string) (position rotation scale : json)
| GetSelection
| SetMaterial (id material : string)
| ExportScene (format : string)
| EvalRuby (code : string)
| CreateMortiseTenon (mortise_id tenon_id width height depth offset_x
    offset_y offset_z : json)
| CreateDovetail (tail_id pin_id width height depth angle num_tails offset_x
    offset_y offset_z : json)
| CreateFingerJoint (board1_id board2_id width height depth num_fingers
    offset_x offset_y offset_z : json)
| CalculateDistance (point1 point2 : json)
| MeasureComponents (component_ids type : json)
| InspectComponent (component_id : json)
| CreateReferenceMarkers (points size color label_prefix : json)
| ClearReferenceMarkers (label_prefix : json)
| SnapAlignComponent (source_component_id target_component_id alignment_type
    offset : json)
| CreateGridSystem (origin x_spacing y_spacing x_count y_count marker_size
    show_labels color label_prefix : json)
| QueryAllComponents (include_details type_filter : json)
| PositionRelativeToComponent (source_component_id reference_component_id
    relative_position offset : json)
| PositionBetweenComponents (source_component_id component1_id component2_id
    ratio offset : json)
| ShowComponentBounds (component_ids show_wireframe color label_prefix : json)
| PreviewPosition (type position dimensions : json).

Definition run_tool `{PyLib} (request_id : json) (call : tool_call)
    : M tstate string :=
  match call with
  | CreateComponent type position dimensions direction origin_mode =>
      create_component request_id type position dimensions direction
                       origin_mode
  | DeleteComponent id => delete_component request_id id
  | TransformComponent id position rotation scale =>
      transform_component request_id id position rotation scale
  | GetSelection => get_selection request_id
  | SetMaterial id material => set_material request_id id material
  | ExportScene format => export_scene request_id format
  | EvalRuby code => eval_ruby request_id code
  | CreateMortiseTenon a b c d e f g h =>
      create_mortise_tenon request_id a b c d e f g h
  | CreateDovetail a b c d e f g h i j =>
      create_dovetail request_id a b c d e f g h i j
  | CreateFingerJoint a b c d e f g h i =>
      create_finger_joint request_id a b c d e f g h i
  | CalculateDistance a b => calculate_distance request_id a b
  | MeasureComponents a b => measure_components request_id a b
  | InspectComponent a => inspect_component request_id a
  | CreateReferenceMarkers a b c d =>
      create_reference_markers request_id a b c d
  | ClearReferenceMarkers a => clear_reference_markers request_id a
  | SnapAlignComponent a b c d => snap_align_component request_id a b c d
  | CreateGridSystem a b c d e f g h i =>
      create_grid_system request_id a b c d e f g h i
  | QueryAllComponents a b => query_all_components request_id a b
  | PositionRelativeToComponent a b c d =>
      position_relative_to_component request_id a b c d
  | PositionBetweenComponents a b c d e =>
      position_between_components request_id a b c d e
  | ShowComponentBounds a b c d => show_component_bounds request_id a b c d
  | PreviewPosition a b c => preview_position request_id a b c
  end.

(** The tools whose every [return] is [json.dumps] of an object. *)
Definition answers_with_object (call : tool_call) : bool :=
  match call with
  | CreateComponent _ _ _ _ _ | DeleteComponent _ | TransformComponent _ _ _ _
  | GetSelection | SetMaterial _ _ | ExportScene _ | EvalRuby _ => true
  | _ => false
  end.

(** The text before [str(e)] in what a forwarding tool returns on an
    exception. *)
Definition error_prefix (call : tool_call) : string :=
  match call with
  | CreateMortiseTenon _ _ _ _ _ _ _ _ =>
      "Error creating mortise and tenon joint: "
  | CreateDovetail _ _ _ _ _ _ _ _ _ _ => "Error creating dovetail joint: "
  | CreateFingerJoint _ _ _ _ _ _ _ _ _ => "Error creating finger joint: "
  | CalculateDistance _ _ => "Error calculating distance: "
  | MeasureComponents _ _ => "Error measuring components: "
  | InspectComponent _ => "Error inspecting component: "
  | CreateReferenceMarkers _ _ _ _ => "Error creating reference markers: "
  | ClearReferenceMarkers _ => "Error clearing reference markers: "
  | SnapAlignComponent _ _ _ _ => "Error snapping/aligning component: "
  | CreateGridSystem _ _ _ _ _ _ _ _ _ => "Error creating grid system: "
  | QueryAllComponents _ _ => "Error querying components: "
  | PositionRelativeToComponent _ _ _ _ =>
      "Error positioning component relatively: "
  | PositionBetweenComponents _ _ _ _ _ =>
      "Error positioning component between others: "
  | ShowComponentBounds _ _ _ _ => "Error showing component bounds: "
  | PreviewPosition _ _ _ => "Error previewing position: "
  | _ => EmptyString
  end.

(** The shapes of what a tool that answers with an object returns. *)
Definition object_answer `{PyLib} (out : string) : Prop :=
  (exists message details, out = payload message details)
  \/ (exists message, out = error_payload message)
  \/ (exists text,
         out = json_dumps (JObj [("success", JBool true); ("result", text)]))
  \/ (exists message,
         out = json_dumps (JObj [("success", JBool false);
                                 ("error", JStr message)])).

(** The envelope create_component sends, for the normalized dimensions. *)
Definition create_component_request (request_id : json) (type : string)
    (position : json) (dimensions : list float)
    (direction origin_mode : string) : json :=
  build_request "tools/call"
    (tool_params "create_component_with_verification"
       (create_component_arguments type position dimensions direction
          origin_mode))
    request_id.

Definition ttrace (ts : tstate) : list event := trace (tenv ts).

(** What a computation returns when it returns. *)
Definition returns {S A} (P : A -> Prop) (m : M S A) : Prop :=
  forall st a st', m st = (Ret a, st') -> P a.

(** ** A reference instance of the Python library

    An executable [PyLib] to run the model on concrete inputs. Its decoder
    is the UTF-8 validity check. Its JSON functions cover the documents made
    of objects, arrays, integers, [true], [false], [null] and strings
    without the u-escape, where they compute what Python computes; a
    document outside this fragment is rejected by [loads], and a float that
    is not a whole number below 10^16 is printed as [<float>]. *)

Module Ref.

Definition in_range (lo hi : N) (b : byte) : bool :=
  let n := Byte.to_N b in (lo <=? n)%N && (n <=? hi)%N.

(** Well-formed UTF-8 (no overlong form, no surrogate, at most U+10FFFF). *)
Fixpoint utf8_valid (l : bytes) : bool :=
  match l with
  | [] => true
  | b :: r =>
      if in_range 0 127 b then utf8_valid r
      else if in_range 194 223 b then
        match r with
        | c1 :: r1 => in_range 128 191 c1 && utf8_valid r1
        | _ => false
        end
      else if in_range 224 239 b then
        match r with
        | c1 :: c2 :: r2 =>
            in_range (if in_range 224 224 b then 160 else 128)
                     (if in_range 237 237 b then 159 else 191) c1
            && in_range 128 191 c2 && utf8_valid r2
        | _ => false
        end
      else if in_range 240 244 b then
        match r with
        | c1 :: c2 :: c3 :: r3 =>
            in_range (if in_range 240 240 b then 144 else 128)
                     (if in_range 244 244 b then 143 else 191) c1
            && in_range 128 191 c2 && in_range 128 191 c3 && utf8_valid r3
        | _ => false
        end
      else false
  end.

Definition decode (data : bytes) : option string :=
  if utf8_valid data then Some (string_of_list_byte data) else None.

Definition dquote : ascii := "034"%char.
Definition backslash : ascii := "092"%char.

(** The text [s] with each apostrophe replaced by a double quote: a way to
    write JSON text as a literal. *)
Fixpoint dq (s : string) : string :=
  match s with
  | EmptyString => EmptyString
  | String c r => String (if (c =? "'")%char then dquote else c) (dq r)
  end.

Definition is_ws (c : ascii) : bool :=
  (c =? " ")%char || (c =? "009")%char || (c =? "010")%char
  || (c =? "013")%char.

Fixpoint skip_ws (s : string) : string :=
  match s with
  | String c r => if is_ws c then skip_ws r else s
  | EmptyString => s
  end.

(** [Some rest] when [s] is [p ++ rest]. *)
Fixpoint strip (p s : string) : option string :=
  match p with
  | EmptyString => Some s
  | String a p' =>
      match s with
      | String b s' => if (a =? b)%char then strip p' s' else None
      | EmptyString => None
      end
  end.

Definition unescape (c : ascii) : option ascii :=
  if (c =? dquote)%char then Some dquote
  else if (c =? backslash)%char then Some backslash
  else if (c =? "/")%char then Some "/"%char
  else if (c =? "b")%char then Some "008"%char
  else if (c =? "f")%char then Some "012"%char
  else if (c =? "n")%char then Some "010"%char
  else if (c =? "r")%char then Some "013"%char
  else if (c =? "t")%char then Some "009"%char
  else None.

(** The body of a string literal, after its opening quote. *)
Fixpoint parse_string (s : string) : option (string * string) :=
  match s with
  | EmptyString => None
  | String c r =>
      if (c =? dquote)%char then Some (EmptyString, r)
      else if (c =? backslash)%char then
        match r with
        | String e r' =>
            match unescape e, parse_string r' with
            | Some ch, Some (t, rest) => Some (String ch t, rest)
            | _, _ => None
            end
        | EmptyString => None
        end
      else if (nat_of_ascii c <? 32)%nat then None
      else
        match parse_string r with
        | Some (t, rest) => Some (String c t, rest)
        | None => None
        end
  end.

Definition digit_val (c : ascii) : option Z :=
  let n := nat_of_ascii c in
  if (48 <=? n)%nat && (n <=? 57)%nat then Some (Z.of_nat (n - 48)) else None.

Fixpoint parse_digits (s : string) (acc : Z) : Z * string :=
  match s with
  | String c r =>
      match digit_val c with
      | Some d => parse_digits r (acc * 10 + d)%Z
      | None => (acc, s)
      end
  | EmptyString => (acc, s)
  end.

(** An integer literal: an optional minus, then 0 or a digit string that
    does not start with 0, with no fraction or exponent after it. *)
Definition parse_int (s : string) : option (Z * string) :=
  let '(neg, s1) :=
    match s with
    | String c r => if (c =? "-")%char then (true, r) else (false, s)
    | EmptyString => (false, s)
    end in
  match s1 with
  | String c r =>
      match digit_val c with
      | None => None
      | Some d =>
          let '(n, rest) :=
            if (d =? 0)%Z then (0%Z, r) else parse_digits r d in
          let n := if neg : bool then (- n)%Z else n in
          match rest with
          | String c' _ =>
              if (c' =? ".")%char || (c' =? "e")%char || (c' =? "E")%char
              then None else Some (n, rest)
          | EmptyString => Some (n, rest)
          end
      end
  | EmptyString => None
  end.

Fixpoint parse_value (fuel : nat) (s : string) {struct fuel}
    : option (json * string) :=
  match fuel with
  | O => None
  | S f =>
      let s := skip_ws s in
      match strip "null" s, strip "true" s, strip "false" s with
      | Some r, _, _ => Some (JNull, r)
      | _, Some r, _ => Some (JBool true, r)
      | _, _, Some r => Some (JBool false, r)
      | None, None, None =>
          match s with
          | EmptyString => None
          | String c r =>
              if (c =? dquote)%char then
                match parse_string r with
                | Some (t, r') => Some (JStr t, r')
                | None => None
                end
              else if (c =? "[")%char then
                match skip_ws r with
                | EmptyString => None
                | String c' r' =>
                    if (c' =? "]")%char then Some (JArr [], r')
                    else
                      match parse_elements f (String c' r') with
                      | Some (l, r'') => Some (JArr l, r'')
                      | None => None
                      end
                end
              else if (c =? "{")%char then
                match skip_ws r with
                | EmptyString => None
                | String c' r' =>
                    if (c' =? "}")%char then Some (JObj [], r')
                    else
                      match parse_members f (String c' r') [] with
                      | Some (kv, r'') => Some (JObj kv, r'')
                      | None => None
                      end
                end
              else
                match parse_int s with
                | Some (n, r') => Some (JInt n, r')
                | None => None
                end
          end
      end
  end
with parse_elements (fuel : nat) (s : string) {struct fuel}
    : option (list json * string) :=
  match fuel with
  | O => None
  | S f =>
      match parse_value f s with
      | None => None
      | Some (v, r) =>
          match skip_ws r with
          | EmptyString => None
          | String c r' =>
              if (c =? ",")%char then
                match parse_elements f r' with
                | Some (l, r'') => Some (v :: l, r'')
                | None => None
                end
              else if (c =? "]")%char then Some ([v], r')
              else None
          end
      end
  end
with parse_members (fuel : nat) (s : string) (acc : dict) {struct fuel}
    : option (dict * string) :=
  match fuel with
  | O => None
  | S f =>
      match skip_ws s with
      | EmptyString => None
      | String c r =>
          if (c =? dquote)%char then
            match parse_string r with
            | None => None
            | Some (k, r1) =>
                match skip_ws r1 with
                | EmptyString => None
                | String c1 r2 =>
                    if (c1 =? ":")%char then
                      match parse_value f r2 with
                      | None => None
                      | Some (v, r3) =>
                          let acc' := dict_set k v acc in
                          match skip_ws r3 with
                          | EmptyString => None
                          | String c3 r4 =>
                              if (c3 =? ",")%char then parse_members f r4 acc'
                              else if (c3 =? "}")%char then Some (acc', r4)
                              else None
                          end
                      end
                    else None
                end
            end
          else None
      end
  end.

(** The whole text is one value, with blanks around it. *)
Definition loads (text : string) : option json :=
  match parse_value (2 * String.length text + 2) text with
  | Some (v, rest) =>
      match skip_ws rest with
      | EmptyString => Some v
      | _ => None
      end
  | None => None
  end.

Definition Z_str (z : Z) : string :=
  DecimalString.NilZero.string_of_int (Z.to_int z).

(** The integer that a float is, when it is one. *)
Definition float_whole (f : float) : option Z :=
  match Prim2SF f with
  | S754_zero false => Some 0%Z
  | S754_finite s m e =>
      let sign := fun z : Z => if s then (- z)%Z else z in
      if (0 <=? e)%Z then Some (sign (Z.pos m * 2 ^ e)%Z)
      else
        let d := (2 ^ (- e))%Z in
        if (Z.pos m mod d =? 0)%Z then Some (sign (Z.pos m / d)%Z) else None
  | _ => None
  end.

Definition float_text (suffix : string) (f : float) : string :=
  match float_whole f with
  | Some z =>
      if (Z.abs z <? 10 ^ 16)%Z then Z_str z ++ suffix else "<float>"
  | None => "<float>"
  end.

Definition hex_digit (n : nat) : ascii :=
  ascii_of_nat (if (n <? 10)%nat then 48 + n else 87 + n).

(** The escapes of [json.dumps] for one ASCII character. *)
Definition escape_char (c : ascii) : string :=
  let n := nat_of_ascii c in
  if (c =? dquote)%char then String backslash (String dquote EmptyString)
  else if (c =? backslash)%char then
    String backslash (String backslash EmptyString)
  else if (c =? "010")%char then String backslash "n"
  else if (c =? "013")%char then String backslash "r"
  else if (c =? "009")%char then String backslash "t"
  else if (c =? "008")%char then String backslash "b"
  else if (c =? "012")%char then String backslash "f"
  else if (n <? 32)%nat || (n =? 127)%nat then
    String backslash
      ("u00" ++ String (hex_digit (n / 16))
                       (String (hex_digit (n mod 16)) EmptyString))
  else String c EmptyString.

Fixpoint escape (s : string) : string :=
  match s with
  | EmptyString => EmptyString
  | String c r => escape_char c ++ escape r
  end.

Definition quote (s : string) : string :=
  String dquote (escape s ++ String dquote EmptyString).

Fixpoint dumps (v : json) : string :=
  match v with
  | JNull => "null"
  | JBool true => "true"
  | JBool false => "false"
  | JInt z => Z_str z
  | JFloat f => float_text ".0" f
  | JStr s => quote s
  | JArr l =>
      "["
      ++ (fix go (l : list json) : string :=
            match l with
            | [] => EmptyString
            | [x] => dumps x
            | x :: r => dumps x ++ ", " ++ go r
            end) l
      ++ "]"
  | JObj kv =>
      "{"
      ++ (fix go (kv : list (string * json)) : string :=
            match kv with
            | [] => EmptyString
            | [(k, x)] => quote k ++ ": " ++ dumps x
            | (k, x) :: r => quote k ++ ": " ++ dumps x ++ ", " ++ go r
            end) kv
      ++ "}"
  end.

(** [repr(v)], for strings of letters, digits, blanks and punctuation other
    than quotes and the backslash. *)
Fixpoint repr (v : json) : string :=
  match v with
  | JNull => "None"
  | JBool true => "True"
  | JBool false => "False"
  | JInt z => Z_str z
  | JFloat f => float_text ".0" f
  | JStr s => "'" ++ s ++ "'"
  | JArr l =>
      "["
      ++ (fix go (l : list json) : string :=
            match l with
            | [] => EmptyString
            | [x] => repr x
            | x :: r => repr x ++ ", " ++ go r
            end) l
      ++ "]"
  | JObj kv =>
      "{"
      ++ (fix go (kv : list (string * json)) : string :=
            match kv with
            | [] => EmptyString
            | [(k, x)] => "'" ++ k ++ "': " ++ repr x
            | (k, x) :: r => "'" ++ k ++ "': " ++ repr x ++ ", " ++ go r
            end) kv
      ++ "}"
  end.

Definition upper_char (c : ascii) : ascii :=
  let n := nat_of_ascii c in
  if (97 <=? n)%nat && (n <=? 122)%nat then ascii_of_nat (n - 32) else c.
Definition lower_char (c : ascii) : ascii :=
  let n := nat_of_ascii c in
  if (65 <=? n)%nat && (n <=? 90)%nat then ascii_of_nat (n + 32) else c.

Fixpoint map_string (f : ascii -> ascii) (s : string) : string :=
  match s with
  | EmptyString => EmptyString
  | String c r => String (f c) (map_string f r)
  end.

(** [s.upper()] and [s.capitalize()] of ASCII text. *)
Definition upper (s : string) : string := map_string upper_char s.
Definition capitalize (s : string) : string :=
  match s with
  | EmptyString => EmptyString
  | String c r => String (upper_char c) (map_string lower_char r)
  end.

(** [float(s)] of the text of an integer. *)
Definition float_of (s : string) : option float :=
  match parse_int s with
  | Some (z, EmptyString) =>
      Some (SF2Prim (binary_normalize prec emax z 0 false))
  | _ => None
  end.

#[export] Instance lib : PyLib := {
  utf8_decode := decode;
  json_loads := loads;
  json_dumps := dumps;
  py_repr := repr;
  str_capitalize := capitalize;
  str_upper := upper;
  float_of_str := float_of;
  format_2f := float_text ".00"
}.

End Ref.

(** ** States and worlds used to state and to run the properties *)

(** The state once [receive_full_response] has returned after [n] calls of
    [recv]: the socket's timeout is 30, the clock was read [1 + n] times,
    and the script is at [rest]. *)
Definition after_receive (n : nat) (rest : list recv_event) (st : mstate)
    : mstate :=
  let w := env st in
  mkState (mkConn (host (self st)) (port (self st)) (Some (mkSocket 30)))
          (mkWorld (clock w) (S (ticks w) + n) rest (sends w) (probes w)
                   (conns w) (trace w)).

(** The state once an iteration of send_command's receive loop has received
    a message that arrived in one chunk: the clock was read three times. *)
Definition after_message (rest : list recv_event) (st : mstate) : mstate :=
  let w := env st in
  mkState (mkConn (host (self st)) (port (self st)) (Some (mkSocket 30)))
          (mkWorld (clock w) (3 + ticks w) rest (sends w) (probes w)
                   (conns w) (trace w)).

(** The same after [n] such messages. *)
Definition after_messages (n : nat) (rest : list recv_event) (st : mstate)
    : mstate :=
  let w := env st in
  mkState (mkConn (host (self st)) (port (self st)) (Some (mkSocket 30)))
          (mkWorld (clock w) (3 * n + ticks w) rest (sends w) (probes w)
                   (conns w) (trace w)).

(** The state once [connect] has found the existing connection alive. *)
Definition after_probe (st : mstate) : mstate :=
  let w := env st in
  mkState (mkConn (host (self st)) (port (self st)) (Some (mkSocket 0.1)))
          (mkWorld (clock w) (ticks w) (recvs w) (sends w) (tl (probes w))
                   (conns w) (trace w ++ [EvProbe true])%list).

(** The state once [time.time()] has been read. *)
Definition ticked (st : mstate) : mstate :=
  let w := env st in
  mkState (self st)
          (mkWorld (clock w) (S (ticks w)) (recvs w) (sends w) (probes w)
                   (conns w) (trace w)).

(** The state once an attempt has sent [data] and read its start time. *)
Definition after_send (data : bytes) (op_timeout : float) (st : mstate)
    : mstate :=
  let w := env st in
  mkState (mkConn (host (self st)) (port (self st))
                  (Some (mkSocket op_timeout)))
          (mkWorld (clock w) (S (ticks w)) (recvs w) (tl (sends w))
                   (probes w) (conns w) (trace w ++ [EvSend data])%list).

(** The state once a retry has disconnected, slept for [d] and tried to
    connect again. *)
Definition after_backoff (d : float) (st : mstate) : mstate :=
  let w := env st in
  let ok := hd true (conns w) in
  mkState (mkConn (host (self st)) (port (self st))
                  (if ok then Some (mkSocket 30) else None))
          (mkWorld (clock w) (ticks w) (recvs w) (sends w) (probes w)
                   (tl (conns w))
                   (trace w
                    ++ match sock (self st) with
                       | Some _ => [EvClose]
                       | None => []
                       end
                    ++ [EvSleep d;
                        EvConnect (host (self st)) (port (self st)) ok])%list).

(** [self.sock = None], without closing. *)
Definition drop_sock (st : mstate) : mstate :=
  mkState (mkConn (host (self st)) (port (self st)) None) (env st).

(** The data of the [sendall] calls of a trace. *)
Definition sends_of (tr : list event) : list bytes :=
  flat_map (fun ev => match ev with EvSend d => [d] | _ => [] end) tr.

(** What a computation adds to the trace: whatever the state, events that
    all satisfy [ok], at most [k] of them calls of [sendall]. *)
Definition emits {S A} (tr : S -> list event) (ok : event -> Prop) (k : nat)
    (m : M S A) : Prop :=
  forall st, exists evs,
    tr (snd (m st)) = (tr st ++ evs)%list
    /\ Forall ok evs
    /\ List.length (sends_of evs) <= k.

Definition mtrace (st : mstate) : list event := trace (env st).

Definition nothing (ev : event) : Prop := False.
Definition no_send (ev : event) : Prop :=
  match ev with
  | EvSend _ => False
  | _ => True
  end.
Definition only_sends (data : bytes) (ev : event) : Prop :=
  match ev with
  | EvSend d => d = data
  | _ => True
  end.

(** A computation that never runs out of fuel. *)
Definition total {S A} (m : M S A) : Prop :=
  forall st, fst (m st) <> OutOfFuel.

(** An interim status notification: an object with no "error" field, whose
    "method" is "operation/status" and whose "params" is an object with
    "status" "running". *)
Definition running_status (r : json) : bool :=
  match r with
  | JObj d =>
      negb (dict_has "error" d)
      && py_eq (dict_get_default "method" JNull d) (JStr "operation/status")
      && match dict_get "params" d with
         | Some (JObj ps) =>
             py_eq (dict_get_default "status" JNull ps) (JStr "running")
         | _ => false
         end
  | _ => false
  end.

(** A final result for the call [request_id]: an object with no "error"
    field, whose "method" is not "operation/status", with a "result" field
    and an "id" equal to [request_id]. *)
Definition final_result_for (request_id : json) (r : json) : bool :=
  match r with
  | JObj d =>
      negb (dict_has "error" d)
      && negb (py_eq (dict_get_default "method" JNull d)
                     (JStr "operation/status"))
      && dict_has "result" d
      && py_eq (dict_get_default "id" JNull d) request_id
  | _ => false
  end.

(** [n] messages in a row, each in one chunk, are awaited in time: when the
    receive loop that read its start time at reading [t0] checks its budget
    ([op_timeout]) and when receive_full_response checks its ceiling. *)
Definition timely (clk : nat -> float) (t0 n : nat) (op_timeout : float)
    : Prop :=
  forall j : nat, j < n ->
    (clk (1 + t0 + 3 * j)%nat - clk t0 <? op_timeout)%float = true
    /\ (clk (3 + t0 + 3 * j)%nat - clk (2 + t0 + 3 * j)%nat
        <? max_response_time)%float = true.

(** An exception that neither handler of the receive loop catches. *)
Definition benign (e : exn) : Prop :=
  is_socket_timeout e = false /\ is_json_decode_error e = false.

(** The chunk [c] is one whole message, a running status notification. *)
Definition running_chunk `{PyLib} (c : bytes) : Prop :=
  c <> [] /\ exists r, decode_response c = Ok r /\ running_status r = true.

(** A connected session in a world whose clock stands still, whose peer
    plays the script [rs], and where nothing else fails. *)
Definition quiet_world (rs : list recv_event) : world :=
  mkWorld (fun _ => 0%float) 0 rs [] [] [] [].
Definition connected (rs : list recv_event) : mstate :=
  mkState (mkConn "localhost" 9876 (Some (mkSocket 30))) (quiet_world rs).

(** One [recv] that returns the JSON text written with apostrophes. *)
Definition chunk (text : string) : bytes := list_byte_of_string (Ref.dq text).
Definition delivers (text : string) : recv_event := RData (chunk text).

(** The arguments of the calls in the examples, and their envelope. *)
Definition example_params : option dict :=
  Some [("name", JStr "get_selection"); ("arguments", JObj [])].
Definition example_request : json :=
  build_request "tools/call" example_params (JInt 1).

(** The timeout table as the specification words it: keyed by the name of
    the operation. *)
Definition spec_timeout (name : string) : float :=
  if name =? "create_component" then 60
  else if (name =? "boolean_operation") || (name =? "create_dovetail")
          || (name =? "create_mortise_tenon")
          || (name =? "create_finger_joint") then 180
  else if name =? "eval_ruby" then 300
  else 120.

(** A clock that reads 0 four times and 200 from then on. *)
Definition late_clock (n : nat) : float :=
  if (n <? 4)%nat then 0%float else 200%float.

(** ** More vocabulary for the statements *)

(** The normalization of the dimensions as the specification words it,
    before the clamp: None is [1, 1, 1]; [d, h] for a cylinder is [d, d, h];
    any other list of fewer than three elements is padded with its last
    element, the empty one with 1.0; a longer list is kept. *)
Definition spec_dimensions (type : string) (dimensions : option (list pynum))
    : list pynum :=
  match dimensions with
  | None => [PInt 1; PInt 1; PInt 1]
  | Some [] => [PFloat 1; PFloat 1; PFloat 1]
  | Some [a] => [a; a; a]
  | Some [d; h] => if type =? "cylinder" then [d; d; h] else [d; h; h]
  | Some dims => dims
  end.

(** [f] is [max(0.1, float(d))]. *)
Definition clamped (d : pynum) (f : float) : Prop :=
  exists x : float, pynum_float d = Ok x /\ f = py_max 0.1 x.

(** The kinds of OSError that the first handler of the retry loop
    catches: socket.timeout, BrokenPipeError, ConnectionResetError and the
    other ConnectionErrors. *)
Definition transport_kind (k : os_kind) : bool :=
  match k with
  | OtherOSError => false
  | _ => true
  end.

(** The state once the [sendall] of an attempt has raised: the socket has
    the timeout 30 and the call is in the trace. *)
Definition after_failed_send (data : bytes) (st : mstate) : mstate :=
  let w := env st in
  mkState (mkConn (host (self st)) (port (self st)) (Some (mkSocket 30)))
          (mkWorld (clock w) (ticks w) (recvs w) (tl (sends w)) (probes w)
                   (conns w) (trace w ++ [EvSend data])%list).

(** The exceptions that leave send_command's retry loop. *)
Definition call_failure (e : exn) : Prop :=
  exists msg : string,
    e = PyException ("Connection to Sketchup lost after 4 attempts: " ++ msg)
    \/ e = PyException ("Communication error with Sketchup: " ++ msg).

(** [arguments[k] = x] when [x is not None]. *)
Definition given (k : string) (x : json) : dict :=
  match x with
  | JNull => []
  | _ => [(k, x)]
  end.

(** The session the tools share, when it is connected, and the state of
    the tools after a method call on it. *)
Definition session_of (ts : tstate) (c : SketchupConnection) : mstate :=
  mkState c (tenv ts).
Definition tool_state (st : mstate) : tstate :=
  mkTState (Some (self st)) (env st).

(** [f"{item_type} (ID: {item_id})"] for an item that is a dict. *)
Definition item_desc `{PyLib} (item : dict) : string :=
  py_str (dict_get_default "type" (JStr "Entity") item) ++ " (ID: "
  ++ py_str (dict_get_default "id" (JStr "Unknown ID") item) ++ ")".

(** The world after a connection to localhost:9876 was refused. *)
Definition refused (w : world) : world :=
  mkWorld (clock w) (ticks w) (recvs w) (sends w) (probes w) (tl (conns w))
          (trace w ++ [EvConnect "localhost" 9876 false])%list.

(** ** Sessions and peers of the examples *)

(** Messages of the peer, written with apostrophes. *)
Definition boom : string := "{'error':{'message':'boom'}}".
Definition boom_other_id : string := "{'error':{'message':'boom'},'id':2}".
Definition closed_by_peer : string :=
  "{'error':{'message':'Connection closed by peer'}}".
Definition result_other_id : string := "{'result':{'a':1},'id':2}".
Definition result_own_id : string := "{'result':{'a':5},'id':1}".
Definition success_own_id : string := "{'result':{'success':true},'id':1}".
Definition completed_other_id : string :=
  "{'method':'operation/status','params':{'status':'completed','result':{'a':1}},'id':2}".
Definition running_op1 : string :=
  "{'method':'operation/status','params':{'operation_id':'op-1','status':'running'}}".

(** A connected session whose first calls of [sendall] fail as [failures]
    says. *)
Definition failing_sends (failures : list (option (os_kind * string)))
    (rs : list recv_event) : mstate :=
  mkState (mkConn "localhost" 9876 (Some (mkSocket 30)))
          (mkWorld (fun _ => 0%float) 0 rs failures [] [] []).
Definition reset : option (os_kind * string) :=
  Some (ConnectionReset, "Connection reset by peer").

(** A connected session whose clock is [late_clock]. *)
Definition slow_peer (rs : list recv_event) : mstate :=
  mkState (mkConn "localhost" 9876 (Some (mkSocket 30)))
          (mkWorld late_clock 0 rs [] [] [] []).

(** No session yet: with a peer that refuses the connection, and with one
    that accepts it. *)
Definition peer_down : tstate :=
  mkTState None (mkWorld (fun _ => 0%float) 0 [] [] [] [false] []).
Definition no_session : tstate := mkTState None (quiet_world []).

(** More messages of the peer. *)
Definition failed_op1 : string :=
  "{'method':'operation/status','params':{'operation_id':'op-1','status':'failed','message':'no such entity'}}".
Definition two_items : string :=
  "{'result':{'success':true,'selection':[{'id':7,'type':'Group'},{'id':9}]},'id':1}".

(** A connected session whose first [sendall] is reset and whose peer then
    refuses the connection. *)
Definition lost_after_reset : mstate :=
  mkState (mkConn "localhost" 9876 (Some (mkSocket 30)))
          (mkWorld (fun _ => 0%float) 0 [] [reset] [] [false] []).

(** A session whose socket is dead, with a peer that refuses the
    connection. *)
Definition dead_session : mstate :=
  mkState (mkConn "localhost" 9876 (Some (mkSocket 30)))
          (mkWorld (fun _ => 0%float) 0 [] [] [false] [false] []).

Definition ruby_answer : string :=
  "{'result':{'content':[{'text':'42'}]},'id':1}".
Definition creation_refused : string :=
  "{'result':{'success':false,'error':'bad type'},'id':1}".

(** The tools with a connected session. *)
Definition connected_tools (rs : list recv_event) : tstate :=
  mkTState (Some (mkConn "localhost" 9876 (Some (mkSocket 30))))
           (quiet_world rs).

(** * Properties *)

Local Open Scope list_scope.

Section ReceiveFacts.
Context `{PyLib}.

Lemma bytes_join_single (c : bytes) : bytes_join [c] = c.
Proof. unfold bytes_join. cbn. apply app_nil_r. Qed.

(** The receive loop on a document that arrives in the chunks [cs], none
    empty, when no shorter run of chunks is already a document and the
    ceiling is not reached: it returns their concatenation. *)
Lemma recv_loop_chunks (clk : nat -> float) (start : float)
    (cs : list bytes) :
  forall (rest : list recv_event) (t : nat) (acc : list bytes),
    (forall i : nat, i < List.length cs ->
        (clk (t + i)%nat - start <? max_response_time)%float = true) ->
    Forall (fun c => c <> []) cs ->
    cs <> [] ->
    try_parse (bytes_join (acc ++ cs)) = Complete ->
    (forall k, 0 < k < List.length cs ->
               try_parse (bytes_join (acc ++ firstn k cs)) <> Complete) ->
    recv_loop clk start (map RData cs ++ rest) t acc
    = (RxReturn (bytes_join (acc ++ cs)), rest, t + List.length cs).
Proof.
  induction cs as [|c cs IH]; intros rest t acc Hclk Hne Hcs Hfull Hpre.
  - congruence.
  - inversion Hne as [|? ? Hc Hne']; subst.
    destruct c as [|b l]; [congruence|].
    cbn [map app recv_loop].
    assert (H0 : (clk t - start <? max_response_time)%float = true).
    { rewrite <- (Nat.add_0_r t). apply Hclk. cbn [List.length]. lia. }
    rewrite H0.
    destruct cs as [|c' cs'].
    + rewrite Hfull. cbn [List.length]. f_equal. lia.
    + assert (Hk : try_parse (bytes_join (acc ++ [b :: l])) <> Complete).
      { apply (Hpre 1). cbn [List.length]. lia. }
      assert (Hrec : recv_loop clk start (map RData (c' :: cs') ++ rest) (S t)
                       (acc ++ [b :: l])
                     = (RxReturn (bytes_join ((acc ++ [b :: l]) ++ c' :: cs')),
                        rest, S t + List.length (c' :: cs'))).
      { apply IH; try assumption.
        - intros i Hi. replace (S t + i) with (t + S i) by lia. apply Hclk.
          cbn [List.length] in *. lia.
        - discriminate.
        - rewrite <- app_assoc. exact Hfull.
        - intros k Hk'. rewrite <- app_assoc. cbn [app].
          apply (Hpre (S k)). cbn [List.length] in *. lia. }
      rewrite <- app_assoc in Hrec. cbn [app] in Hrec.
      replace (t + List.length ((b :: l) :: c' :: cs'))
        with (S t + List.length (c' :: cs')) by (cbn [List.length]; lia).
      destruct (try_parse (bytes_join (acc ++ [b :: l]))); [congruence| |];
        exact Hrec.
Qed.

(** The same, for the method. *)
Lemma receive_chunks (st : mstate) (s : socket) (cs : list bytes)
    (rest : list recv_event) :
  sock (self st) = Some s ->
  recvs (env st) = map RData cs ++ rest ->
  cs <> [] ->
  Forall (fun c => c <> []) cs ->
  try_parse (bytes_join cs) = Complete ->
  (forall k, 0 < k < List.length cs ->
             try_parse (bytes_join (firstn k cs)) <> Complete) ->
  (forall i : nat, i < List.length cs ->
      (clock (env st) (S (ticks (env st)) + i)%nat
       - clock (env st) (ticks (env st)) <? max_response_time)%float = true) ->
  receive_full_response st
  = (Ret (bytes_join cs), after_receive (List.length cs) rest st).
Proof.
  intros Hs Hr Hcs Hne Hfull Hpre Hclk.
  destruct st as [[h p sk] w]. cbn in Hs, Hr, Hclk. subst sk.
  unfold receive_full_response, sock_settimeout, time_time, set_sock, bind,
    get, modify, raise, set_env.
  cbn [self env sock host port clock ticks recvs sends probes conns trace].
  rewrite Hr.
  erewrite recv_loop_chunks; [reflexivity | exact Hclk | assumption ..].
Qed.

End ReceiveFacts.

Section WaitFacts.
Context `{PyLib}.

Lemma rbind_err {A B} (r : outcome A) (f : A -> outcome B) (e : exn) :
  rbind r f = Err e ->
  r = Err e \/ exists a, r = Ok a /\ f a = Err e.
Proof.
  destruct r; cbn; intro E.
  - right. exists a. split; [reflexivity | exact E].
  - left. inversion E. reflexivity.
Qed.

Lemma py_get_err v k d e : py_get v k d = Err e -> benign e.
Proof. destruct v; cbn; intro E; inversion E; split; reflexivity. Qed.

Lemma py_in_err k v e : py_in k v = Err e -> benign e.
Proof. destruct v; cbn; intro E; inversion E; split; reflexivity. Qed.

Lemma py_getitem_err v k e : py_getitem v k = Err e -> benign e.
Proof.
  destruct v; cbn; try (intro E; inversion E; split; reflexivity).
  destruct (dict_get k kv); intro E; inversion E; split; reflexivity.
Qed.

Ltac err_cases :=
  repeat match goal with
    | E : rbind _ _ = Err _ |- _ =>
        apply rbind_err in E; destruct E as [E | [? [? E]]]
    | E : py_get _ _ _ = Err _ |- _ => solve [eapply py_get_err; exact E]
    | E : py_in _ _ = Err _ |- _ => solve [eapply py_in_err; exact E]
    | E : py_getitem _ _ = Err _ |- _ => solve [eapply py_getitem_err; exact E]
    | E : Err _ = Err _ |- _ => inversion E; subst; split; reflexivity
    | E : Ok _ = Err _ |- _ => discriminate E
    | E : (if ?b then _ else _) = Err _ |- _ => destruct b
    end.

Lemma handle_response_err rid opid r e :
  handle_response rid opid r = Err e -> benign e.
Proof. unfold handle_response. intro E. err_cases. Qed.

Lemma decode_response_parse c r :
  decode_response c = Ok r -> try_parse c = Complete.
Proof.
  unfold decode_response, try_parse.
  destruct (utf8_decode c); [|discriminate].
  destruct (json_loads s); [reflexivity|discriminate].
Qed.

(** One iteration of the receive loop on a message that arrives in time and
    in one chunk. *)
Lemma wait_loop_message fuel method params rid op_timeout start opid
    (st : mstate) s c response rest :
  sock (self st) = Some s ->
  recvs (env st) = RData c :: rest ->
  c <> [] ->
  decode_response c = Ok response ->
  (clock (env st) (ticks (env st)) - start <? op_timeout)%float = true ->
  (clock (env st) (2 + ticks (env st))%nat
   - clock (env st) (1 + ticks (env st))%nat <? max_response_time)%float
  = true ->
  wait_loop (S fuel) method params rid op_timeout start opid st
  = match handle_response rid opid response with
    | Ok (Continue o) =>
        wait_loop fuel method params rid op_timeout start o
                  (after_message rest st)
    | Ok Break => (Ret (TimedOut opid), after_message rest st)
    | Ok (Return v) => (Ret (Returned v), after_message rest st)
    | Err e => (Raise e, after_message rest st)
    end.
Proof.
  intros Hs Hr Hc Hd Hg1 Hg2.
  destruct st as [[h p sk] w]. cbn [self env sock] in *. subst sk.
  cbn [wait_loop]. unfold bind at 1. unfold time_time at 1.
  cbn [env set_env self]. rewrite Hg1.
  unfold bind at 1. unfold try_except. unfold bind at 1.
  erewrite receive_chunks with (cs := [c]) (rest := rest) (s := s).
  2: reflexivity.
  2: exact Hr.
  2: discriminate.
  2: repeat constructor; exact Hc.
  2: rewrite bytes_join_single; eapply decode_response_parse; exact Hd.
  2: cbn [List.length]; intros; lia.
  2: { cbn [List.length]. intros i Hi. assert (i = 0) by lia. subst i.
       cbn [env clock ticks]. rewrite Nat.add_0_r. exact Hg2. }
  rewrite bytes_join_single.
  unfold bind at 1. unfold lift at 1. rewrite Hd.
  unfold lift at 1.
  unfold after_message, after_receive.
  cbn [env self host port clock ticks sends probes conns trace set_env
       List.length].
  replace (S (S (ticks w)) + 1) with (3 + ticks w) by lia.
  destruct (handle_response rid opid response) as [[o| |v]|e] eqn:Eh.
  - reflexivity.
  - reflexivity.
  - reflexivity.
  - pose proof Eh as Eb. apply handle_response_err in Eb.
    destruct Eb as [E1 E2]. rewrite E1, E2. reflexivity.
Qed.

(** What the classification does with an object that has no "error" field
    and is not a status update. *)
Lemma handle_response_plain rid opid d :
  dict_has "error" d = false ->
  py_eq (dict_get_default "method" JNull d) (JStr "operation/status") = false ->
  handle_response rid opid (JObj d)
  = if dict_has "result" d && py_eq (dict_get_default "id" JNull d) rid
    then Ok (Return (dict_get_default "result" (JObj []) d))
    else Ok (Continue opid).
Proof.
  intros He Hm. unfold handle_response. cbn [py_in py_get rbind].
  rewrite He. cbn [rbind]. rewrite Hm.
  destruct (dict_has "result" d); cbn [rbind andb]; [|reflexivity].
  destruct (py_eq (dict_get_default "id" JNull d) rid); reflexivity.
Qed.

Lemma handle_response_running rid opid r :
  running_status r = true ->
  exists o, handle_response rid opid r = Ok (Continue o).
Proof.
  destruct r as [| | | | | |d]; try discriminate. cbn [running_status].
  intro E. apply andb_prop in E. destruct E as [E Hp].
  apply andb_prop in E. destruct E as [He Hm].
  apply negb_true_iff in He.
  destruct (dict_get "params" d) as [[| | | | | |ps]|] eqn:Ep; try discriminate.
  assert (Eps : dict_get_default "params" (JObj []) d = JObj ps).
  { unfold dict_get_default. rewrite Ep. reflexivity. }
  unfold handle_response. cbn [py_in py_get rbind]. rewrite He.
  cbn [rbind]. rewrite Hm, Eps. cbn [py_get rbind].
  destruct (py_eq (dict_get_default "status" JNull ps) (JStr "failed")) eqn:Ef.
  - exfalso.
    destruct (dict_get_default "status" JNull ps); try discriminate.
    cbn [py_eq] in Hp, Ef. apply String.eqb_eq in Hp. subst. discriminate.
  - destruct (py_eq (dict_get_default "status" JNull ps) (JStr "completed"))
      eqn:Ec.
    + exfalso.
      destruct (dict_get_default "status" JNull ps); try discriminate.
      cbn [py_eq] in Hp, Ec. apply String.eqb_eq in Hp. subst. discriminate.
    + eexists. reflexivity.
Qed.

Lemma handle_response_final rid opid r :
  final_result_for rid r = true ->
  exists d, r = JObj d
            /\ handle_response rid opid r
               = Ok (Return (dict_get_default "result" (JObj []) d)).
Proof.
  destruct r as [| | | | | |d]; try discriminate. cbn [final_result_for].
  intro E. apply andb_prop in E. destruct E as [E Hid].
  apply andb_prop in E. destruct E as [E Hres].
  apply andb_prop in E. destruct E as [He Hm].
  apply negb_true_iff in He. apply negb_true_iff in Hm.
  exists d. split; [reflexivity|].
  rewrite handle_response_plain by assumption. rewrite Hres, Hid.
  reflexivity.
Qed.

(** A run of running status notifications and then a final result for the
    call, each received in time: the loop waits through the notifications
    and returns the result. *)
Lemma wait_loop_running method params rid op_timeout start c r rest
    (cs : list bytes) :
  forall (fuel : nat) (opid : json) (st : mstate) (s : socket),
    sock (self st) = Some s ->
    recvs (env st) = map RData cs ++ RData c :: rest ->
    Forall running_chunk cs ->
    c <> [] ->
    decode_response c = Ok r ->
    final_result_for rid r = true ->
    List.length cs < fuel ->
    (forall j : nat, j <= List.length cs ->
       (clock (env st) (ticks (env st) + 3 * j)%nat - start
        <? op_timeout)%float = true
       /\ (clock (env st) (2 + ticks (env st) + 3 * j)%nat
           - clock (env st) (1 + ticks (env st) + 3 * j)%nat
           <? max_response_time)%float = true) ->
    wait_loop fuel method params rid op_timeout start opid st
    = (Ret (Returned (match r with
                      | JObj d => dict_get_default "result" (JObj []) d
                      | _ => JNull
                      end)),
       after_messages (S (List.length cs)) rest st).
Proof.
  induction cs as [|x cs IH]; intros fuel opid st s Hs Hr Hcs Hc Hd Hf Hfuel Ht.
  - destruct fuel as [|fuel]; [cbn in Hfuel; lia|].
    destruct (Ht 0 (Nat.le_refl _)) as [Hg1 Hg2].
    rewrite Nat.mul_0_r, !Nat.add_0_r in *.
    cbn [map app] in Hr.
    erewrite wait_loop_message; [| eassumption ..].
    destruct (handle_response_final rid opid r Hf) as [d [-> Eh]].
    rewrite Eh. reflexivity.
  - destruct fuel as [|fuel]; [cbn in Hfuel; lia|].
    inversion Hcs as [|? ? [Hx [rx [Hdx Hrun]]] Hcs']; subst.
    destruct (Ht 0 (Nat.le_0_l _)) as [Hg1 Hg2].
    rewrite Nat.mul_0_r, !Nat.add_0_r in *.
    cbn [map app] in Hr.
    erewrite wait_loop_message; [| eassumption ..].
    destruct (handle_response_running rid opid rx Hrun) as [o Eh].
    rewrite Eh.
    erewrite IH with (s := mkSocket 30); try eassumption; try reflexivity.
    + f_equal. unfold after_messages, after_message.
      cbn [env self host port clock ticks sends probes conns trace
           List.length].
      do 2 f_equal. lia.
    + cbn [List.length] in Hfuel. lia.
    + intros j Hj. cbn [after_message env clock ticks].
      destruct (Ht (S j)) as [G1 G2]; [cbn [List.length]; lia|].
      split.
      * replace (3 + ticks (env st) + 3 * j)
          with (ticks (env st) + 3 * S j) by lia. exact G1.
      * replace (2 + (3 + ticks (env st)) + 3 * j)
          with (2 + ticks (env st) + 3 * S j) by lia.
        replace (1 + (3 + ticks (env st)) + 3 * j)
          with (1 + ticks (env st) + 3 * S j) by lia. exact G2.
Qed.

End WaitFacts.

Section RetryFacts.
Context `{PyLib}.

Lemma connect_alive (st : mstate) (s : socket) :
  sock (self st) = Some s ->
  hd true (probes (env st)) = true ->
  connect st = (Ret true, after_probe st).
Proof.
  destruct st as [[h p sk] [clk t rs ss ps cs tr]]. cbn [self env sock probes].
  intros -> Hp.
  unfold connect, after_probe, bind, get, sock_settimeout, set_sock, modify,
    sock_probe, ret, set_env, log.
  cbn [self env sock host port clock ticks recvs sends probes conns trace].
  destruct ps as [|b ps]; cbn [hd tl] in *; [reflexivity|].
  subst b. reflexivity.
Qed.

(** Disconnecting, sleeping and connecting again, before [k]. *)
Lemma reconnect {A} (d : float) (k : bool -> M mstate A) (st : mstate) :
  (disconnect;;; time_sleep d;;; ok <- connect;; k ok) st
  = k (hd true (conns (env st))) (after_backoff d st).
Proof.
  destruct st as [[h p sk] [clk t rs ss ps cs tr]].
  unfold disconnect, time_sleep, connect, after_backoff, bind, get, emit,
    set_sock, modify, ret, os_connect, set_env, log.
  cbn [self env sock host port clock ticks recvs sends probes conns trace].
  destruct sk as [s|]; destruct cs as [|[|] cs];
    cbn [self env sock host port clock ticks recvs sends probes conns trace
         hd tl fst snd];
    rewrite <- ?app_assoc; reflexivity.
Qed.

(** An attempt on a connected session whose [sendall] succeeds. *)
Lemma attempt_sends request method params rid op_timeout (st : mstate)
    (s : socket) :
  sock (self st) = Some s ->
  hd None (sends (env st)) = None ->
  attempt request method params rid op_timeout st
  = (x <- wait_loop (S (List.length (recvs (env st)))) method params rid
                    op_timeout (clock (env st) (ticks (env st))) JNull;;
     match x with
     | Returned v => ret v
     | TimedOut operation_id =>
         if py_truthy operation_id then
           raise (PyException ("Operation " ++ py_str operation_id
                               ++ " timed out after "
                               ++ py_str (JFloat op_timeout) ++ " seconds"))
         else
           raise (PyException ("No response received within "
                               ++ py_str (JFloat op_timeout) ++ " seconds"))
     end) (after_send (request_bytes request) op_timeout st).
Proof.
  destruct st as [[h p sk] [clk t rs ss ps cs tr]]. cbn [self env sock sends].
  intros -> Hs.
  unfold attempt, after_send.
  unfold bind at 1. unfold sock_settimeout at 1, bind at 1, get at 1.
  cbn [self sock]. unfold set_sock at 1, modify at 1.
  cbn [self env host port].
  unfold bind at 1. unfold sock_sendall at 1, bind at 1, get at 1.
  cbn [self sock]. unfold bind at 1, emit at 1, modify at 1, set_env, log.
  cbn [self env sock host port clock ticks recvs sends probes conns trace].
  assert (Hsend : match ss with
                  | [] => True
                  | o :: _ => o = None
                  end).
  { destruct ss; [exact I | exact Hs]. }
  destruct ss as [|o ss]; [|subst o];
    cbn [self env sock host port clock ticks recvs sends probes conns trace
         tl];
    (unfold bind at 1; unfold sock_settimeout at 1, bind at 1, get at 1;
     cbn [self sock]; unfold set_sock at 1, modify at 1;
     cbn [self env host port];
     unfold bind at 1; unfold time_time at 1;
     cbn [self env sock host port clock ticks recvs sends probes conns trace
          set_env];
     unfold bind at 1, get at 1;
     cbn [self env sock host port clock ticks recvs sends probes conns trace];
     reflexivity).
Qed.

(** The retry loop when an attempt raises, by the class of the
    exception. *)
Lemma retry_loop_transport fuel request method params rid op_timeout
    (n : nat) (st st1 : mstate) (e : exn) :
  attempt request method params rid op_timeout st = (Raise e, st1) ->
  is_transport_error e = true ->
  n < max_retries ->
  retry_loop (S fuel) request method params rid op_timeout n st
  = retry_loop fuel request method params rid op_timeout (S n)
               (after_backoff (backoff (S n)) st1).
Proof.
  intros Ha He Hn. unfold max_retries in Hn.
  cbn [retry_loop].
  assert (E1 : (n <=? max_retries)%nat = true) by (apply Nat.leb_le; unfold max_retries; lia).
  assert (E2 : (S n <=? max_retries)%nat = true) by (apply Nat.leb_le; unfold max_retries; lia).
  rewrite E1. unfold try_except. rewrite Ha, He, E2.
  apply (reconnect (backoff (S n))
           (fun _ => retry_loop fuel request method params rid op_timeout
                                (S n))).
Qed.

Lemma retry_loop_exhausted fuel request method params rid op_timeout
    (st st1 : mstate) (e : exn) :
  attempt request method params rid op_timeout st = (Raise e, st1) ->
  is_transport_error e = true ->
  retry_loop (S fuel) request method params rid op_timeout max_retries st
  = (Raise (PyException ("Connection to Sketchup lost after 4 attempts: "
                         ++ exn_str e)%string),
     drop_sock st1).
Proof.
  intros Ha He. cbn [retry_loop]. unfold max_retries. cbn [Nat.leb].
  unfold try_except. rewrite Ha, He. reflexivity.
Qed.

Lemma retry_loop_terminal fuel request method params rid op_timeout
    (n : nat) (st st1 : mstate) (e : exn) :
  attempt request method params rid op_timeout st = (Raise e, st1) ->
  is_transport_error e = false ->
  is_json_decode_error e = false ->
  str_contains "Connection closed" (exn_str e) && (n <? max_retries)%nat = false ->
  n <= max_retries ->
  retry_loop (S fuel) request method params rid op_timeout n st
  = (Raise (communication_error e), drop_sock st1).
Proof.
  intros Ha He Hj Hc Hn. cbn [retry_loop].
  assert (E1 : (n <=? max_retries)%nat = true) by (apply Nat.leb_le; exact Hn).
  rewrite E1. unfold try_except. rewrite Ha, He, Hj, Hc. reflexivity.
Qed.

Lemma retry_loop_closed fuel request method params rid op_timeout
    (n : nat) (st st1 : mstate) (e : exn) :
  attempt request method params rid op_timeout st = (Raise e, st1) ->
  is_transport_error e = false ->
  is_json_decode_error e = false ->
  str_contains "Connection closed" (exn_str e) = true ->
  n < max_retries ->
  retry_loop (S fuel) request method params rid op_timeout n st
  = if hd true (conns (env st1)) then
      retry_loop fuel request method params rid op_timeout (S n)
                 (after_backoff 0.5 st1)
    else (Raise (communication_error e),
          drop_sock (after_backoff 0.5 st1)).
Proof.
  intros Ha He Hj Hc Hn. cbn [retry_loop].
  assert (E1 : (n <=? max_retries)%nat = true) by (apply Nat.leb_le; lia).
  assert (E2 : (n <? max_retries)%nat = true) by (apply Nat.ltb_lt; exact Hn).
  rewrite E1. unfold try_except. rewrite Ha, He, Hj, Hc, E2. cbn [andb].
  rewrite (reconnect 0.5
             (fun ok : bool =>
                if ok then
                  retry_loop fuel request method params rid op_timeout (S n)
                else (set_sock None;;; raise (communication_error e)))).
  destruct (hd true (conns (env st1))); reflexivity.
Qed.

End RetryFacts.

(** ** What computations add to the trace *)

Section Emits.
Variables (S : Type) (tr : S -> list event).

Lemma sends_of_app (a b : list event) :
  sends_of (a ++ b) = sends_of a ++ sends_of b.
Proof. unfold sends_of. apply flat_map_app. Qed.

Lemma emits_same {A} (ok : event -> Prop) (k : nat) (m : M S A) :
  (forall st, tr (snd (m st)) = tr st) -> emits tr ok k m.
Proof.
  intros Hm st. exists []. rewrite Hm, app_nil_r.
  repeat split; [constructor | cbn; lia].
Qed.

Lemma emits_weaken {A} (ok ok' : event -> Prop) (k k' : nat) (m : M S A) :
  emits tr ok k m ->
  (forall ev, ok ev -> ok' ev) ->
  k <= k' ->
  emits tr ok' k' m.
Proof.
  intros Hm Hok Hk st. destruct (Hm st) as [evs [E [F L]]].
  exists evs. repeat split; [exact E | | lia].
  eapply Forall_impl; [exact Hok | exact F].
Qed.

Lemma emits_bind {A B} (ok : event -> Prop) (k1 k2 k : nat) (m : M S A)
    (f : A -> M S B) :
  emits tr ok k1 m ->
  (forall a, emits tr ok k2 (f a)) ->
  k1 + k2 <= k ->
  emits tr ok k (bind m f).
Proof.
  intros Hm Hf Hk st. unfold bind.
  destruct (Hm st) as [e1 [E1 [F1 L1]]].
  destruct (m st) as [[a|e|] st1]; cbn [snd] in *.
  - destruct (Hf a st1) as [e2 [E2 [F2 L2]]].
    exists (e1 ++ e2). rewrite E2, E1, app_assoc, sends_of_app, length_app.
    repeat split; [apply Forall_app; split; assumption | lia].
  - exists e1. repeat split; [exact E1 | exact F1 | lia].
  - exists e1. repeat split; [exact E1 | exact F1 | lia].
Qed.

Lemma emits_try {A} (ok : event -> Prop) (k1 k2 k : nat) (body : M S A)
    (handler : exn -> M S A) :
  emits tr ok k1 body ->
  (forall e, emits tr ok k2 (handler e)) ->
  k1 + k2 <= k ->
  emits tr ok k (try_except body handler).
Proof.
  intros Hm Hf Hk st. unfold try_except.
  destruct (Hm st) as [e1 [E1 [F1 L1]]].
  destruct (body st) as [[a|e|] st1]; cbn [snd] in *.
  - exists e1. repeat split; [exact E1 | exact F1 | lia].
  - destruct (Hf e st1) as [e2 [E2 [F2 L2]]].
    exists (e1 ++ e2). rewrite E2, E1, app_assoc, sends_of_app, length_app.
    repeat split; [apply Forall_app; split; assumption | lia].
  - exists e1. repeat split; [exact E1 | exact F1 | lia].
Qed.

Lemma emits_ret {A} (ok : event -> Prop) (k : nat) (a : A) :
  emits tr ok k (ret a).
Proof. apply emits_same. reflexivity. Qed.

Lemma emits_raise {A} (ok : event -> Prop) (k : nat) (e : exn) :
  emits tr ok k (@raise S A e).
Proof. apply emits_same. reflexivity. Qed.

Lemma emits_lift {A} (ok : event -> Prop) (k : nat) (r : outcome A) :
  emits tr ok k (lift r).
Proof. apply emits_same. intro st. destruct r; reflexivity. Qed.

Lemma emits_get (ok : event -> Prop) (k : nat) : emits tr ok k get.
Proof. apply emits_same. reflexivity. Qed.

End Emits.

(** ** Computations that never run out of fuel *)

Section Total.
Variable S : Type.

Lemma total_ret {A} (a : A) : total (@ret S A a).
Proof. intros st. discriminate. Qed.

Lemma total_raise {A} (e : exn) : total (@raise S A e).
Proof. intros st. discriminate. Qed.

Lemma total_lift {A} (r : outcome A) : total (@lift S A r).
Proof. intros st. destruct r; discriminate. Qed.

Lemma total_bind {A B} (m : M S A) (f : A -> M S B) :
  total m -> (forall a, total (f a)) -> total (bind m f).
Proof.
  intros Hm Hf st. unfold bind. specialize (Hm st).
  destruct (m st) as [[a|e|] st1]; cbn [fst] in *.
  - apply Hf.
  - discriminate.
  - congruence.
Qed.

Lemma total_try {A} (body : M S A) (handler : exn -> M S A) :
  total body -> (forall e, total (handler e)) -> total (try_except body handler).
Proof.
  intros Hm Hf st. unfold try_except. specialize (Hm st).
  destruct (body st) as [[a|e|] st1]; cbn [fst] in *.
  - discriminate.
  - apply Hf.
  - congruence.
Qed.

Lemma total_get : total (@get S).
Proof. intros st. discriminate. Qed.

Lemma total_modify (f : S -> S) : total (modify f).
Proof. intros st. discriminate. Qed.

End Total.

(** ** The methods: their trace and their fuel *)

Ltac step_emits :=
  lazymatch goal with
  | |- emits _ _ _ (ret _) => apply emits_ret
  | |- emits _ _ _ (raise _) => apply emits_raise
  | |- emits _ _ _ (lift _) => apply emits_lift
  | |- emits _ _ _ get => apply emits_get
  | |- emits _ _ _ (bind _ _) =>
      eapply emits_bind with (k1 := 0) (k2 := 0); [ | intro | lia ]
  | |- emits _ _ _ (try_except _ _) =>
      eapply emits_try with (k1 := 0) (k2 := 0); [ | intro | lia ]
  | |- emits _ _ _ (if ?b then _ else _) => destruct b
  | |- emits _ _ _ (match ?x with _ => _ end) => destruct x
  end.

Ltac step_total :=
  lazymatch goal with
  | |- total (ret _) => apply total_ret
  | |- total (raise _) => apply total_raise
  | |- total (lift _) => apply total_lift
  | |- total get => apply total_get
  | |- total (modify _) => apply total_modify
  | |- total (bind _ _) => apply total_bind; [ | intro ]
  | |- total (try_except _ _) => apply total_try; [ | intro ]
  | |- total (if ?b then _ else _) => destruct b
  | |- total (match ?x with _ => _ end) => destruct x
  end.

Section SendFacts.
Context `{PyLib}.

Lemma emits_time_time ok k : emits mtrace ok k time_time.
Proof. apply emits_same. reflexivity. Qed.

Lemma emits_set_sock ok k s : emits mtrace ok k (set_sock s).
Proof. apply emits_same. reflexivity. Qed.

Lemma emits_settimeout ok k t : emits mtrace ok k (sock_settimeout t).
Proof.
  apply emits_same. intro st. unfold sock_settimeout, bind, get.
  destruct (sock (self st)); reflexivity.
Qed.

Lemma emits_receive ok k : emits mtrace ok k receive_full_response.
Proof.
  apply emits_same. intros [[h p sk] w].
  destruct sk as [s|]; [|reflexivity].
  cbv [receive_full_response bind sock_settimeout get time_time set_sock
       modify raise set_env mtrace self env sock host port clock ticks recvs
       sends probes conns trace].
  match goal with
  | |- context [recv_loop ?a ?b ?c ?d ?e] =>
      destruct (recv_loop a b c d e) as [[[d0|e0|chunks] script'] t']
  end; try reflexivity.
  unfold lift. destruct (final_parse chunks); reflexivity.
Qed.

Lemma emits_event (ok : event -> Prop) (ev : event) :
  ok ev -> emits mtrace ok (List.length (sends_of [ev])) (emit ev).
Proof.
  intros Hok st. exists [ev]. repeat split.
  - repeat constructor. exact Hok.
  - lia.
Qed.

Lemma emits_sleep ok k d : (forall x, ok (EvSleep x)) ->
  emits mtrace ok k (time_sleep d).
Proof.
  intro Hok. eapply emits_weaken; [apply (emits_event ok (EvSleep d))| |].
  - apply Hok.
  - auto.
  - cbn. lia.
Qed.

Lemma emits_disconnect k : emits mtrace no_send k disconnect.
Proof.
  unfold disconnect. eapply emits_bind with (k1 := 0) (k2 := 0); [|intro|lia].
  - apply emits_get.
  - destruct (sock (self a)); [|apply emits_ret].
    eapply emits_bind with (k1 := 0) (k2 := 0); [|intro|lia].
    + apply (emits_event no_send EvClose). exact I.
    + apply emits_set_sock.
Qed.

Lemma emits_probe k : emits mtrace no_send k sock_probe.
Proof.
  intro st. unfold sock_probe.
  destruct (probes (env st)) as [|b rest];
    (eexists [_]; repeat split; [repeat constructor | cbn; lia]).
Qed.

Lemma emits_os_connect k : emits mtrace no_send k os_connect.
Proof.
  intro st. unfold os_connect.
  destruct (conns (env st)) as [|b rest];
    (eexists [_]; repeat split; [repeat constructor | cbn; lia]).
Qed.

Lemma emits_connect k : emits mtrace no_send k connect.
Proof.
  eapply emits_weaken with (ok := no_send) (k := 0); [|auto|lia].
  unfold connect.
  repeat first [ apply emits_settimeout | apply emits_probe
               | apply emits_os_connect | apply emits_disconnect
               | apply emits_set_sock | step_emits ].
Qed.

Lemma no_send_only data ev : no_send ev -> only_sends data ev.
Proof. destruct ev; cbn; tauto. Qed.

Lemma nothing_any (ok : event -> Prop) ev : nothing ev -> ok ev.
Proof. intros []. Qed.

Lemma emits_sendall data : emits mtrace (only_sends data) 1 (sock_sendall data).
Proof.
  unfold sock_sendall.
  eapply emits_bind with (k1 := 0) (k2 := 1); [apply emits_get|intro st0|lia].
  destruct (sock (self st0)); [|apply emits_raise].
  eapply emits_bind with (k1 := 1) (k2 := 0); [|intro|lia].
  - apply (emits_event (only_sends data) (EvSend data)). reflexivity.
  - apply emits_same. intro st. destruct (sends (env st)) as [|[[k m]|] rest];
      reflexivity.
Qed.

Lemma wait_loop_silent method params rid op_timeout start :
  forall fuel opid,
    emits mtrace nothing 0
      (wait_loop fuel method params rid op_timeout start opid).
Proof.
  induction fuel as [|fuel IH]; intro opid.
  - apply emits_same. reflexivity.
  - cbn [wait_loop].
    repeat first [ apply emits_time_time | apply emits_receive | apply IH
                 | step_emits ].
Qed.

Lemma emits_wait_loop ok k fuel method params rid op_timeout start opid :
  emits mtrace ok k (wait_loop fuel method params rid op_timeout start opid).
Proof.
  eapply emits_weaken; [apply wait_loop_silent | apply nothing_any | lia].
Qed.

Lemma emits_attempt request method params rid op_timeout :
  emits mtrace (only_sends (request_bytes request)) 1
    (attempt request method params rid op_timeout).
Proof.
  unfold attempt.
  eapply emits_bind with (k1 := 0) (k2 := 1);
    [apply emits_settimeout|intro|lia].
  eapply emits_bind with (k1 := 1) (k2 := 0);
    [apply emits_sendall|intro|lia].
  repeat first [ apply emits_settimeout | apply emits_time_time
               | apply emits_wait_loop | step_emits ].
Qed.

Lemma emits_retry_loop request method params rid op_timeout :
  forall fuel n,
    emits mtrace (only_sends (request_bytes request)) (4 - n)
      (retry_loop fuel request method params rid op_timeout n).
Proof.
  induction fuel as [|fuel IH]; intro n.
  - apply emits_same. reflexivity.
  - cbn [retry_loop]. unfold max_retries.
    destruct (n <=? 3)%nat eqn:En; [|apply emits_ret].
    apply Nat.leb_le in En.
    eapply emits_try with (k1 := 1) (k2 := 3 - n);
      [apply emits_attempt|intro e|lia].
    destruct (is_transport_error e).
    + destruct (S n <=? 3)%nat eqn:En'.
      * apply Nat.leb_le in En'.
        eapply emits_bind with (k1 := 0) (k2 := 3 - n); [|intro|lia].
        { eapply emits_weaken; [apply (emits_disconnect 0)| |lia].
          apply no_send_only. }
        eapply emits_bind with (k1 := 0) (k2 := 3 - n); [|intro|lia].
        { apply emits_sleep. intro; exact I. }
        eapply emits_bind with (k1 := 0) (k2 := 3 - n); [|intro|lia].
        { eapply emits_weaken; [apply (emits_connect 0)| |lia].
          apply no_send_only. }
        eapply emits_weaken; [apply (IH (S n))|auto|lia].
      * repeat first [ apply emits_set_sock | step_emits ].
    + destruct (is_json_decode_error e); [apply emits_raise|].
      destruct (str_contains "Connection closed" (exn_str e)
                && (n <? 3)%nat) eqn:Ec.
      * apply andb_prop in Ec. destruct Ec as [_ Ec].
        apply Nat.ltb_lt in Ec.
        eapply emits_bind with (k1 := 0) (k2 := 3 - n); [|intro|lia].
        { eapply emits_weaken; [apply (emits_disconnect 0)| |lia].
          apply no_send_only. }
        eapply emits_bind with (k1 := 0) (k2 := 3 - n); [|intro|lia].
        { apply emits_sleep. intro; exact I. }
        eapply emits_bind with (k1 := 0) (k2 := 3 - n); [|intro ok|lia].
        { eapply emits_weaken; [apply (emits_connect 0)| |lia].
          apply no_send_only. }
        destruct ok.
        -- eapply emits_weaken; [apply (IH (S n))|auto|lia].
        -- repeat first [ apply emits_set_sock | step_emits ].
      * repeat first [ apply emits_set_sock | step_emits ].
Qed.

Lemma emits_send_command method params rid :
  emits mtrace
    (only_sends (request_bytes (build_request method params rid))) 4
    (send_command method params rid).
Proof.
  unfold send_command.
  eapply emits_bind with (k1 := 0) (k2 := 4); [|intro ok|lia].
  - eapply emits_weaken; [apply (emits_connect 0)| |lia].
    apply no_send_only.
  - destruct (negb ok); [apply emits_raise|].
    apply (emits_retry_loop (build_request method params rid) method params
             rid (operation_timeout method params) 5 0).
Qed.

(** The receive loop takes an event of the script whenever it returns
    data or grows its list of chunks; what it raises is benign. *)
Lemma recv_loop_progress (clk : nat -> float) (start : float) :
  forall (script : list recv_event) (t : nat) (acc : list bytes)
         (exit : recv_exit) (script' : list recv_event) (t' : nat),
    recv_loop clk start script t acc = (exit, script', t') ->
    List.length script' <= List.length script
    /\ match exit with
       | RxReturn _ => List.length script' < List.length script
       | RxRaise e => benign e
       | RxFall ch =>
           ch = acc \/ (ch <> [] /\ List.length script' < List.length script)
       end.
Proof.
  assert (Hclosed : forall (rest : list recv_event) (t : nat)
                            (acc : list bytes) (exit : recv_exit)
                            (script' : list recv_event) (t' : nat),
             match acc with
             | [] => (RxRaise (PyException
                        "Connection closed before receiving any data"),
                      rest, S t)
             | _ :: _ => (RxFall acc, rest, S t)
             end = (exit, script', t') ->
             script' = rest
             /\ match exit with
                | RxReturn _ => False
                | RxRaise e => benign e
                | RxFall ch => ch = acc
                end).
  { intros rest t acc exit script' t' E. destruct acc; inversion E; subst;
      split; try reflexivity. split; reflexivity. }
  induction script as [|ev script IH]; intros t acc exit script' t' E;
    cbn [recv_loop] in E;
    destruct (clk t - start <? max_response_time)%float;
    try (inversion E; subst; split; [lia | left; reflexivity]).
  - apply Hclosed in E. destruct E as [-> E]. split; [lia|].
    destruct exit; [contradiction | exact E | left; exact E].
  - destruct ev as [[|b l]|k msg].
    + apply Hclosed in E. destruct E as [-> E]. cbn [List.length].
      split; [lia|].
      destruct exit; [contradiction | exact E | left; exact E].
    + destruct (try_parse (bytes_join (acc ++ [b :: l]))).
      * inversion E; subst. cbn [List.length]. split; lia.
      * apply IH in E. destruct E as [L E]. cbn [List.length].
        split; [lia|]. destruct exit; [lia | exact E |].
        right. destruct E as [-> | [N L']].
        -- split; [destruct acc; discriminate | lia].
        -- split; [exact N | lia].
      * apply IH in E. destruct E as [L E]. cbn [List.length].
        split; [lia|]. destruct exit; [lia | exact E |].
        right. destruct E as [-> | [N L']].
        -- split; [destruct acc; discriminate | lia].
        -- split; [exact N | lia].
    + cbn [List.length].
      destruct k; cbn [is_socket_timeout is_connection_error] in E.
      * destruct acc as [|a acc].
        -- inversion E; subst. split; [lia | left; reflexivity].
        -- destruct (try_parse (bytes_join (a :: acc))).
           ++ inversion E; subst. split; lia.
           ++ apply IH in E. destruct E as [L E]. split; [lia|].
              destruct exit; [lia | exact E |].
              destruct E as [-> | [N L']]; [left; reflexivity|].
              right. split; [exact N | lia].
           ++ apply IH in E. destruct E as [L E]. split; [lia|].
              destruct exit; [lia | exact E |].
              destruct E as [-> | [N L']]; [left; reflexivity|].
              right. split; [exact N | lia].
      * destruct acc as [|a acc];
          [|destruct (try_parse (bytes_join (a :: acc)))];
          inversion E; subst; split; try lia; split; reflexivity.
      * destruct acc as [|a acc];
          [|destruct (try_parse (bytes_join (a :: acc)))];
          inversion E; subst; split; try lia; split; reflexivity.
      * destruct acc as [|a acc];
          [|destruct (try_parse (bytes_join (a :: acc)))];
          inversion E; subst; split; try lia; split; reflexivity.
      * inversion E; subst. split; [lia | split; reflexivity].
Qed.

Lemma receive_progress (st st' : mstate) (r : res bytes) :
  receive_full_response st = (r, st') ->
  (exists e, r = Raise e /\ benign e
             /\ List.length (recvs (env st')) <= List.length (recvs (env st)))
  \/ (exists d, r = Ret d
                /\ List.length (recvs (env st'))
                   < List.length (recvs (env st))).
Proof.
  destruct st as [[h p sk] w].
  destruct sk as [s|].
  2:{ intro E. inversion E; subst. left. eexists. repeat split. cbn. lia. }
  cbv [receive_full_response bind sock_settimeout get time_time set_sock
       modify raise set_env self env sock host port clock ticks recvs
       sends probes conns trace].
  match goal with
  | |- context [recv_loop ?a ?b ?c ?d ?e] =>
      destruct (recv_loop a b c d e) as [[exit script'] t'] eqn:Er
  end.
  apply recv_loop_progress in Er. destruct Er as [L Er].
  destruct exit as [d|e|chunks]; intro E.
  - inversion E; subst. right. eexists. split; [reflexivity|]. exact Er.
  - inversion E; subst. left. eexists. repeat split; try apply Er. exact L.
  - unfold lift, final_parse in E.
    destruct chunks as [|c chunks].
    + inversion E; subst. left. eexists. repeat split. exact L.
    + destruct Er as [Er | [_ Er]]; [discriminate|].
      destruct (try_parse (bytes_join (c :: chunks))); inversion E; subst.
      * right. eexists. split; [reflexivity | exact Er].
      * left. eexists. repeat split. exact L.
      * left. eexists. repeat split. exact L.
Qed.

(** Fuel above the length of the recv script is enough for the receive
    loop of send_command. *)
Lemma wait_loop_total method params rid op_timeout start :
  forall (fuel : nat) (opid : json) (st : mstate),
    List.length (recvs (env st)) < fuel ->
    fst (wait_loop fuel method params rid op_timeout start opid st)
    <> OutOfFuel.
Proof.
  induction fuel as [|fuel IH]; intros opid st Hlen; [lia|].
  cbn [wait_loop]. unfold bind at 1. unfold time_time at 1.
  set (st1 := set_env _ st).
  assert (Hlen1 : List.length (recvs (env st1)) < S fuel) by exact Hlen.
  clearbody st1. clear Hlen.
  destruct (_ <? op_timeout)%float; [|discriminate].
  unfold bind at 1. unfold try_except. unfold bind at 1.
  destruct (receive_full_response st1) as [r st2] eqn:Er.
  apply receive_progress in Er.
  destruct Er as [[e [-> [[B1 B2] L]]] | [d [-> L]]].
  - rewrite B1, B2. discriminate.
  - unfold bind at 1. unfold lift at 1.
    destruct (decode_response d) as [response|e] eqn:Ed.
    + unfold lift at 1.
      destruct (handle_response rid opid response) as [[o| |v]|e] eqn:Eh.
      * apply IH. lia.
      * discriminate.
      * discriminate.
      * apply handle_response_err in Eh. destruct Eh as [B1 B2].
        rewrite B1, B2. discriminate.
    + unfold decode_response in Ed.
      destruct (utf8_decode d); [destruct (json_loads s)|];
        inversion Ed; subst; cbn [is_socket_timeout is_json_decode_error].
      * apply IH. lia.
      * discriminate.
Qed.

Lemma total_settimeout t : total (sock_settimeout t).
Proof.
  intro st. unfold sock_settimeout, bind, get.
  destruct (sock (self st)); discriminate.
Qed.

Lemma total_sendall data : total (sock_sendall data).
Proof.
  intros [[h p sk] w]. unfold sock_sendall, bind, get, emit, modify.
  cbn [self sock]. destruct sk; [|discriminate].
  cbn [env set_env sends log].
  destruct (sends w) as [|[[k m]|] rest]; discriminate.
Qed.

Lemma total_disconnect : total disconnect.
Proof.
  intro st. unfold disconnect, bind, get, emit, modify, set_sock, ret.
  destruct (sock (self st)); discriminate.
Qed.

Lemma total_connect : total connect.
Proof.
  intros [[h p sk] [clk t rs ss ps cs tr]].
  unfold connect, bind, get, sock_settimeout, set_sock, modify, sock_probe,
    ret, disconnect, emit, os_connect, set_env, log.
  cbn [self env sock host port clock ticks recvs sends probes conns trace].
  destruct sk; destruct ps as [|[|] ps]; destruct cs as [|[|] cs];
    discriminate.
Qed.

Lemma total_attempt request method params rid op_timeout :
  total (attempt request method params rid op_timeout).
Proof.
  unfold attempt.
  apply total_bind; [apply total_settimeout|intro].
  apply total_bind; [apply total_sendall|intro].
  apply total_bind; [apply total_settimeout|intro].
  apply total_bind; [intro st; discriminate|intro start].
  intro st. unfold bind at 1, get at 1. unfold bind at 1.
  pose proof (@wait_loop_total method params rid op_timeout start
                (S (List.length (recvs (env st)))) JNull st
                (Nat.lt_succ_diag_r _)) as Hw.
  destruct (wait_loop _ _ _ _ _ _ _ st) as [[[v|o]|e|] st'];
    cbn [fst] in *; try discriminate; try congruence.
  destruct (py_truthy o); discriminate.
Qed.

Lemma total_retry_loop request method params rid op_timeout :
  forall (fuel n : nat),
    5 <= fuel + n -> n <= 4 ->
    total (retry_loop fuel request method params rid op_timeout n).
Proof.
  induction fuel as [|fuel IH]; intros n Hf Hn; [lia|].
  cbn [retry_loop]. unfold max_retries.
  destruct (n <=? 3)%nat eqn:En; [|apply total_ret].
  apply Nat.leb_le in En.
  apply total_try; [apply total_attempt|intro e].
  destruct (is_transport_error e).
  - destruct (S n <=? 3)%nat eqn:En'.
    + apply Nat.leb_le in En'.
      apply total_bind; [apply total_disconnect|intro].
      apply total_bind; [intro st; discriminate|intro].
      apply total_bind; [apply total_connect|intro].
      apply IH; lia.
    + apply total_bind; [apply total_modify|intro]. apply total_raise.
  - destruct (is_json_decode_error e); [apply total_raise|].
    destruct (str_contains "Connection closed" (exn_str e) && (n <? 3)%nat)
      eqn:Ec.
    + apply andb_prop in Ec. destruct Ec as [_ Ec]. apply Nat.ltb_lt in Ec.
      apply total_bind; [apply total_disconnect|intro].
      apply total_bind; [intro st; discriminate|intro].
      apply total_bind; [apply total_connect|intro ok].
      destruct ok; [apply IH; lia|].
      apply total_bind; [apply total_modify|intro]. apply total_raise.
    + apply total_bind; [apply total_modify|intro]. apply total_raise.
Qed.

(** send_command never runs out of fuel. *)
Lemma total_send_command method params rid :
  total (send_command method params rid).
Proof.
  unfold send_command.
  apply total_bind; [apply total_connect|intro ok].
  destruct (negb ok); [apply total_raise|].
  apply total_retry_loop; lia.
Qed.

End SendFacts.

(** * The claims *)

Section Claims.
Context `{PyLib}.

(** C1 (amended). A response that is an object with no "error" field and
    that is not a status update ends the call with its "result" exactly
    when it has a "result" field and its "id" equals the call's
    correlation-id (Python's [==]; a missing "id" is [None]); otherwise it
    is ignored: the receive loop goes on waiting, with the same
    operation id, on what the peer sends next. *)
Theorem result_accepted_only_for_matching_id
    (fuel : nat) (method : string) (params : option dict)
    (request_id : json) (op_timeout start : float) (operation_id : json)
    (st : mstate) (s : socket) (c : bytes) (d : dict)
    (rest : list recv_event) :
  sock (self st) = Some s ->
  recvs (env st) = RData c :: rest ->
  c <> [] ->
  decode_response c = Ok (JObj d) ->
  dict_has "error" d = false ->
  py_eq (dict_get_default "method" JNull d) (JStr "operation/status") = false ->
  (clock (env st) (ticks (env st)) - start <? op_timeout)%float = true ->
  (clock (env st) (2 + ticks (env st))%nat
   - clock (env st) (1 + ticks (env st))%nat <? max_response_time)%float
  = true ->
  wait_loop (S fuel) method params request_id op_timeout start operation_id st
  = if dict_has "result" d
       && py_eq (dict_get_default "id" JNull d) request_id
    then (Ret (Returned (dict_get_default "result" (JObj []) d)),
          after_message rest st)
    else wait_loop fuel method params request_id op_timeout start
                   operation_id (after_message rest st).
Proof.
  intros Hs Hr Hc Hd He Hm Hg1 Hg2.
  erewrite wait_loop_message; [| eassumption ..].
  rewrite handle_response_plain by assumption.
  destruct (dict_has "result" d
            && py_eq (dict_get_default "id" JNull d) request_id);
    reflexivity.
Qed.

Lemma handle_response_error rid opid d e :
  dict_get "error" d = Some (JObj e) ->
  handle_response rid opid (JObj d)
  = Err (PyException
           (py_str (dict_get_default "message"
                      (JStr "Unknown error from Sketchup") e))).
Proof.
  intro He. unfold handle_response. cbn [py_in py_getitem rbind].
  unfold dict_has. rewrite He. cbn [rbind py_get]. reflexivity.
Qed.

(** C2 (amended). When the peer's reply to the first attempt is an error
    response whose "error" is an object, and the text of its message does
    not contain "Connection closed", the call fails with "Communication
    error with Sketchup: " followed by that message, and nothing is
    retried: after the liveness probe the only thing done to the socket is
    the one [sendall] of the request. *)
Theorem peer_error_fails_without_retry
    (method : string) (params : option dict) (request_id : json)
    (st : mstate) (s : socket) (c : bytes) (d e : dict)
    (rest : list recv_event) :
  sock (self st) = Some s ->
  hd true (probes (env st)) = true ->
  hd None (sends (env st)) = None ->
  recvs (env st) = RData c :: rest ->
  c <> [] ->
  decode_response c = Ok (JObj d) ->
  dict_get "error" d = Some (JObj e) ->
  timely (clock (env st)) (ticks (env st)) 1
         (operation_timeout method params) ->
  str_contains "Connection closed"
    (py_str (dict_get_default "message"
               (JStr "Unknown error from Sketchup") e)) = false ->
  send_command method params request_id st
  = (Raise (PyException
              ("Communication error with Sketchup: "
               ++ py_str (dict_get_default "message"
                            (JStr "Unknown error from Sketchup") e))%string),
     drop_sock
       (after_message rest
          (after_send
             (request_bytes (build_request method params request_id))
             (operation_timeout method params) (after_probe st))))
  /\ mtrace (snd (send_command method params request_id st))
     = mtrace st
       ++ [EvProbe true;
           EvSend (request_bytes (build_request method params request_id))].
Proof.
  intros Hs Hp Hsend Hr Hc Hd He Ht Hcc.
  destruct (Ht 0) as [Hg1 Hg2]; [lia|].
  replace (1 + ticks (env st) + 3 * 0) with (S (ticks (env st))) in Hg1
    by lia.
  replace (3 + ticks (env st) + 3 * 0) with (2 + S (ticks (env st))) in Hg2
    by lia.
  replace (2 + ticks (env st) + 3 * 0) with (1 + S (ticks (env st))) in Hg2
    by lia.
  set (request := build_request method params request_id) in *.
  set (op_timeout := operation_timeout method params) in *.
  set (msg := py_str (dict_get_default "message"
                        (JStr "Unknown error from Sketchup") e)) in *.
  assert (Ha : attempt request method params request_id op_timeout
                 (after_probe st)
               = (Raise (PyException msg),
                  after_message rest
                    (after_send (request_bytes request) op_timeout
                       (after_probe st)))).
  { erewrite attempt_sends; [| reflexivity | exact Hsend].
    unfold bind at 1.
    erewrite wait_loop_message;
      [| reflexivity | exact Hr | exact Hc | exact Hd | exact Hg1
       | exact Hg2].
    rewrite (handle_response_error request_id JNull d He). reflexivity. }
  assert (E : send_command method params request_id st
              = (Raise (PyException
                   ("Communication error with Sketchup: " ++ msg)%string),
                 drop_sock
                   (after_message rest
                      (after_send (request_bytes request) op_timeout
                         (after_probe st))))).
  { unfold send_command. unfold bind at 1.
    rewrite (connect_alive st Hs Hp). cbn [negb].
    fold request. fold op_timeout.
    rewrite (@retry_loop_terminal H 4 request method params request_id
               op_timeout 0 (after_probe st) _ _ Ha);
      [reflexivity | reflexivity | reflexivity | |].
    - cbn [exn_str]. rewrite Hcc. reflexivity.
    - unfold max_retries. lia. }
  split; [exact E|].
  rewrite E. unfold mtrace, drop_sock, after_message, after_send, after_probe.
  cbn [snd env trace self]. rewrite <- app_assoc. reflexivity.
Qed.

(** C4 (amended). The timeout is chosen by the name in [params] only for a
    call in the "tools/call" form with non-empty [params]: 60 for
    create_component, 180 for the four joinery and boolean names, 300 for
    eval_ruby and 120 for every other name; for a direct command (another
    method, or empty or absent [params]) it is 120 whatever the operation
    is called. *)
Theorem timeout_selected_by_tool_name
    (method : string) (params : option dict) :
  operation_timeout method params
  = (if (method =? "tools/call") && params_truthy params then
       match dict_get "name" (params_or_empty params) with
       | Some (JStr name) => spec_timeout name
       | _ => 120%float
       end
     else 120%float)
  /\ spec_timeout "create_component" = 60%float
  /\ spec_timeout "boolean_operation" = 180%float
  /\ spec_timeout "create_dovetail" = 180%float
  /\ spec_timeout "create_mortise_tenon" = 180%float
  /\ spec_timeout "create_finger_joint" = 180%float
  /\ spec_timeout "eval_ruby" = 300%float
  /\ (forall name : string,
        ~ In name ["create_component"; "boolean_operation"; "create_dovetail";
                   "create_mortise_tenon"; "create_finger_joint"; "eval_ruby"] ->
        spec_timeout name = 120%float).
Proof.
  split; [|repeat split; try reflexivity].
  - unfold operation_timeout.
    destruct ((method =? "tools/call") && params_truthy params);
      [|reflexivity].
    unfold dict_get_default.
    destruct (dict_get "name" (params_or_empty params)) as [v|];
      [|reflexivity].
    destruct v; try reflexivity.
    unfold spec_timeout. cbn [py_eq existsb]. rewrite orb_false_r.
    rewrite !orb_assoc. reflexivity.
  - intros name Hn. unfold spec_timeout.
    assert (E : forall x, In x ["create_component"; "boolean_operation";
                                "create_dovetail"; "create_mortise_tenon";
                                "create_finger_joint"; "eval_ruby"] ->
                          (name =? x) = false).
    { intros x Hx. apply String.eqb_neq. intro. subst. exact (Hn Hx). }
    rewrite !E; cbn [In]; tauto.
Qed.

(** C8 (amended). A document that arrives in any number of non-empty chunks
    is returned whole, whatever the chunk boundaries, provided that no
    shorter run of its chunks is itself a complete JSON document and that
    the receive ceiling is not reached while the chunks arrive. *)
Theorem receive_full_response_chunk_invariant
    (st : mstate) (s : socket) (cs : list bytes) (rest : list recv_event) :
  sock (self st) = Some s ->
  recvs (env st) = map RData cs ++ rest ->
  cs <> [] ->
  Forall (fun c => c <> []) cs ->
  try_parse (bytes_join cs) = Complete ->
  (forall k, 0 < k < List.length cs ->
             try_parse (bytes_join (firstn k cs)) <> Complete) ->
  (forall i : nat, i < List.length cs ->
      (clock (env st) (S (ticks (env st)) + i)%nat
       - clock (env st) (ticks (env st)) <? max_response_time)%float = true) ->
  receive_full_response st
  = (Ret (bytes_join cs), after_receive (List.length cs) rest st).
Proof. apply receive_chunks. Qed.

Lemma only_sends_repeat (data : bytes) (evs : list event) :
  Forall (only_sends data) evs ->
  sends_of evs = repeat data (List.length (sends_of evs)).
Proof.
  induction 1 as [|ev evs Hev _ IH]; [reflexivity|].
  destruct ev; cbn in *; try exact IH. subst. f_equal. exact IH.
Qed.

Lemma attempt_first_sends request method params rid op_timeout
    (st : mstate) (s : socket) :
  sock (self st) = Some s ->
  exists evs,
    mtrace (snd (attempt request method params rid op_timeout st))
    = mtrace st ++ EvSend (request_bytes request) :: evs.
Proof.
  intro Hs. destruct (hd None (sends (env st))) as [[k msg]|] eqn:Eh.
  - exists []. destruct st as [[h p sk] [clk t rs ss ps cs tr]].
    cbn [self env sock sends] in *. subst sk.
    destruct ss as [|o ss]; [discriminate|]. cbn [hd] in Eh. subst o.
    reflexivity.
  - rewrite (attempt_sends request method params rid op_timeout st Hs Eh).
    match goal with
    | |- context [snd (?m ?x)] =>
        assert (Hm : emits mtrace nothing 0 m)
    end.
    { eapply emits_bind with (k1 := 0) (k2 := 0); [|intro x|lia].
      - apply emits_wait_loop.
      - destruct x as [v|o]; [apply emits_ret|].
        destruct (py_truthy o); apply emits_raise. }
    destruct (Hm (after_send (request_bytes request) op_timeout st))
      as [evs [E _]].
    exists evs. rewrite E. unfold mtrace, after_send. cbn [env trace].
    rewrite <- app_assoc. reflexivity.
Qed.

Lemma recv_loop_raises (clk : nat -> float) (start : float) :
  forall (script : list recv_event) (t : nat) (acc : list bytes)
         (e : exn) (script' : list recv_event) (t' : nat),
    recv_loop clk start script t acc = (RxRaise e, script', t') ->
    e = PyException "Connection closed before receiving any data"
    \/ exists k msg, e = OSError k msg /\ k <> Timeout.
Proof.
  induction script as [|ev script IH]; intros t acc e script' t' E;
    cbn [recv_loop] in E;
    destruct (clk t - start <? max_response_time)%float; try discriminate.
  - destruct acc; inversion E; subst. left. reflexivity.
  - destruct ev as [[|b l]|k msg].
    + destruct acc; inversion E; subst. left. reflexivity.
    + destruct (try_parse (bytes_join (acc ++ [b :: l])));
        [discriminate | eapply IH; exact E | eapply IH; exact E].
    + destruct k; cbn [is_socket_timeout is_connection_error] in E.
      * destruct acc as [|a acc]; [discriminate|].
        destruct (try_parse (bytes_join (a :: acc)));
          [discriminate | eapply IH; exact E | eapply IH; exact E].
      * destruct acc as [|a acc];
          [|destruct (try_parse (bytes_join (a :: acc)))];
          inversion E; subst; right; do 2 eexists; split;
          try reflexivity; discriminate.
      * destruct acc as [|a acc];
          [|destruct (try_parse (bytes_join (a :: acc)))];
          inversion E; subst; right; do 2 eexists; split;
          try reflexivity; discriminate.
      * destruct acc as [|a acc];
          [|destruct (try_parse (bytes_join (a :: acc)))];
          inversion E; subst; right; do 2 eexists; split;
          try reflexivity; discriminate.
      * inversion E; subst; right; do 2 eexists; split;
          try reflexivity; discriminate.
Qed.

Lemma receive_raises (st st' : mstate) (e : exn) :
  receive_full_response st = (Raise e, st') ->
  In e [PyException "Connection closed before receiving any data";
        PyException "No data received";
        PyException "Incomplete JSON response received";
        PyException "Invalid response encoding";
        none_has_no "settimeout"]
  \/ exists k msg, e = OSError k msg /\ k <> Timeout.
Proof.
  destruct st as [[h p sk] w].
  destruct sk as [s|].
  2:{ intro E. inversion E; subst. left. cbn. tauto. }
  cbv [receive_full_response bind sock_settimeout get time_time set_sock
       modify raise set_env self env sock host port clock ticks recvs
       sends probes conns trace].
  match goal with
  | |- context [recv_loop ?a ?b ?c ?d ?e] =>
      destruct (recv_loop a b c d e) as [[exit script'] t'] eqn:Er
  end.
  destruct exit as [d|e0|chunks]; intro E.
  - discriminate.
  - inversion E; subst. apply recv_loop_raises in Er.
    destruct Er as [-> | Er]; [left; cbn; tauto | right; exact Er].
  - unfold lift, final_parse in E. left.
    destruct chunks as [|c chunks].
    + inversion E; subst. cbn. tauto.
    + destruct (try_parse (bytes_join (c :: chunks))); inversion E; subst;
        cbn; tauto.
Qed.

Lemma wait_loop_receive_raises fuel method params rid op_timeout start opid
    (st st' : mstate) (e : exn) :
  (clock (env st) (ticks (env st)) - start <? op_timeout)%float = true ->
  receive_full_response (ticked st) = (Raise e, st') ->
  wait_loop (S fuel) method params rid op_timeout start opid st
  = (Raise e, st').
Proof.
  intros Hg Er. cbn [wait_loop]. unfold bind at 1.
  change (time_time st) with (Ret (clock (env st) (ticks (env st))), ticked st).
  cbv beta iota. rewrite Hg.
  unfold bind at 1. unfold try_except. unfold bind at 1. rewrite Er.
  assert (B : benign e).
  { pose proof Er as Er'. apply receive_progress in Er'.
    destruct Er' as [[e' [E' [B _]]] | [d [E' _]]]; [|discriminate].
    inversion E'; subst. exact B. }
  destruct B as [B1 B2]. rewrite B1, B2. reflexivity.
Qed.

Lemma transport_kind_is_caught (k : os_kind) (msg : string) :
  transport_kind k = true -> is_transport_error (OSError k msg) = true.
Proof. destruct k; [reflexivity ..|discriminate]. Qed.

(** An attempt whose [sendall] raises. *)
Lemma attempt_send_fails request method params rid op_timeout (st : mstate)
    (s : socket) (k : os_kind) (msg : string) :
  sock (self st) = Some s ->
  hd None (sends (env st)) = Some (k, msg) ->
  attempt request method params rid op_timeout st
  = (Raise (OSError k msg), after_failed_send (request_bytes request) st).
Proof.
  intros Hs Hf. destruct st as [[h p sk] [clk t rs ss ps cs tr]].
  cbn [self env sock sends] in *. subst sk.
  destruct ss as [|o ss]; [discriminate|]. cbn [hd] in Hf. subst o.
  reflexivity.
Qed.

(** receive_full_response when the first [recv] times out. *)
Lemma receive_times_out (st : mstate) (s : socket) (msg : string)
    (rest : list recv_event) :
  sock (self st) = Some s ->
  recvs (env st) = RError Timeout msg :: rest ->
  (clock (env st) (S (ticks (env st))) - clock (env st) (ticks (env st))
   <? max_response_time)%float = true ->
  receive_full_response st
  = (Raise (PyException "No data received"), after_receive 1 rest st).
Proof.
  destruct st as [[h p sk] [clk t rs ss ps cs tr]].
  cbn [self env sock recvs clock ticks]. intros -> -> Hc.
  cbv [receive_full_response bind sock_settimeout get time_time set_sock
       modify raise set_env self env sock host port clock ticks recvs
       sends probes conns trace recv_loop after_receive
       is_socket_timeout lift final_parse].
  rewrite Hc. replace (S t + 1) with (S (S t)) by lia. reflexivity.
Qed.

(** An attempt whose first [recv] times out: the timeout does not leave
    receive_full_response, and the attempt raises a plain Exception. *)
Lemma attempt_recv_times_out request method params rid op_timeout
    (st : mstate) (s : socket) (msg : string) (rest : list recv_event) :
  sock (self st) = Some s ->
  hd None (sends (env st)) = None ->
  recvs (env st) = RError Timeout msg :: rest ->
  (clock (env st) (1 + ticks (env st))%nat - clock (env st) (ticks (env st))
   <? op_timeout)%float = true ->
  (clock (env st) (3 + ticks (env st))%nat
   - clock (env st) (2 + ticks (env st))%nat <? max_response_time)%float
  = true ->
  attempt request method params rid op_timeout st
  = (Raise (PyException "No data received"),
     after_receive 1 rest
       (ticked (after_send (request_bytes request) op_timeout st))).
Proof.
  intros Hs Hsend Hr Hg1 Hg2.
  rewrite (attempt_sends request method params rid op_timeout st Hs Hsend).
  unfold bind at 1.
  rewrite (@wait_loop_receive_raises (List.length (recvs (env st))) method
             params rid op_timeout (clock (env st) (ticks (env st))) JNull
             (after_send (request_bytes request) op_timeout st)
             (after_receive 1 rest
                (ticked (after_send (request_bytes request) op_timeout st)))
             (PyException "No data received")).
  - reflexivity.
  - exact Hg1.
  - apply receive_times_out with (s := mkSocket op_timeout) (msg := msg).
    + reflexivity.
    + exact Hr.
    + exact Hg2.
Qed.

(** C3 (amended). A call makes at most four [sendall]s, each of the same
    request bytes, hence with the same correlation-id. An attempt that
    raises socket.timeout, ConnectionError, BrokenPipeError or
    ConnectionResetError is retried while fewer than three retries were
    made: the session disconnects, sleeps [min(n * 0.5, 2.0)] for the retry
    number [n], which is 0.5, 1.0 and 1.5 seconds, and connects; the attempt
    that follows on a connected session starts by sending the same bytes.
    At the fourth attempt such a failure ends the call with "Connection to
    Sketchup lost after 4 attempts". A [sendall] that fails with one of
    these errors is such a failure. A [recv] that times out is not:
    receive_full_response keeps the timeout to itself, and when no data has
    arrived the call ends at once with "Communication error with Sketchup:
    No data received", without a retry. The retries that the generic
    handler makes, for an exception whose text contains "Connection
    closed", count among the three, but are preceded by a sleep of 0.5
    seconds whatever their number. *)
Theorem transport_failures_retried_with_backoff
    (method : string) (params : option dict) (request_id : json) :
  (forall st : mstate,
      exists k : nat,
        k <= 4
        /\ sends_of (mtrace (snd (send_command method params request_id st)))
           = sends_of (mtrace st)
             ++ repeat (request_bytes
                          (build_request method params request_id)) k)
  /\ (forall msg : string,
        is_transport_error (OSError Timeout msg) = true
        /\ is_transport_error (OSError ConnectionReset msg) = true
        /\ is_transport_error (OSError BrokenPipe msg) = true
        /\ is_transport_error (OSError ConnectionOther msg) = true
        /\ is_transport_error (PyException msg) = false)
  /\ (backoff 1 = 0.5%float /\ backoff 2 = 1%float /\ backoff 3 = 1.5%float)
  /\ (forall (fuel : nat) (request : json) (op_timeout : float) (n : nat)
             (st st1 : mstate) (e : exn),
        attempt request method params request_id op_timeout st
        = (Raise e, st1) ->
        is_transport_error e = true ->
        n < 3 ->
        retry_loop (S fuel) request method params request_id op_timeout n st
        = retry_loop fuel request method params request_id op_timeout (S n)
                     (after_backoff (backoff (S n)) st1))
  /\ (forall (fuel : nat) (request : json) (op_timeout : float)
             (st st1 : mstate) (e : exn),
        attempt request method params request_id op_timeout st
        = (Raise e, st1) ->
        is_transport_error e = true ->
        retry_loop (S fuel) request method params request_id op_timeout 3 st
        = (Raise (PyException
                    ("Connection to Sketchup lost after 4 attempts: "
                     ++ exn_str e)%string),
           drop_sock st1))
  /\ (forall (request : json) (op_timeout : float) (st : mstate)
             (s : socket),
        sock (self st) = Some s ->
        exists evs,
          mtrace (snd (attempt request method params request_id op_timeout
                         st))
          = mtrace st ++ EvSend (request_bytes request) :: evs)
  /\ (forall (fuel : nat) (request : json) (op_timeout : float) (n : nat)
             (st : mstate) (s : socket) (k : os_kind) (msg : string),
        sock (self st) = Some s ->
        hd None (sends (env st)) = Some (k, msg) ->
        transport_kind k = true ->
        n <= 3 ->
        retry_loop (S fuel) request method params request_id op_timeout n st
        = if (n <? 3)%nat then
            retry_loop fuel request method params request_id op_timeout (S n)
                       (after_backoff (backoff (S n))
                          (after_failed_send (request_bytes request) st))
          else
            (Raise (PyException
                      ("Connection to Sketchup lost after 4 attempts: "
                       ++ msg)%string),
             drop_sock (after_failed_send (request_bytes request) st)))
  /\ (forall (fuel : nat) (request : json) (op_timeout : float) (n : nat)
             (st : mstate) (s : socket) (msg : string)
             (rest : list recv_event),
        sock (self st) = Some s ->
        hd None (sends (env st)) = None ->
        recvs (env st) = RError Timeout msg :: rest ->
        (clock (env st) (1 + ticks (env st))%nat
         - clock (env st) (ticks (env st)) <? op_timeout)%float = true ->
        (clock (env st) (3 + ticks (env st))%nat
         - clock (env st) (2 + ticks (env st))%nat
         <? max_response_time)%float = true ->
        n <= 3 ->
        retry_loop (S fuel) request method params request_id op_timeout n st
        = (Raise (PyException
                    "Communication error with Sketchup: No data received"),
           drop_sock
             (after_receive 1 rest
                (ticked (after_send (request_bytes request) op_timeout
                           st)))))
  /\ (forall (fuel : nat) (request : json) (op_timeout : float) (n : nat)
             (st st1 : mstate) (e : exn),
        attempt request method params request_id op_timeout st
        = (Raise e, st1) ->
        is_transport_error e = false ->
        is_json_decode_error e = false ->
        str_contains "Connection closed" (exn_str e) = true ->
        n < 3 ->
        retry_loop (S fuel) request method params request_id op_timeout n st
        = if hd true (conns (env st1)) then
            retry_loop fuel request method params request_id op_timeout (S n)
                       (after_backoff 0.5 st1)
          else
            (Raise (PyException
                      ("Communication error with Sketchup: "
                       ++ exn_str e)%string),
             drop_sock (after_backoff 0.5 st1))).
Proof.
  split; [|split; [|split; [|split; [|split; [|split; [|split; [|split]]]]]]].
  - intro st.
    destruct (emits_send_command method params request_id st)
      as [evs [E [F L]]].
    exists (List.length (sends_of evs)). split; [exact L|].
    rewrite E, sends_of_app. f_equal. apply only_sends_repeat. exact F.
  - intro msg. repeat split.
  - repeat split.
  - intros fuel request op_timeout n st st1 e Ha He Hn.
    eapply retry_loop_transport; eassumption.
  - intros fuel request op_timeout st st1 e Ha He.
    eapply retry_loop_exhausted; eassumption.
  - intros request op_timeout st s Hs.
    eapply attempt_first_sends. exact Hs.
  - intros fuel request op_timeout n st s k msg Hs Hf Hk Hn.
    pose proof (@attempt_send_fails request method params request_id
                  op_timeout st s k msg Hs Hf) as Ha.
    pose proof (@transport_kind_is_caught k msg Hk) as He.
    destruct (n <? 3)%nat eqn:En.
    + apply Nat.ltb_lt in En.
      eapply retry_loop_transport; eassumption.
    + apply Nat.ltb_ge in En. assert (n = 3) by lia. subst n.
      pose proof (@retry_loop_exhausted H fuel request method params
                    request_id op_timeout st _ _ Ha He) as R.
      unfold max_retries in R. exact R.
  - intros fuel request op_timeout n st s msg rest Hs Hsend Hr Hg1 Hg2 Hn.
    rewrite (@retry_loop_terminal H fuel request method params request_id
               op_timeout n st _ _
               (@attempt_recv_times_out request method params request_id
                  op_timeout st s msg rest Hs Hsend Hr Hg1 Hg2));
      try reflexivity.
    unfold max_retries. exact Hn.
  - intros fuel request op_timeout n st st1 e Ha He Hj Hc Hn.
    eapply retry_loop_closed; eassumption.
Qed.

(** C5 (amended). What receive_full_response raises is one of its four
    framing failures, an exception of a [recv] that it passes on, or the
    lack of a socket; a framing failure is a plain [Exception], which the
    receive loop of send_command lets through. Of the four, only "Connection
    closed before receiving any data" (the peer closed before any byte
    arrived) is retried, while fewer than three retries were made: the
    session disconnects, sleeps 0.5 seconds and connects, and attempts
    again when that succeeds. "No data received", "Incomplete JSON response
    received" and "Invalid response encoding" end the call at once with
    "Communication error with Sketchup: " and the message. *)
Theorem framing_failures_mostly_terminal
    (method : string) (params : option dict) (request_id : json) :
  (forall (st st' : mstate) (e : exn),
      receive_full_response st = (Raise e, st') ->
      In e [PyException "Connection closed before receiving any data";
            PyException "No data received";
            PyException "Incomplete JSON response received";
            PyException "Invalid response encoding";
            none_has_no "settimeout"]
      \/ exists k msg, e = OSError k msg /\ k <> Timeout)
  /\ (forall (fuel : nat) (op_timeout start : float) (operation_id : json)
             (st st' : mstate) (e : exn),
        (clock (env st) (ticks (env st)) - start <? op_timeout)%float = true ->
        receive_full_response (ticked st) = (Raise e, st') ->
        wait_loop (S fuel) method params request_id op_timeout start
                  operation_id st
        = (Raise e, st'))
  /\ (forall (fuel : nat) (request : json) (op_timeout : float) (n : nat)
             (st st1 : mstate) (msg : string),
        attempt request method params request_id op_timeout st
        = (Raise (PyException msg), st1) ->
        In msg ["No data received"; "Incomplete JSON response received";
                "Invalid response encoding"] ->
        n <= 3 ->
        retry_loop (S fuel) request method params request_id op_timeout n st
        = (Raise (PyException
                    ("Communication error with Sketchup: " ++ msg)%string),
           drop_sock st1))
  /\ (forall (fuel : nat) (request : json) (op_timeout : float) (n : nat)
             (st st1 : mstate),
        attempt request method params request_id op_timeout st
        = (Raise (PyException "Connection closed before receiving any data"),
           st1) ->
        n < 3 ->
        retry_loop (S fuel) request method params request_id op_timeout n st
        = if hd true (conns (env st1)) then
            retry_loop fuel request method params request_id op_timeout (S n)
                       (after_backoff 0.5 st1)
          else
            (Raise (PyException
                      "Communication error with Sketchup: Connection closed before receiving any data"),
             drop_sock (after_backoff 0.5 st1)))
  /\ (forall (fuel : nat) (request : json) (op_timeout : float)
             (st st1 : mstate),
        attempt request method params request_id op_timeout st
        = (Raise (PyException "Connection closed before receiving any data"),
           st1) ->
        retry_loop (S fuel) request method params request_id op_timeout 3 st
        = (Raise (PyException
                    "Communication error with Sketchup: Connection closed before receiving any data"),
           drop_sock st1)).
Proof.
  split; [exact receive_raises|].
  split; [intros; apply wait_loop_receive_raises; assumption|].
  split; [|split].
  - intros fuel request op_timeout n st st1 msg Ha Hin Hn.
    rewrite (@retry_loop_terminal H fuel request method params request_id
               op_timeout n st st1 _ Ha); try reflexivity.
    + cbn [In] in Hin.
      destruct Hin as [<- | [<- | [<- | []]]]; reflexivity.
    + unfold max_retries. exact Hn.
  - intros fuel request op_timeout n st st1 Ha Hn.
    rewrite (@retry_loop_closed H fuel request method params request_id
               op_timeout n st st1 _ Ha); try reflexivity.
    unfold max_retries. exact Hn.
  - intros fuel request op_timeout st st1 Ha.
    rewrite (@retry_loop_terminal H fuel request method params request_id
               op_timeout 3 st st1 _ Ha); reflexivity.
Qed.

(** C6 (amended). When the peer sends running status notifications and
    then a final result whose id matches, each message in one chunk and
    each awaited within the operation's time budget and the receive
    ceiling, the call waits through every notification and returns the
    "result" of the final response; nothing is retried. *)
Theorem running_status_is_not_terminal
    (method : string) (params : option dict) (request_id : json)
    (st : mstate) (s : socket) (cs : list bytes) (c : bytes) (d : dict)
    (rest : list recv_event) :
  sock (self st) = Some s ->
  hd true (probes (env st)) = true ->
  hd None (sends (env st)) = None ->
  recvs (env st) = map RData cs ++ RData c :: rest ->
  Forall running_chunk cs ->
  c <> [] ->
  decode_response c = Ok (JObj d) ->
  final_result_for request_id (JObj d) = true ->
  timely (clock (env st)) (ticks (env st)) (S (List.length cs))
         (operation_timeout method params) ->
  send_command method params request_id st
  = (Ret (dict_get_default "result" (JObj []) d),
     after_messages (S (List.length cs)) rest
       (after_send (request_bytes (build_request method params request_id))
          (operation_timeout method params) (after_probe st))).
Proof.
  intros Hs Hp Hsend Hr Hcs Hc Hd Hf Ht.
  set (request := build_request method params request_id) in *.
  set (op_timeout := operation_timeout method params) in *.
  set (st0 := after_send (request_bytes request) op_timeout (after_probe st)).
  assert (Hw : wait_loop (S (List.length (recvs (env st)))) method params
                 request_id op_timeout (clock (env st) (ticks (env st)))
                 JNull st0
               = (Ret (Returned (dict_get_default "result" (JObj []) d)),
                  after_messages (S (List.length cs)) rest st0)).
  { apply (@wait_loop_running H method params request_id op_timeout
             (clock (env st) (ticks (env st))) c (JObj d) rest cs
             (S (List.length (recvs (env st)))) JNull st0
             (mkSocket op_timeout)); try assumption; try reflexivity.
    - rewrite Hr, length_app, length_map. cbn [List.length]. lia.
    - intros j Hj. unfold st0, after_send, after_probe.
      cbn [env clock ticks].
      destruct (Ht j) as [G1 G2]; [lia|]. split.
      + replace (S (ticks (env st)) + 3 * j)
          with (1 + ticks (env st) + 3 * j) by lia. exact G1.
      + replace (2 + S (ticks (env st)) + 3 * j)
          with (3 + ticks (env st) + 3 * j) by lia.
        replace (1 + S (ticks (env st)) + 3 * j)
          with (2 + ticks (env st) + 3 * j) by lia. exact G2. }
  unfold send_command. unfold bind at 1.
  rewrite (connect_alive st Hs Hp). cbn [negb].
  cbn [retry_loop]. unfold max_retries. cbn [Nat.leb]. unfold try_except.
  fold request. fold op_timeout.
  erewrite attempt_sends; [| reflexivity | exact Hsend].
  unfold bind at 1.
  change (after_send (request_bytes request) op_timeout (after_probe st))
    with st0.
  change (recvs (env (after_probe st))) with (recvs (env st)).
  change (clock (env (after_probe st)) (ticks (env (after_probe st))))
    with (clock (env st) (ticks (env st))).
  rewrite Hw. reflexivity.
Qed.

End Claims.

(** ** The tools: what they return, their trace and their fuel *)

Section ToolFacts.
Context `{PyLib}.

Lemma returns_ret {S A} (P : A -> Prop) (a : A) : P a -> returns P (@ret S A a).
Proof. intros Ha st a' st' E. inversion E; subst. exact Ha. Qed.

Lemma returns_raise {S A} (P : A -> Prop) (e : exn) :
  returns P (@raise S A e).
Proof. intros st a st' E. discriminate E. Qed.

Lemma returns_bind {S A B} (P : B -> Prop) (m : M S A) (f : A -> M S B) :
  (forall a, returns P (f a)) -> returns P (bind m f).
Proof.
  intros Hf st b st' E. unfold bind in E.
  destruct (m st) as [[a|e|] st1]; try discriminate.
  exact (Hf a st1 b st' E).
Qed.

Lemma returns_lift {S A} (P : A -> Prop) (r : outcome A) :
  (forall a, r = Ok a -> P a) -> returns P (@lift S A r).
Proof.
  intros Hr st a st' E. unfold lift in E. destruct r; inversion E; subst.
  apply Hr. reflexivity.
Qed.

(** A tool whose handler returns: it returns, and what it returns is what
    its body or its handler returns. *)
Lemma tool_returns {S A} (P : A -> Prop) (body : M S A)
    (handler : exn -> M S A) :
  total body ->
  returns P body ->
  (forall e st, exists a, handler e st = (Ret a, st) /\ P a) ->
  forall st, exists out st',
    try_except body handler st = (Ret out, st') /\ P out.
Proof.
  intros Ht Hr Hg st. unfold try_except.
  specialize (Ht st). specialize (Hr st).
  destruct (body st) as [[a|e|] st1]; cbn [fst] in *.
  - exists a, st1. split; [reflexivity|]. eapply Hr. reflexivity.
  - destruct (Hg e st1) as [a [E Pa]]. exists a, st1. split; assumption.
  - congruence.
Qed.

Lemma total_method {A} (m : M mstate A) : total m -> total (method m).
Proof.
  intros Hm ts. unfold method. destruct (conn ts) as [c|]; [|discriminate].
  specialize (Hm (mkState c (tenv ts))).
  destruct (m (mkState c (tenv ts))) as [r st]. exact Hm.
Qed.

Lemma emits_method {A} ok k (m : M mstate A) :
  emits mtrace ok k m -> emits ttrace ok k (method m).
Proof.
  intros Hm ts. unfold method. destruct (conn ts) as [c|].
  - destruct (Hm (mkState c (tenv ts))) as [evs E].
    destruct (m (mkState c (tenv ts))) as [r st]. exists evs. exact E.
  - exists []. cbn [snd]. rewrite app_nil_r.
    repeat split; [constructor | cbn; lia].
Qed.

Lemma emits_set_conn ok k c : emits ttrace ok k (set_conn c).
Proof. apply emits_same. reflexivity. Qed.

Lemma total_get_sketchup_connection : total get_sketchup_connection.
Proof.
  unfold get_sketchup_connection, set_conn.
  repeat first [ apply total_method; apply total_connect | step_total ].
Qed.

Lemma emits_get_sketchup_connection k :
  emits ttrace no_send k get_sketchup_connection.
Proof.
  eapply emits_weaken with (ok := no_send) (k := 0); [|auto|lia].
  unfold get_sketchup_connection.
  repeat first [ apply emits_set_conn
               | apply emits_method; apply emits_connect
               | step_emits ].
Qed.

Lemma total_call_sketchup name arguments rid :
  total (call_sketchup name arguments rid).
Proof.
  unfold call_sketchup.
  apply total_bind; [apply total_get_sketchup_connection|intro].
  apply total_method. apply total_send_command.
Qed.

Lemma emits_call_sketchup name arguments rid :
  emits ttrace
    (only_sends (request_bytes
                   (build_request "tools/call" (tool_params name arguments)
                      rid))) 4
    (call_sketchup name arguments rid).
Proof.
  unfold call_sketchup.
  eapply emits_bind with (k1 := 0) (k2 := 4); [|intro|lia].
  - eapply emits_weaken; [apply (emits_get_sketchup_connection 0)| |lia].
    apply no_send_only.
  - apply emits_method. apply emits_send_command.
Qed.

Lemma answer_shape result on_success default_reason failure empty_message
    out :
  answer result on_success default_reason failure empty_message = Ok out ->
  object_answer out.
Proof.
  unfold answer. intro E.
  destruct (reports_success result) as [[|]|e]; cbn [rbind] in E;
    try discriminate.
  - destruct on_success as [m|e]; cbn [rbind] in E; inversion E; subst.
    left. eauto.
  - destruct (py_truthy result).
    + destruct (py_get result "message" (JStr default_reason));
        cbn [rbind] in E; inversion E; subst. left. eauto.
    + inversion E; subst. right. left. eauto.
Qed.

Lemma forwarding_tool_returns name arguments prefix rid (ts : tstate) :
  exists out ts',
    forwarding_tool name arguments prefix rid ts = (Ret out, ts')
    /\ ((exists result, out = json_dumps result)
        \/ (exists e, out = (prefix ++ exn_str e)%string)).
Proof.
  unfold forwarding_tool.
  apply tool_returns
    with (P := fun out => (exists result, out = json_dumps result)
                          \/ (exists e, out = (prefix ++ exn_str e)%string)).
  - apply total_bind; [apply total_call_sketchup|intro; apply total_ret].
  - apply returns_bind. intro result. apply returns_ret. left. eauto.
  - intros e st. eexists. split; [reflexivity|]. right. eauto.
Qed.

Lemma error_payload_answer message : object_answer (error_payload message).
Proof. right. left. eauto. Qed.

Lemma payload_answer message details : object_answer (payload message details).
Proof. left. eauto. Qed.

Lemma answering_tool_returns name arguments rid on_success default_reason
    failure empty_message (g : exn -> string) (ts : tstate) :
  exists out ts',
    try_except
      (result <- call_sketchup name arguments rid;;
       lift (answer result (on_success result) default_reason failure
               empty_message))
      (fun e => ret (error_payload (g e))) ts
    = (Ret out, ts')
    /\ object_answer out.
Proof.
  apply tool_returns with (P := object_answer).
  - apply total_bind; [apply total_call_sketchup|intro; apply total_lift].
  - apply returns_bind. intro result. apply returns_lift.
    intros out E. eapply answer_shape. exact E.
  - intros e st. eexists. split; [reflexivity|]. apply error_payload_answer.
Qed.

End ToolFacts.

Section ToolClaims.
Context `{PyLib}.

Lemma create_component_returns rid type position dimensions direction
    origin_mode (ts : tstate) :
  exists out ts',
    create_component rid type position dimensions direction origin_mode ts
    = (Ret out, ts')
    /\ object_answer out.
Proof.
  unfold create_component.
  apply tool_returns with (P := object_answer).
  + repeat first [ apply total_call_sketchup | step_total ].
  + apply returns_bind. intro dims.
    destruct (negb (existsb (String.eqb direction) valid_directions));
      [apply returns_raise|].
    destruct (negb (existsb (String.eqb origin_mode) valid_origin_modes));
      [apply returns_raise|].
    apply returns_bind. intro result. apply returns_bind. intros [|].
    * apply returns_bind. intro message. apply returns_ret.
      apply payload_answer.
    * apply returns_bind. intro message. apply returns_ret.
      apply payload_answer.
  + intros e st. eexists. split; [reflexivity|].
    apply error_payload_answer.
Qed.

Lemma delete_component_returns rid id (ts : tstate) :
  exists out ts',
    delete_component rid id ts = (Ret out, ts') /\ object_answer out.
Proof.
  unfold delete_component.
  apply (answering_tool_returns "delete_component" [("id", JStr id)] rid
           (fun _ => Ok ("Component with ID '" ++ id
                         ++ "' deleted successfully.")%string)).
Qed.

Lemma transform_component_returns rid id position rotation scale
    (ts : tstate) :
  exists out ts',
    transform_component rid id position rotation scale ts = (Ret out, ts')
    /\ object_answer out.
Proof.
  unfold transform_component.
  apply tool_returns with (P := object_answer).
  + apply total_bind; [apply total_get_sketchup_connection|intro].
    destruct (add_transformation _ _ _) as [arguments applied].
    destruct applied; [apply total_ret|].
    apply total_bind;
      [apply total_method; apply total_send_command
      |intro; apply total_lift].
  + apply returns_bind. intro.
    destruct (add_transformation _ _ _) as [arguments applied].
    destruct applied; [apply returns_ret; apply payload_answer|].
    apply returns_bind. intro result. apply returns_lift.
    intros out E. eapply answer_shape. exact E.
  + intros e st. eexists. split; [reflexivity|].
    apply error_payload_answer.
Qed.

Lemma get_selection_returns rid (ts : tstate) :
  exists out ts',
    get_selection rid ts = (Ret out, ts') /\ object_answer out.
Proof.
  unfold get_selection.
  apply (answering_tool_returns "get_selection" [] rid selection_message).
Qed.

Lemma set_material_returns rid id material (ts : tstate) :
  exists out ts',
    set_material rid id material ts = (Ret out, ts') /\ object_answer out.
Proof.
  unfold set_material.
  apply (answering_tool_returns "set_material"
           [("id", JStr id); ("material", JStr material)] rid
           (fun _ => Ok ("Material for component ID '" ++ id
                         ++ "' successfully set to '" ++ material
                         ++ "'.")%string)).
Qed.

Lemma export_scene_returns rid format (ts : tstate) :
  exists out ts',
    export_scene rid format ts = (Ret out, ts') /\ object_answer out.
Proof.
  unfold export_scene.
  apply (answering_tool_returns "export" [("format", JStr format)] rid
           (fun result =>
              file_path <~ py_get result "file_path"
                              (JStr "An unspecified location by SketchUp");;
              Ok ("Scene successfully exported in " ++ str_upper format
                  ++ " format. File saved to: " ++ py_str file_path
                  ++ ".")%string)).
Qed.

Lemma eval_ruby_returns rid code (ts : tstate) :
  exists out ts',
    eval_ruby rid code ts = (Ret out, ts') /\ object_answer out.
Proof.
  unfold eval_ruby.
  apply tool_returns with (P := object_answer).
  + repeat first [ apply total_call_sketchup | step_total ].
  + apply returns_bind. intro result. apply returns_bind. intro text.
    apply returns_ret. right. right. left. eauto.
  + intros e st. eexists. split; [reflexivity|].
    right. right. right. eauto.
Qed.

(** C7 (amended). Every tool returns a string, whatever its arguments and
    whatever the peer and the operating system do: no exception leaves a
    tool. create_component, delete_component, transform_component,
    get_selection, set_material, export_scene and eval_ruby always return
    [json.dumps] of an object (a message with the details, a message with
    ["error": true], or eval_ruby's success flag with a result or an
    error). The other fifteen tools return [json.dumps] of the peer's
    result, and on an exception a plain text: their error prefix followed
    by the text of the exception. *)
Theorem tools_always_return
    (request_id : json) (call : tool_call) (ts : tstate) :
  exists (out : string) (ts' : tstate),
    run_tool request_id call ts = (Ret out, ts')
    /\ if answers_with_object call then object_answer out
       else (exists result, out = json_dumps result)
            \/ (exists e, out = (error_prefix call ++ exn_str e)%string).
Proof.
  destruct call; cbn [run_tool answers_with_object error_prefix].
  - apply create_component_returns.
  - apply delete_component_returns.
  - apply transform_component_returns.
  - apply get_selection_returns.
  - apply set_material_returns.
  - apply export_scene_returns.
  - apply eval_ruby_returns.
  - unfold create_mortise_tenon. apply forwarding_tool_returns.
  - unfold create_dovetail. apply forwarding_tool_returns.
  - unfold create_finger_joint. apply forwarding_tool_returns.
  - unfold calculate_distance. apply forwarding_tool_returns.
  - unfold measure_components. apply forwarding_tool_returns.
  - unfold inspect_component. apply forwarding_tool_returns.
  - unfold create_reference_markers. apply forwarding_tool_returns.
  - unfold clear_reference_markers. apply forwarding_tool_returns.
  - unfold snap_align_component. apply forwarding_tool_returns.
  - unfold create_grid_system. apply forwarding_tool_returns.
  - unfold query_all_components. apply forwarding_tool_returns.
  - unfold position_relative_to_component. apply forwarding_tool_returns.
  - unfold position_between_components. apply forwarding_tool_returns.
  - unfold show_component_bounds. apply forwarding_tool_returns.
  - unfold preview_position. apply forwarding_tool_returns.
Qed.

Lemma clamp_at_least (x : float) : (0.1 <=? py_max 0.1 x)%float = true.
Proof.
  unfold py_max. destruct (0.1 <? x)%float eqn:E; [|reflexivity].
  rewrite ltb_spec in E. rewrite leb_spec. unfold SFltb in E. unfold SFleb.
  destruct (SFcompare (Prim2SF 0.1) (Prim2SF x)) as [[]|];
    congruence.
Qed.

Lemma bind_lift_ok {S A B} (a : A) (f : A -> M S B) :
  bind (lift (Ok a)) f = f a.
Proof. reflexivity. Qed.

Lemma bind_lift_err {S A B} (e : exn) (f : A -> M S B) :
  bind (lift (Err e)) f = raise e.
Proof. reflexivity. Qed.

Lemma float_of_int_err (z : Z) (e : exn) :
  float_of_int z = Err e ->
  e = OverflowError "int too large to convert to float".
Proof.
  unfold float_of_int.
  destruct (binary_normalize prec emax z 0 false); intro E; inversion E.
  reflexivity.
Qed.

(** The list comprehension: element by element, the larger of 0.1 and the
    float. *)
Lemma clamp_dimensions_ok :
  forall (l : list pynum) (fs : list float),
    clamp_dimensions l = Ok fs ->
    Forall2 clamped l fs
    /\ Forall (fun x => (0.1 <=? x)%float = true) fs.
Proof.
  induction l as [|d l IH]; intros fs E; cbn [clamp_dimensions] in E.
  - inversion E; subst. split; constructor.
  - destruct (pynum_float d) as [x|e] eqn:Ed; cbn [rbind] in E;
      [|discriminate].
    destruct (clamp_dimensions l) as [fs'|e]; cbn [rbind] in E;
      [|discriminate].
    inversion E; subst. destruct (IH fs' eq_refl) as [F2 F].
    split; constructor; try assumption.
    + exists x. split; [exact Ed | reflexivity].
    + apply clamp_at_least.
Qed.

Lemma clamp_dimensions_err :
  forall (l : list pynum) (e : exn),
    clamp_dimensions l = Err e ->
    e = OverflowError "int too large to convert to float"
    /\ exists z : Z, In (PInt z) l /\ float_of_int z = Err e.
Proof.
  induction l as [|d l IH]; intros e E; cbn [clamp_dimensions] in E.
  - discriminate.
  - destruct (pynum_float d) as [x|e'] eqn:Ed; cbn [rbind] in E.
    + destruct (clamp_dimensions l) as [fs'|e'']; cbn [rbind] in E;
        [discriminate|].
      inversion E; subst. destruct (IH e eq_refl) as [He [z [Hz Hf]]].
      split; [exact He|]. exists z. split; [right; exact Hz | exact Hf].
    + inversion E; subst. destruct d as [z|f]; cbn [pynum_float] in Ed;
        [|discriminate].
      split; [eapply float_of_int_err; exact Ed|].
      exists z. split; [left; reflexivity | exact Ed].
Qed.

(** The code's normalization is the specification's, followed by the
    clamp. *)
Lemma normalize_as_specified (type : string)
    (dimensions : option (list pynum)) :
  normalize_dimensions type dimensions
  = clamp_dimensions (spec_dimensions type dimensions).
Proof.
  unfold normalize_dimensions, spec_dimensions.
  destruct dimensions as [dims|]; [|reflexivity].
  destruct dims as [|a [|b [|c dims]]]; cbn [List.length Nat.eqb Nat.ltb
    Nat.leb andb pad_dimensions last app]; reflexivity.
Qed.

(** What create_component adds to the trace: no [sendall] but of its
    request, at most four times; nothing when the dimensions cannot be
    converted. *)
Lemma emits_create_component rid type position dimensions direction
    origin_mode :
  emits ttrace
    (only_sends
       (request_bytes
          (match normalize_dimensions type dimensions with
           | Ok dims =>
               create_component_request rid type position dims direction
                 origin_mode
           | Err _ => JNull
           end))) 4
    (create_component rid type position dimensions direction origin_mode).
Proof.
  unfold create_component, create_component_request.
  eapply emits_try with (k1 := 4) (k2 := 0); [|intro; apply emits_ret|lia].
  destruct (normalize_dimensions type dimensions) as [dims|e].
  - rewrite bind_lift_ok.
    destruct (negb (existsb (String.eqb direction) valid_directions));
      [apply emits_raise|].
    destruct (negb (existsb (String.eqb origin_mode) valid_origin_modes));
      [apply emits_raise|].
    eapply emits_bind with (k1 := 4) (k2 := 0);
      [apply emits_call_sketchup|intro result|lia].
    repeat step_emits.
  - rewrite bind_lift_err. apply emits_raise.
Qed.

(** The retry loop on a connected session starts by sending the request;
    whatever follows, no other bytes are sent. *)
Lemma retry_loop_starts_by_sending request method params rid op_timeout
    (fuel n : nat) (st : mstate) (s : socket) :
  n <= 3 ->
  sock (self st) = Some s ->
  exists evs,
    mtrace (snd (retry_loop (S fuel) request method params rid op_timeout n
                   st))
    = mtrace st ++ EvSend (request_bytes request) :: evs
    /\ Forall (only_sends (request_bytes request)) evs
    /\ List.length (sends_of evs) <= 3 - n.
Proof.
  intros Hn Hs.
  destruct (attempt_first_sends request method params rid op_timeout st Hs)
    as [evs1 E1].
  destruct (emits_attempt request method params rid op_timeout st)
    as [evs' [E' [F' L']]].
  rewrite E1 in E'. apply app_inv_head in E'. subst evs'.
  inversion F' as [|? ? _ F1]; subst. cbn [sends_of flat_map app] in L'.
  cbn [List.length] in L'.
  change (flat_map (fun ev : event =>
                      match ev with EvSend d => [d] | _ => [] end) evs1)
    with (sends_of evs1) in L'.
  cbn [retry_loop]. unfold max_retries.
  replace (n <=? 3)%nat with true by (symmetry; apply Nat.leb_le; exact Hn).
  unfold try_except.
  destruct (attempt request method params rid op_timeout st)
    as [[v|e|] st1]; cbn [snd] in E1.
  - exists evs1. cbn [snd]. split; [exact E1|]. split; [exact F1|lia].
  - match goal with
    | |- context [snd (?h st1)] =>
        assert (Hh : emits mtrace (only_sends (request_bytes request))
                       (3 - n) h)
    end.
    { destruct (is_transport_error e).
      + destruct (S n <=? 3)%nat eqn:En'.
        * apply Nat.leb_le in En'.
          eapply emits_bind with (k1 := 0) (k2 := 3 - n); [|intro|lia].
          { eapply emits_weaken; [apply (emits_disconnect 0)| |lia].
            apply no_send_only. }
          eapply emits_bind with (k1 := 0) (k2 := 3 - n); [|intro|lia].
          { apply emits_sleep. intro; exact I. }
          eapply emits_bind with (k1 := 0) (k2 := 3 - n); [|intro|lia].
          { eapply emits_weaken; [apply (emits_connect 0)| |lia].
            apply no_send_only. }
          eapply emits_weaken;
            [apply (emits_retry_loop request method params rid op_timeout
                      fuel (S n))|auto|lia].
        * repeat first [ apply emits_set_sock | step_emits ].
      + destruct (is_json_decode_error e); [apply emits_raise|].
        destruct (str_contains "Connection closed" (exn_str e)
                  && (n <? 3)%nat) eqn:Ec.
        * apply andb_prop in Ec. destruct Ec as [_ Ec].
          apply Nat.ltb_lt in Ec.
          eapply emits_bind with (k1 := 0) (k2 := 3 - n); [|intro|lia].
          { eapply emits_weaken; [apply (emits_disconnect 0)| |lia].
            apply no_send_only. }
          eapply emits_bind with (k1 := 0) (k2 := 3 - n); [|intro|lia].
          { apply emits_sleep. intro; exact I. }
          eapply emits_bind with (k1 := 0) (k2 := 3 - n); [|intro ok|lia].
          { eapply emits_weaken; [apply (emits_connect 0)| |lia].
            apply no_send_only. }
          destruct ok.
          -- eapply emits_weaken;
               [apply (emits_retry_loop request method params rid op_timeout
                         fuel (S n))|auto|lia].
          -- repeat first [ apply emits_set_sock | step_emits ].
        * repeat first [ apply emits_set_sock | step_emits ]. }
    destruct (Hh st1) as [evs2 [E2 [F2 L2]]].
    exists (evs1 ++ evs2). rewrite E2, E1, <- app_assoc. cbn [app].
    split; [reflexivity|]. split; [apply Forall_app; split; assumption|].
    rewrite sends_of_app, length_app. lia.
  - exists evs1. cbn [snd]. split; [exact E1|]. split; [exact F1|lia].
Qed.

Lemma send_command_starts_by_sending method params rid (st : mstate)
    (s : socket) :
  sock (self st) = Some s ->
  hd true (probes (env st)) = true ->
  exists evs,
    mtrace (snd (send_command method params rid st))
    = mtrace st
      ++ EvProbe true
         :: EvSend (request_bytes (build_request method params rid)) :: evs
    /\ Forall (only_sends (request_bytes (build_request method params rid)))
         evs
    /\ List.length (sends_of evs) <= 3.
Proof.
  intros Hs Hp. unfold send_command. unfold bind at 1.
  rewrite (connect_alive st Hs Hp). cbn [negb].
  destruct (@retry_loop_starts_by_sending
              (build_request method params rid) method params rid
              (operation_timeout method params) 4 0 (after_probe st)
              (mkSocket 0.1) (Nat.le_0_l 3) eq_refl)
    as [evs [E [F L]]].
  exists evs. rewrite E. unfold mtrace, after_probe. cbn [env trace].
  rewrite <- app_assoc. split; [reflexivity|]. split; [exact F|lia].
Qed.

(** The trace of a tool that calls the peer and then only computes is the
    trace of the call. *)
Lemma trace_of_called name arguments rid {A} (k : json -> M tstate A)
    (handler : exn -> M tstate A) (ts : tstate) (c : SketchupConnection)
    (s : socket) :
  (forall result, emits ttrace nothing 0 (k result)) ->
  (forall e, emits ttrace nothing 0 (handler e)) ->
  conn ts = Some c ->
  sock c = Some s ->
  ttrace (snd (try_except (result <- call_sketchup name arguments rid;;
                           k result) handler ts))
  = mtrace (snd (send_command "tools/call" (tool_params name arguments) rid
                   (mkState c (tenv ts)))).
Proof.
  intros Hk Hh Hc Hs.
  assert (Hg : get_sketchup_connection ts = (Ret tt, ts)).
  { destruct ts as [cn w]. cbn [conn] in Hc. subst cn.
    destruct c as [h p sk]. cbn [sock] in Hs. subst sk. reflexivity. }
  assert (Hnil : forall evs : list event, Forall nothing evs -> evs = []).
  { intros evs F. destruct F as [|ev evs []]. reflexivity. }
  unfold try_except, call_sketchup. unfold bind at 1. unfold bind at 1.
  rewrite Hg. unfold method. rewrite Hc.
  destruct (send_command "tools/call" (tool_params name arguments) rid
              (mkState c (tenv ts))) as [[result|e|] st1]; cbn [snd].
  - destruct (Hk result (mkTState (Some (self st1)) (env st1)))
      as [evs [E [F _]]].
    apply Hnil in F. subst evs. rewrite app_nil_r in E.
    destruct (k result (mkTState (Some (self st1)) (env st1)))
      as [[a|e|] ts2]; cbn [snd] in *; try exact E.
    destruct (Hh e ts2) as [evs [E2 [F2 _]]].
    apply Hnil in F2. subst evs. rewrite app_nil_r in E2.
    rewrite E2. exact E.
  - destruct (Hh e (mkTState (Some (self st1)) (env st1)))
      as [evs [E2 [F2 _]]].
    apply Hnil in F2. subst evs. rewrite app_nil_r in E2. exact E2.
  - reflexivity.
Qed.

(** C9. The dimensions that create_component forwards are normalized. The
    list the code builds is the one the specification describes (None
    becomes [1, 1, 1]; [d, h] for a cylinder becomes [d, d, h]; any other
    list of fewer than three numbers is padded with its last element, the
    empty list with 1.0; a list of three or more is kept), with every
    element replaced by the larger of 0.1 and its float, so that none is
    below 0.1. On a connected session and for a valid direction and origin
    mode, the first bytes sent are the request whose "dimensions" argument
    is this list, and whatever the session no other bytes are sent. When an
    element is an int too large for a float, nothing is forwarded: the tool
    answers with the error payload and the state is untouched. *)
Theorem create_component_normalizes_dimensions
    (request_id : json) (type : string) (position : json)
    (dimensions : option (list pynum)) (direction origin_mode : string) :
  normalize_dimensions type dimensions
  = clamp_dimensions (spec_dimensions type dimensions)
  /\ (forall dims : list float,
        normalize_dimensions type dimensions = Ok dims ->
        Forall2 clamped (spec_dimensions type dimensions) dims
        /\ Forall (fun x => (0.1 <=? x)%float = true) dims)
  /\ (forall (dims : list float) (ts : tstate) (c : SketchupConnection)
             (s : socket),
        normalize_dimensions type dimensions = Ok dims ->
        In direction valid_directions ->
        In origin_mode valid_origin_modes ->
        conn ts = Some c ->
        sock c = Some s ->
        hd true (probes (tenv ts)) = true ->
        exists evs : list event,
          ttrace (snd (create_component request_id type position dimensions
                         direction origin_mode ts))
          = ttrace ts
            ++ EvProbe true
               :: EvSend
                    (request_bytes
                       (JObj [("jsonrpc", JStr "2.0");
                              ("method", JStr "tools/call");
                              ("params",
                               JObj [("name",
                                      JStr "create_component_with_verification");
                                     ("arguments",
                                      JObj [("type", JStr type);
                                            ("position", or_origin position);
                                            ("dimensions",
                                             JArr (map JFloat dims));
                                            ("direction", JStr direction);
                                            ("origin_mode",
                                             JStr origin_mode)])]);
                              ("id", request_id)]))
               :: evs
          /\ List.length (sends_of evs) <= 3)
  /\ (forall (dims : list float) (ts : tstate),
        normalize_dimensions type dimensions = Ok dims ->
        exists evs : list event,
          ttrace (snd (create_component request_id type position dimensions
                         direction origin_mode ts))
          = ttrace ts ++ evs
          /\ Forall (only_sends
                       (request_bytes
                          (create_component_request request_id type position
                             dims direction origin_mode))) evs
          /\ List.length (sends_of evs) <= 4)
  /\ (forall dims : list float,
        create_component_request request_id type position dims direction
          origin_mode
        = JObj [("jsonrpc", JStr "2.0"); ("method", JStr "tools/call");
                ("params",
                 JObj [("name", JStr "create_component_with_verification");
                       ("arguments",
                        JObj [("type", JStr type);
                              ("position", or_origin position);
                              ("dimensions", JArr (map JFloat dims));
                              ("direction", JStr direction);
                              ("origin_mode", JStr origin_mode)])]);
                ("id", request_id)])
  /\ (forall (e : exn) (ts : tstate),
        normalize_dimensions type dimensions = Err e ->
        e = OverflowError "int too large to convert to float"
        /\ (exists z : Z,
               In (PInt z) (spec_dimensions type dimensions)
               /\ float_of_int z = Err e)
        /\ create_component request_id type position dimensions direction
             origin_mode ts
           = (Ret (error_payload
                     "Error creating component: int too large to convert to float"),
              ts)).
Proof.
  split; [apply normalize_as_specified|].
  split.
  { intros dims E. rewrite normalize_as_specified in E.
    apply clamp_dimensions_ok. exact E. }
  split.
  { intros dims ts c s E Hd Ho Hc Hs Hp.
    assert (Hin : forall x l, In x l -> existsb (String.eqb x) l = true).
    { intros x l Hx. apply existsb_exists. exists x.
      split; [exact Hx | apply String.eqb_refl]. }
    unfold create_component. rewrite E, bind_lift_ok.
    rewrite (Hin _ _ Hd), (Hin _ _ Ho). cbn [negb].
    rewrite (@trace_of_called
               "create_component_with_verification"
               (create_component_arguments type position dims direction
                  origin_mode) request_id string _ _ ts c s);
      try assumption.
    - destruct (@send_command_starts_by_sending "tools/call"
                  (tool_params "create_component_with_verification"
                     (create_component_arguments type position dims
                        direction origin_mode))
                  request_id (mkState c (tenv ts)) s Hs Hp)
        as [evs [Ev [_ L]]].
      exists evs. split; [exact Ev | exact L].
    - intro result. repeat step_emits.
    - intro e. apply emits_ret. }
  split.
  { intros dims ts E.
    pose proof (emits_create_component request_id type position dimensions
                  direction origin_mode ts) as Hm.
    rewrite E in Hm. exact Hm. }
  split; [intro dims; reflexivity|].
  intros e ts E.
  pose proof E as E'. rewrite normalize_as_specified in E'.
  apply clamp_dimensions_err in E'. destruct E' as [He Hz].
  split; [exact He|]. split; [exact Hz|].
  unfold create_component, try_except. rewrite E, bind_lift_err.
  subst e. reflexivity.
Qed.

(** C10. When transform_component is called with position, rotation and
    scale all None and get_sketchup_connection returns, it returns the
    success payload whose details say "changes_applied": false, in the very
    state that get_sketchup_connection left: nothing is sent and nothing is
    received, the scripts of the peer and the clock are untouched, the only
    event added to the trace is the connect of a session that had to be
    opened, and a session that was connected is unchanged. *)
Theorem transform_without_changes_sends_nothing
    (request_id : json) (id : string) (ts ts1 : tstate) :
  get_sketchup_connection ts = (Ret tt, ts1) ->
  transform_component request_id id JNull JNull JNull ts
  = (Ret (payload no_transformation_message
            (JObj [("success", JBool true); ("id", JStr id);
                   ("changes_applied", JBool false)])),
     ts1)
  /\ sends_of (ttrace ts1) = sends_of (ttrace ts)
  /\ recvs (tenv ts1) = recvs (tenv ts)
  /\ sends (tenv ts1) = sends (tenv ts)
  /\ ticks (tenv ts1) = ticks (tenv ts)
  /\ (ttrace ts1 = ttrace ts
      \/ ttrace ts1 = ttrace ts ++ [EvConnect "localhost" 9876 true])
  /\ (forall (c : SketchupConnection) (s : socket),
        conn ts = Some c -> sock c = Some s -> ts1 = ts).
Proof.
  intro Hg. split.
  { unfold transform_component, try_except. unfold bind at 1. rewrite Hg.
    reflexivity. }
  destruct ts as [[[h p [s|]]|] [clk t rs ss ps cs tr]];
    cbv [get_sketchup_connection bind get ret set_conn modify method connect
         os_connect set_sock sock_settimeout sock_probe disconnect emit
         raise set_env log conn tenv self env sock host port clock ticks
         recvs sends probes conns trace] in Hg.
  - inversion Hg; subst.
    repeat split; try reflexivity. left. reflexivity.
  - destruct cs as [|[|] cs]; inversion Hg; subst;
      (repeat split; try reflexivity;
       first [ unfold ttrace; cbn [tenv trace]; rewrite sends_of_app;
               cbn; apply app_nil_r
             | right; reflexivity
             | intros c s E1 E2; inversion E1; subst; discriminate ]).
  - destruct cs as [|[|] cs]; inversion Hg; subst;
      (repeat split; try reflexivity;
       first [ unfold ttrace; cbn [tenv trace]; rewrite sends_of_app;
               cbn; apply app_nil_r
             | right; reflexivity
             | intros c s E1 E2; discriminate ]).
Qed.

End ToolClaims.

(** * More properties of the code *)

(** ** connect and disconnect *)

Section SessionFacts.

(** X1. connect never raises: it returns a boolean, which tells whether the
    session holds a socket afterwards; it keeps the host and the port, and
    reads nothing from the peer and the clock. *)
Theorem connect_returns_whether_connected (st : mstate) :
  exists (ok : bool) (st' : mstate),
    connect st = (Ret ok, st')
    /\ (ok = true <-> sock (self st') <> None)
    /\ host (self st') = host (self st)
    /\ port (self st') = port (self st)
    /\ recvs (env st') = recvs (env st)
    /\ sends (env st') = sends (env st)
    /\ ticks (env st') = ticks (env st).
Proof.
  destruct st as [[h p [s|]] [clk t rs ss ps cs tr]].
  - destruct ps as [|[|] ps]; [| |destruct cs as [|[|] cs]];
      do 2 eexists; (split; [reflexivity|]); cbn;
      repeat split; try reflexivity; try discriminate; congruence.
  - destruct cs as [|[|] cs];
      do 2 eexists; (split; [reflexivity|]); cbn;
      repeat split; try reflexivity; try discriminate; congruence.
Qed.

(** X2. What connect does to the socket: a live connection is probed and
    kept; a dead one is probed, closed and replaced by a new connection to
    the same host and port; without a socket a connection is made. *)
Theorem connect_probes_before_connecting (st : mstate) :
  mtrace (snd (connect st))
  = mtrace st
    ++ match sock (self st) with
       | Some _ =>
           if hd true (probes (env st)) then [EvProbe true]
           else [EvProbe false; EvClose;
                 EvConnect (host (self st)) (port (self st))
                           (hd true (conns (env st)))]
       | None => [EvConnect (host (self st)) (port (self st))
                            (hd true (conns (env st)))]
       end.
Proof.
  destruct st as [[h p [s|]] [clk t rs ss ps cs tr]].
  - destruct ps as [|[|] ps]; [| |destruct cs as [|[|] cs]];
      cbn; rewrite <- ?app_assoc; reflexivity.
  - destruct cs as [|[|] cs]; reflexivity.
Qed.

(** X3. disconnect never raises, leaves the session without a socket, closes
    a socket only when the session held one, and is idempotent. *)
Theorem disconnect_is_idempotent (st : mstate) :
  fst (disconnect st) = Ret tt
  /\ sock (self (snd (disconnect st))) = None
  /\ mtrace (snd (disconnect st))
     = mtrace st ++ match sock (self st) with
                    | Some _ => [EvClose]
                    | None => []
                    end
  /\ disconnect (snd (disconnect st)) = disconnect st.
Proof.
  destruct st as [[h p [s|]] [clk t rs ss ps cs tr]]; cbn;
    rewrite ?app_nil_r; repeat split; reflexivity.
Qed.

End SessionFacts.

(** ** receive_full_response *)

Section ReceiveMore.
Context `{PyLib}.

Lemma try_parse_decode (d : bytes) :
  try_parse d = Complete -> exists r, decode_response d = Ok r.
Proof.
  unfold try_parse, decode_response.
  destruct (utf8_decode d) as [text|]; [|discriminate].
  destruct (json_loads text) as [r|]; [|discriminate].
  intros _. exists r. reflexivity.
Qed.

(** What the receive loop returns is a document, and what it leaves of the
    script is a suffix of it. *)
Lemma recv_loop_returns (clk : nat -> float) (start : float) :
  forall (script : list recv_event) (t : nat) (acc : list bytes)
         (exit : recv_exit) (script' : list recv_event) (t' : nat),
    recv_loop clk start script t acc = (exit, script', t') ->
    (exists taken, script = taken ++ script')
    /\ t < t'
    /\ match exit with
       | RxReturn d => try_parse d = Complete
       | _ => True
       end.
Proof.
  induction script as [|ev script IH]; intros t acc exit script' t' E;
    cbn [recv_loop] in E;
    destruct (clk t - start <? max_response_time)%float.
  - destruct acc; inversion E; subst; (split; [exists []; reflexivity|]);
      split; [lia | exact I | lia | exact I].
  - inversion E; subst. split; [exists []; reflexivity|]. split; [lia|exact I].
  - destruct ev as [[|b l]|k msg].
    + destruct acc; inversion E; subst;
        (split; [exists [RData []]; reflexivity|]);
        split; [lia | exact I | lia | exact I].
    + destruct (try_parse (bytes_join (acc ++ [b :: l]))) eqn:P.
      * inversion E; subst.
        split; [exists [RData (b :: l)]; reflexivity|]. split; [lia|exact P].
      * apply IH in E. destruct E as [[taken ->] [L E]].
        split; [exists (RData (b :: l) :: taken); reflexivity|].
        split; [lia|exact E].
      * apply IH in E. destruct E as [[taken ->] [L E]].
        split; [exists (RData (b :: l) :: taken); reflexivity|].
        split; [lia|exact E].
    + assert (Hrec : forall a,
                 recv_loop clk start script (S t) a = (exit, script', t') ->
                 (exists taken, RError k msg :: script = taken ++ script')
                 /\ t < t'
                 /\ match exit with
                    | RxReturn d => try_parse d = Complete
                    | _ => True
                    end).
      { intros a E'. apply IH in E'. destruct E' as [[taken ->] [L E']].
        split; [exists (RError k msg :: taken); reflexivity|].
        split; [lia|exact E']. }
      assert (Hone : forall x,
                 (x, script, S t) = (exit, script', t') ->
                 match x with
                 | RxReturn d => try_parse d = Complete
                 | _ => True
                 end ->
                 (exists taken, RError k msg :: script = taken ++ script')
                 /\ t < t'
                 /\ match exit with
                    | RxReturn d => try_parse d = Complete
                    | _ => True
                    end).
      { intros x E' Hx. inversion E'; subst.
        split; [exists [RError k msg]; reflexivity|]. split; [lia|exact Hx]. }
      destruct (is_socket_timeout (OSError k msg)).
      * destruct acc as [|a acc]; [eapply Hone; [exact E|exact I]|].
        destruct (try_parse (bytes_join (a :: acc))) eqn:P;
          [eapply Hone; [exact E|exact P] | eapply Hrec; exact E ..].
      * destruct (is_connection_error (OSError k msg));
          [|eapply Hone; [exact E|exact I]].
        destruct acc as [|a acc]; [eapply Hone; [exact E|exact I]|].
        destruct (try_parse (bytes_join (a :: acc))) eqn:P;
          (eapply Hone; [exact E|]); [exact P | exact I | exact I].
  - inversion E; subst. split; [exists []; reflexivity|]. split; [lia|exact I].
Qed.

(** X4. What receive_full_response returns decodes as UTF-8 and parses as
    JSON, so the [json.loads] that send_command applies to it cannot fail;
    the socket is left with the timeout 30. *)
Theorem received_data_is_a_document (st st' : mstate) (d : bytes) :
  receive_full_response st = (Ret d, st') ->
  try_parse d = Complete
  /\ (exists r, decode_response d = Ok r)
  /\ sock (self st') = Some (mkSocket 30).
Proof.
  destruct st as [[h p sk] w].
  destruct sk as [s|]; [|discriminate].
  cbv [receive_full_response bind sock_settimeout get time_time set_sock
       modify raise set_env self env sock host port clock ticks recvs
       sends probes conns trace].
  match goal with
  | |- context [recv_loop ?a ?b ?c ?d ?e] =>
      destruct (recv_loop a b c d e) as [[exit script'] t'] eqn:Er
  end.
  apply recv_loop_returns in Er. destruct Er as [_ [_ Er]].
  assert (G : forall x st1,
             try_parse x = Complete ->
             sock (self st1) = Some (mkSocket 30) ->
             (Ret x, st1) = (Ret d, st') ->
             try_parse d = Complete
             /\ (exists r, decode_response d = Ok r)
             /\ sock (self st') = Some (mkSocket 30)).
  { intros x st1 P S E. inversion E; subst.
    split; [exact P|]. split; [apply try_parse_decode; exact P | exact S]. }
  destruct exit as [d0|e|chunks]; intro E.
  - eapply G; [exact Er | | exact E]. reflexivity.
  - discriminate.
  - unfold lift, final_parse in E.
    destruct chunks as [|c chunks]; [discriminate|].
    destruct (try_parse (bytes_join (c :: chunks))) eqn:P; try discriminate.
    eapply G; [exact P | | exact E]. reflexivity.
Qed.

(** X5. receive_full_response only reads: what is left of the script of
    [recv] calls is a suffix of it, the clock has been read when there was
    a socket, and nothing is sent, closed or connected; the host, the port
    and the other scripts are untouched. *)
Theorem receive_only_reads (st : mstate) :
  let st' := snd (receive_full_response st) in
  (exists taken, recvs (env st) = taken ++ recvs (env st'))
  /\ ticks (env st) <= ticks (env st')
  /\ mtrace st' = mtrace st
  /\ sends (env st') = sends (env st)
  /\ probes (env st') = probes (env st)
  /\ conns (env st') = conns (env st)
  /\ host (self st') = host (self st)
  /\ port (self st') = port (self st).
Proof.
  destruct st as [[h p sk] w].
  destruct sk as [s|].
  2:{ cbn. repeat split; try reflexivity. exists []. reflexivity. }
  destruct w as [clk t rs ss ps cs tr].
  cbv [receive_full_response bind sock_settimeout get time_time set_sock
       modify raise set_env self env sock host port clock ticks recvs
       sends probes conns trace mtrace].
  match goal with
  | |- context [recv_loop ?a ?b ?c ?d ?e] =>
      destruct (recv_loop a b c d e) as [[exit script'] t'] eqn:Er
  end.
  apply recv_loop_returns in Er. destruct Er as [Hs [Ht _]].
  destruct exit as [d0|e|chunks];
    [| | unfold lift; destruct (final_parse chunks)];
    cbn; (split; [exact Hs|]); (split; [lia|]); repeat split.
Qed.

Lemma Forall_prefix {A} (P : A -> Prop) (k : nat) (l : list A) :
  Forall P l -> Forall P (firstn k l).
Proof.
  intro F. revert k. induction F as [|x l Hx F IH]; intros [|k]; cbn;
    constructor; [exact Hx | apply IH].
Qed.

Lemma firstn_prefix {A} (j k : nat) (l : list A) :
  j <= k -> firstn j (firstn k l) = firstn j l.
Proof.
  intro L. rewrite firstn_firstn. f_equal. lia.
Qed.

(** X6. receive_full_response returns at the first chunk boundary at which
    the bytes received so far are a document, and leaves the chunks that
    follow for the next call. *)
Theorem receive_returns_first_document
    (st : mstate) (s : socket) (cs : list bytes) (k : nat)
    (rest : list recv_event) :
  sock (self st) = Some s ->
  recvs (env st) = map RData cs ++ rest ->
  Forall (fun c => c <> []) cs ->
  0 < k <= List.length cs ->
  try_parse (bytes_join (firstn k cs)) = Complete ->
  (forall j, 0 < j < k -> try_parse (bytes_join (firstn j cs)) <> Complete) ->
  (forall i : nat, i < k ->
      (clock (env st) (S (ticks (env st)) + i)%nat
       - clock (env st) (ticks (env st)) <? max_response_time)%float = true) ->
  receive_full_response st
  = (Ret (bytes_join (firstn k cs)),
     after_receive k (map RData (skipn k cs) ++ rest) st).
Proof.
  intros Hs Hr Hne Hk Hfull Hpre Hclk.
  assert (L : List.length (firstn k cs) = k).
  { rewrite length_firstn. lia. }
  rewrite <- L at 2.
  apply receive_chunks with (s := s).
  - exact Hs.
  - rewrite Hr, app_assoc, <- map_app, firstn_skipn. reflexivity.
  - intro E. rewrite E in L. cbn in L. lia.
  - apply Forall_prefix. exact Hne.
  - exact Hfull.
  - intros j Hj. rewrite L in Hj. rewrite firstn_prefix by lia.
    apply Hpre. exact Hj.
  - intros i Hi. rewrite L in Hi. apply Hclk. exact Hi.
Qed.

(** X7. When no data arrives: a peer that has closed (its [recv] returns
    [b'']) makes receive_full_response raise "Connection closed before
    receiving any data"; a [recv] that times out makes it raise "No data
    received", after that one [recv]; and without a socket it raises the
    AttributeError of [None.settimeout]. *)
Theorem receive_without_data (st : mstate) :
  (sock (self st) = None ->
   receive_full_response st = (Raise (none_has_no "settimeout"), st))
  /\ (forall s : socket,
        sock (self st) = Some s ->
        (clock (env st) (S (ticks (env st))) - clock (env st) (ticks (env st))
         <? max_response_time)%float = true ->
        ((recvs (env st) = [] \/ exists rest, recvs (env st) = RData [] :: rest) ->
         receive_full_response st
         = (Raise (PyException "Connection closed before receiving any data"),
            after_receive 1 (tl (recvs (env st))) st))
        /\ (forall msg rest,
              recvs (env st) = RError Timeout msg :: rest ->
              receive_full_response st
              = (Raise (PyException "No data received"),
                 after_receive 1 rest st))).
Proof.
  destruct st as [[h p sk] [clk t rs ss ps cs tr]].
  split.
  - cbn. intros ->. reflexivity.
  - intros s Hs Hc. cbn in Hs, Hc. subst sk.
    split.
    + intros [E | [rest E]]; cbn in E; subst rs;
        cbv [receive_full_response bind sock_settimeout get time_time set_sock
             modify raise set_env self env sock host port clock ticks recvs
             sends probes conns trace recv_loop after_receive tl];
        rewrite Hc; replace (S t + 1) with (S (S t)) by lia; reflexivity.
    + intros msg rest E. cbn in E. subst rs.
      cbv [receive_full_response bind sock_settimeout get time_time set_sock
           modify raise set_env self env sock host port clock ticks recvs
           sends probes conns trace recv_loop after_receive
           is_socket_timeout lift final_parse];
        rewrite Hc; replace (S t + 1) with (S (S t)) by lia; reflexivity.
Qed.

End ReceiveMore.

(** ** How send_command ends *)

Section Outcomes.
Context `{PyLib}.

Lemma receive_returns_with_socket (st st' : mstate) (d : bytes) :
  receive_full_response st = (Ret d, st') ->
  sock (self st') = Some (mkSocket 30).
Proof.
  destruct st as [[h p sk] w].
  destruct sk as [s|]; [|discriminate].
  cbv [receive_full_response bind sock_settimeout get time_time set_sock
       modify raise set_env self env sock host port clock ticks recvs
       sends probes conns trace].
  match goal with
  | |- context [recv_loop ?a ?b ?c ?d ?e] =>
      destruct (recv_loop a b c d e) as [[exit script'] t']
  end.
  destruct exit as [d0|e|chunks]; intro E.
  - inversion E; subst. reflexivity.
  - discriminate.
  - unfold lift in E. destruct (final_parse chunks); inversion E; subst.
    reflexivity.
Qed.

(** One iteration of the receive loop of send_command: what the [try] with
    its two handlers yields. *)
Lemma wait_iteration method params rid start opid (st st' : mstate)
    (r : res ctl) :
  try_except
    (response_data <- receive_full_response;;
     response <- lift (decode_response response_data);;
     lift (handle_response rid opid response))
    (fun e =>
       if is_socket_timeout e then
         if is_create_component method params then
           now' <- time_time;;
           if (30 <? now' - start)%float then ret Break
           else ret (Continue opid)
         else ret (Continue opid)
       else if is_json_decode_error e then ret (Continue opid)
       else raise e) st = (r, st') ->
  match r with
  | Ret (Return _) => sock (self st') = Some (mkSocket 30)
  | Raise e => benign e
  | _ => True
  end.
Proof.
  unfold try_except. unfold bind at 1.
  destruct (receive_full_response st) as [[d|e|] st1] eqn:Er.
  - apply receive_returns_with_socket in Er.
    unfold bind, lift.
    destruct (decode_response d) as [response|e].
    + destruct (handle_response rid opid response) as [c|e] eqn:Eh.
      * intro E. inversion E; subst. destruct c; try exact I. exact Er.
      * apply handle_response_err in Eh. destruct Eh as [B1 B2].
        rewrite B1, B2. intro E. inversion E; subst. split; assumption.
    + destruct (is_socket_timeout e) eqn:B1.
      * destruct (is_create_component method params).
        -- cbv [time_time bind ret].
           match goal with
           | |- context [if ?b then _ else _] => destruct b
           end; intro E; inversion E; subst; exact I.
        -- intro E. inversion E; subst. exact I.
      * destruct (is_json_decode_error e) eqn:B2; intro E; inversion E; subst;
          [exact I | split; assumption].
  - pose proof Er as Er'. apply receive_progress in Er'.
    destruct Er' as [[e' [E' [[B1 B2] _]]] | [d [E' _]]]; [|discriminate].
    inversion E'; subst e'. rewrite B1, B2.
    intro E. inversion E; subst. split; assumption.
  - intro E. inversion E; subst. exact I.
Qed.

Lemma wait_loop_outcome method params rid op_timeout start :
  forall (fuel : nat) (opid : json) (st st' : mstate) (r : res wait_exit),
    wait_loop fuel method params rid op_timeout start opid st = (r, st') ->
    match r with
    | Ret (Returned _) => sock (self st') = Some (mkSocket 30)
    | Raise e => benign e
    | _ => True
    end.
Proof.
  induction fuel as [|fuel IH]; intros opid st st' r.
  - cbn [wait_loop]. intro E. inversion E; subst. exact I.
  - cbn [wait_loop]. unfold bind at 1.
    change (time_time st)
      with (Ret (clock (env st) (ticks (env st))), ticked st).
    cbv beta iota.
    destruct (clock (env st) (ticks (env st)) - start <? op_timeout)%float.
    2:{ intro E. inversion E; subst. exact I. }
    unfold bind at 1.
    match goal with
    | |- context [try_except ?b ?h (ticked st)] =>
        destruct (try_except b h (ticked st)) as [[c|e|] st1] eqn:Et
    end.
    + apply wait_iteration in Et.
      destruct c as [o| |v].
      * apply IH.
      * intro E. inversion E; subst. exact I.
      * intro E. inversion E; subst. exact Et.
    + apply wait_iteration in Et. intro E. inversion E; subst. exact Et.
    + intro E. inversion E; subst. exact I.
Qed.

Lemma attempt_outcome request method params rid op_timeout
    (st st' : mstate) (r : res json) :
  attempt request method params rid op_timeout st = (r, st') ->
  match r with
  | Ret _ => sock (self st') = Some (mkSocket 30)
  | Raise e => is_json_decode_error e = false
  | OutOfFuel => True
  end.
Proof.
  destruct (sock (self st)) as [s|] eqn:Hs.
  2:{ destruct st as [[h p sk] w]. cbn in Hs. subst sk.
      intro E. inversion E; subst. reflexivity. }
  destruct (hd None (sends (env st))) as [[k msg]|] eqn:Eh.
  - assert (Ea : exists st1,
               attempt request method params rid op_timeout st
               = (Raise (OSError k msg), st1)).
    { destruct st as [[h p sk] [clk t rs ss ps cs tr]].
      cbn [self env sock sends] in *. subst sk.
      destruct ss as [|o ss]; [discriminate|]. cbn [hd] in Eh. subst o.
      eexists. reflexivity. }
    destruct Ea as [st1 Ea]. rewrite Ea.
    intro E. inversion E; subst. reflexivity.
  - rewrite (attempt_sends request method params rid op_timeout st Hs Eh).
    unfold bind at 1.
    match goal with
    | |- context [wait_loop ?f ?m ?p ?i ?o ?s0 ?op ?x] =>
        destruct (wait_loop f m p i o s0 op x) as [[[v|o']|e|] st1] eqn:Ew;
        apply wait_loop_outcome in Ew
    end.
    + intro E. inversion E; subst. exact Ew.
    + destruct (py_truthy o'); intro E; inversion E; subst; reflexivity.
    + intro E. inversion E; subst. apply Ew.
    + intro E. inversion E; subst. exact I.
Qed.

Lemma connect_sock (st : mstate) :
  exists (ok : bool) (st' : mstate),
    connect st = (Ret ok, st')
    /\ (if ok then exists s, sock (self st') = Some s
        else sock (self st') = None).
Proof.
  destruct st as [[h p [s|]] [clk t rs ss ps cs tr]].
  - destruct ps as [|[|] ps]; [| |destruct cs as [|[|] cs]];
      do 2 eexists; (split; [reflexivity|]); cbn; eauto.
  - destruct cs as [|[|] cs];
      do 2 eexists; (split; [reflexivity|]); cbn; eauto.
Qed.

Lemma retry_loop_outcome request method params rid op_timeout :
  forall (fuel n : nat) (st st' : mstate) (r : res json),
    n <= 3 ->
    retry_loop fuel request method params rid op_timeout n st = (r, st') ->
    match r with
    | Ret _ => sock (self st') = Some (mkSocket 30)
    | Raise e => sock (self st') = None /\ call_failure e
    | OutOfFuel => True
    end.
Proof.
  induction fuel as [|fuel IH]; intros n st st' r Hn.
  - cbn [retry_loop]. intro E. inversion E; subst. exact I.
  - destruct (attempt request method params rid op_timeout st)
      as [[v|e|] st1] eqn:Ea.
    + cbn [retry_loop]. unfold max_retries.
      replace (n <=? 3)%nat with true by (symmetry; apply Nat.leb_le; lia).
      unfold try_except. rewrite Ea.
      apply attempt_outcome in Ea.
      intro E. inversion E; subst. exact Ea.
    + pose proof Ea as Hj. apply attempt_outcome in Hj.
      destruct (is_transport_error e) eqn:He.
      * destruct (Nat.eq_dec n 3) as [-> | Hn3].
        -- pose proof (@retry_loop_exhausted H fuel request method params rid
                         op_timeout st st1 e Ea He) as R.
           unfold max_retries in R. rewrite R.
           intro E. inversion E; subst. split; [reflexivity|].
           eexists. left. reflexivity.
        -- rewrite (@retry_loop_transport H fuel request method params rid
                      op_timeout n st st1 e Ea He)
             by (unfold max_retries; lia).
           apply IH. lia.
      * destruct (str_contains "Connection closed" (exn_str e)
                  && (n <? max_retries)%nat) eqn:Hc.
        -- apply andb_prop in Hc. destruct Hc as [Hc Hlt].
           apply Nat.ltb_lt in Hlt.
           rewrite (@retry_loop_closed H fuel request method params rid
                      op_timeout n st st1 e Ea He Hj Hc Hlt).
           destruct (hd true (conns (env st1))).
           ++ apply IH. unfold max_retries in Hlt. lia.
           ++ intro E. inversion E; subst. split; [reflexivity|].
              eexists. right. reflexivity.
        -- rewrite (@retry_loop_terminal H fuel request method params rid
                      op_timeout n st st1 e Ea He Hj Hc)
             by (unfold max_retries; lia).
           intro E. inversion E; subst. split; [reflexivity|].
           eexists. right. reflexivity.
    + cbn [retry_loop]. unfold max_retries.
      replace (n <=? 3)%nat with true by (symmetry; apply Nat.leb_le; lia).
      unfold try_except. rewrite Ea.
      intro E. inversion E; subst. exact I.
Qed.

(** X8. How a call of send_command ends. When it returns, the session holds
    its socket, with the timeout 30 that receive_full_response sets. When
    it raises, the session holds no socket, and the exception is the
    ConnectionError "Not connected to Sketchup" of a failed connect, or an
    Exception whose text starts with "Connection to Sketchup lost after 4
    attempts: " or with "Communication error with Sketchup: "; so the
    handler of json.JSONDecodeError ("Invalid response from Sketchup") is
    never the one that ends a call. *)
Theorem send_command_outcome
    (method : string) (params : option dict) (request_id : json)
    (st : mstate) :
  match send_command method params request_id st with
  | (Ret _, st') => sock (self st') = Some (mkSocket 30)
  | (Raise e, st') =>
      sock (self st') = None
      /\ (e = OSError ConnectionOther "Not connected to Sketchup"
          \/ call_failure e)
  | (OutOfFuel, _) => False
  end.
Proof.
  pose proof (@total_send_command H method params request_id st) as T.
  unfold send_command in *. unfold bind at 1 in T. unfold bind at 1.
  destruct (connect_sock st) as [ok [st1 [Ec Hsock]]].
  rewrite Ec in *. destruct ok; cbn [negb] in *.
  - match goal with
    | |- context [retry_loop ?f ?q ?m ?p ?i ?o ?n ?x] =>
        destruct (retry_loop f q m p i o n x) as [[v|e|] st'] eqn:Er;
        apply retry_loop_outcome in Er; try lia
    end.
    + exact Er.
    + split; [apply Er|]. right. apply Er.
    + apply T. reflexivity.
  - split; [exact Hsock|]. left. reflexivity.
Qed.

End Outcomes.

Section RetryMore.
Context `{PyLib}.

Lemma attempt_without_socket request method params rid op_timeout
    (st : mstate) :
  sock (self st) = None ->
  attempt request method params rid op_timeout st
  = (Raise (none_has_no "settimeout"), st).
Proof.
  destruct st as [[h p sk] w]. cbn [self sock]. intros ->. reflexivity.
Qed.

(** X9. A reconnect that fails ends the call: after a transport failure
    the session disconnects, sleeps and tries to connect; when that fails
    the next attempt finds no socket, and its AttributeError is reported as
    a communication error. Nothing is sent again and no further connection
    is tried, although retries are left. *)
Theorem failed_reconnect_ends_call
    (fuel : nat) (request : json) (method : string) (params : option dict)
    (request_id : json) (op_timeout : float) (n : nat) (st st1 : mstate)
    (e : exn) :
  attempt request method params request_id op_timeout st = (Raise e, st1) ->
  is_transport_error e = true ->
  n < 3 ->
  hd true (conns (env st1)) = false ->
  retry_loop (S (S fuel)) request method params request_id op_timeout n st
  = (Raise (PyException
              "Communication error with Sketchup: 'NoneType' object has no attribute 'settimeout'"),
     after_backoff (backoff (S n)) st1).
Proof.
  intros Ha He Hn Hc.
  rewrite (@retry_loop_transport H (S fuel) request method params request_id
             op_timeout n st st1 e Ha He) by (unfold max_retries; lia).
  assert (Hs : sock (self (after_backoff (backoff (S n)) st1)) = None).
  { unfold after_backoff. cbn [self sock]. rewrite Hc. reflexivity. }
  rewrite (@retry_loop_terminal H fuel request method params request_id
             op_timeout (S n) _ _ _
             (attempt_without_socket request method params request_id
                op_timeout _ Hs));
    try reflexivity.
  - unfold communication_error, drop_sock, after_backoff.
    cbn [self sock host port env]. rewrite Hc. reflexivity.
  - unfold max_retries. lia.
Qed.

(** X10. A status update (an object with no "error" field whose "method"
    is "operation/status") is classified by the "status" of its "params",
    whatever its id: "failed" raises "Operation failed: " with the message,
    "completed" ends the call with the "result" of the params ({} when
    there is none), and any other status leaves the call waiting, with the
    "operation_id" of the params as the operation id. *)
Theorem status_update_is_classified_by_status
    (fuel : nat) (method : string) (params : option dict)
    (request_id : json) (op_timeout start : float) (operation_id : json)
    (st : mstate) (s : socket) (c : bytes) (d ps : dict)
    (rest : list recv_event) :
  sock (self st) = Some s ->
  recvs (env st) = RData c :: rest ->
  c <> [] ->
  decode_response c = Ok (JObj d) ->
  dict_has "error" d = false ->
  dict_get "method" d = Some (JStr "operation/status") ->
  dict_get_default "params" (JObj []) d = JObj ps ->
  (clock (env st) (ticks (env st)) - start <? op_timeout)%float = true ->
  (clock (env st) (2 + ticks (env st))%nat
   - clock (env st) (1 + ticks (env st))%nat <? max_response_time)%float
  = true ->
  wait_loop (S fuel) method params request_id op_timeout start operation_id st
  = if py_eq (dict_get_default "status" JNull ps) (JStr "failed") then
      (Raise (PyException
                ("Operation failed: "
                 ++ py_str (dict_get_default "message" (JStr "") ps))),
       after_message rest st)
    else if py_eq (dict_get_default "status" JNull ps) (JStr "completed") then
      (Ret (Returned (dict_get_default "result" (JObj []) ps)),
       after_message rest st)
    else
      wait_loop fuel method params request_id op_timeout start
                (dict_get_default "operation_id" JNull ps)
                (after_message rest st).
Proof.
  intros Hs Hr Hc Hd He Hm Hp Hg1 Hg2.
  erewrite wait_loop_message; [| eassumption ..].
  unfold handle_response. cbn [py_in rbind py_get]. rewrite He.
  unfold dict_get_default at 1. rewrite Hm.
  replace (py_eq (JStr "operation/status") (JStr "operation/status"))
    with true by reflexivity.
  rewrite Hp. cbn [py_get rbind].
  destruct (py_eq (dict_get_default "status" JNull ps) (JStr "failed"));
    [reflexivity|].
  destruct (py_eq (dict_get_default "status" JNull ps) (JStr "completed"));
    reflexivity.
Qed.

(** X11. Every request is a JSON-RPC 2.0 "tools/call" envelope with the
    caller's id, whose "params" has a "name" and "arguments": params that
    already have both are passed on as they are under the method
    "tools/call", and any other call is wrapped as a direct command, with
    the method as the name and the params (or {}) as the arguments. *)
Theorem build_request_envelope
    (method : string) (params : option dict) (request_id : json) :
  exists p : dict,
    build_request method params request_id
    = JObj [("jsonrpc", JStr "2.0"); ("method", JStr "tools/call");
            ("params", JObj p); ("id", request_id)]
    /\ dict_has "name" p = true
    /\ dict_has "arguments" p = true
    /\ (if (method =? "tools/call") && params_truthy params
           && dict_has "name" (params_or_empty params)
           && dict_has "arguments" (params_or_empty params)
        then p = params_or_empty params
        else p = [("name", JStr method);
                  ("arguments", JObj (params_or_empty params))]).
Proof.
  unfold build_request.
  destruct ((method =? "tools/call") && params_truthy params
            && dict_has "name" (params_or_empty params)
            && dict_has "arguments" (params_or_empty params)) eqn:E.
  - apply andb_prop in E. destruct E as [E Ha].
    apply andb_prop in E. destruct E as [E Hn].
    apply andb_prop in E. destruct E as [Em _].
    apply String.eqb_eq in Em. subst method.
    exists (params_or_empty params). repeat split; assumption.
  - eexists. repeat split.
Qed.

(** X12. Without a connection send_command sends nothing: when the session
    has no live socket and the connection cannot be made, it raises the
    ConnectionError "Not connected to Sketchup" at once, outside the retry
    loop: a dead socket is probed and closed, one connection is tried, and
    neither a retry nor a backoff takes place. *)
Theorem send_command_needs_a_connection
    (method : string) (params : option dict) (request_id : json)
    (st : mstate) :
  (sock (self st) = None \/ hd true (probes (env st)) = false) ->
  hd true (conns (env st)) = false ->
  fst (send_command method params request_id st)
  = Raise (OSError ConnectionOther "Not connected to Sketchup")
  /\ mtrace (snd (send_command method params request_id st))
     = mtrace st
       ++ match sock (self st) with
          | Some _ => [EvProbe false; EvClose]
          | None => []
          end
       ++ [EvConnect (host (self st)) (port (self st)) false]
  /\ sock (self (snd (send_command method params request_id st))) = None
  /\ recvs (env (snd (send_command method params request_id st)))
     = recvs (env st).
Proof.
  destruct st as [[h p sk] [clk t rs ss ps cs tr]].
  cbn [self env sock probes conns]. intros Hd Hc.
  destruct cs as [|[|] cs]; try discriminate.
  destruct sk as [s|].
  - destruct Hd as [Hd|Hd]; [discriminate|].
    destruct ps as [|[|] ps]; try discriminate.
    cbn. rewrite <- !app_assoc. repeat split.
  - cbn. repeat split.
Qed.

End RetryMore.

Section WaitMore.
Context `{PyLib}.

Lemma wait_body_raises rid opid (st st' : mstate) (e : exn) :
  (response_data <- receive_full_response;;
   response <- lift (decode_response response_data);;
   lift (handle_response rid opid response)) st = (Raise e, st') ->
  is_socket_timeout e = false.
Proof.
  unfold bind at 1.
  destruct (receive_full_response st) as [[d|e0|] st1] eqn:Er.
  - unfold bind, lift. unfold decode_response.
    destruct (utf8_decode d) as [text|];
      [|intro E; inversion E; subst; reflexivity].
    destruct (json_loads text) as [response|];
      [|intro E; inversion E; subst; reflexivity].
    destruct (handle_response rid opid response) as [c|e1] eqn:Eh;
      [discriminate|].
    intro E. inversion E; subst. apply handle_response_err in Eh. apply Eh.
  - apply receive_progress in Er.
    destruct Er as [[e' [E' [[B1 _] _]]] | [d [E' _]]]; [|discriminate].
    inversion E'; subst e'. intro E. inversion E; subst. exact B1.
  - discriminate.
Qed.

(** One iteration of the receive loop. *)
Lemma wait_loop_step fuel method params rid op_timeout start opid
    (st : mstate) :
  wait_loop (S fuel) method params rid op_timeout start opid st
  = if (clock (env st) (ticks (env st)) - start <? op_timeout)%float then
      match
        try_except
          (response_data <- receive_full_response;;
           response <- lift (decode_response response_data);;
           lift (handle_response rid opid response))
          (fun e =>
             if is_socket_timeout e then
               if is_create_component method params then
                 now' <- time_time;;
                 if (30 <? now' - start)%float then ret Break
                 else ret (Continue opid)
               else ret (Continue opid)
             else if is_json_decode_error e then ret (Continue opid)
             else raise e) (ticked st)
      with
      | (Ret (Continue o), st') =>
          wait_loop fuel method params rid op_timeout start o st'
      | (Ret Break, st') => (Ret (TimedOut opid), st')
      | (Ret (Return v), st') => (Ret (Returned v), st')
      | (Raise e, st') => (Raise e, st')
      | (OutOfFuel, st') => (OutOfFuel, st')
      end
    else (Ret (TimedOut opid), ticked st).
Proof.
  cbn [wait_loop]. unfold bind at 1.
  change (time_time st)
    with (Ret (clock (env st) (ticks (env st))), ticked st).
  cbv beta iota.
  destruct (clock (env st) (ticks (env st)) - start <? op_timeout)%float;
    [|reflexivity].
  unfold bind at 1.
  match goal with
  | |- context [try_except ?b ?h (ticked st)] =>
      destruct (try_except b h (ticked st)) as [[[o| |v]|e|] st']
  end; reflexivity.
Qed.

(** X22. The receive loop of send_command does not depend on the method and
    the params of the call: receive_full_response turns every timeout of
    [recv] into data or into a plain Exception, so the handler of
    socket.timeout, with its shorter patience for create_component, is never
    entered. *)
Theorem wait_loop_ignores_the_operation
    (method method' : string) (params params' : option dict)
    (request_id : json) (op_timeout start : float) :
  forall (fuel : nat) (operation_id : json) (st : mstate),
    wait_loop fuel method params request_id op_timeout start operation_id st
    = wait_loop fuel method' params' request_id op_timeout start operation_id
                st.
Proof.
  induction fuel as [|fuel IH]; intros opid st; [reflexivity|].
  rewrite !wait_loop_step.
  destruct (clock (env st) (ticks (env st)) - start <? op_timeout)%float;
    [|reflexivity].
  unfold try_except.
  destruct ((response_data <- receive_full_response;;
             response <- lift (decode_response response_data);;
             lift (handle_response request_id opid response)) (ticked st))
    as [[c|e|] st2] eqn:Eb.
  - destruct c; [apply IH | reflexivity | reflexivity].
  - apply wait_body_raises in Eb. rewrite Eb.
    destruct (is_json_decode_error e); [apply IH | reflexivity].
  - reflexivity.
Qed.

End WaitMore.

(** ** The tools on a connected session, and without one *)

Section ToolMore.
Context `{PyLib}.

(** send_command on a connected session whose peer answers with one final
    result, in one chunk and in time. *)
Lemma send_command_answered method params rid (st : mstate) (s : socket)
    (c : bytes) (d : dict) (rest : list recv_event) :
  sock (self st) = Some s ->
  hd true (probes (env st)) = true ->
  hd None (sends (env st)) = None ->
  recvs (env st) = RData c :: rest ->
  c <> [] ->
  decode_response c = Ok (JObj d) ->
  final_result_for rid (JObj d) = true ->
  timely (clock (env st)) (ticks (env st)) 1
         (operation_timeout method params) ->
  send_command method params rid st
  = (Ret (dict_get_default "result" (JObj []) d),
     after_messages 1 rest
       (after_send (request_bytes (build_request method params rid))
          (operation_timeout method params) (after_probe st))).
Proof.
  intros Hs Hp Hsend Hr Hc Hd Hf Ht.
  set (request := build_request method params rid) in *.
  set (op_timeout := operation_timeout method params) in *.
  set (st0 := after_send (request_bytes request) op_timeout (after_probe st)).
  assert (Hw : wait_loop (S (List.length (recvs (env st)))) method params
                 rid op_timeout (clock (env st) (ticks (env st)))
                 JNull st0
               = (Ret (Returned (dict_get_default "result" (JObj []) d)),
                  after_messages 1 rest st0)).
  { apply (@wait_loop_running H method params rid op_timeout
             (clock (env st) (ticks (env st))) c (JObj d) rest []
             (S (List.length (recvs (env st)))) JNull st0
             (mkSocket op_timeout)); try assumption; try reflexivity.
    - constructor.
    - cbn [List.length]. lia.
    - intros j Hj. unfold st0, after_send, after_probe.
      cbn [env clock ticks].
      destruct (Ht j) as [G1 G2]; [cbn [List.length] in Hj; lia|]. split.
      + replace (S (ticks (env st)) + 3 * j)
          with (1 + ticks (env st) + 3 * j) by lia. exact G1.
      + replace (2 + S (ticks (env st)) + 3 * j)
          with (3 + ticks (env st) + 3 * j) by lia.
        replace (1 + S (ticks (env st)) + 3 * j)
          with (2 + ticks (env st) + 3 * j) by lia. exact G2. }
  unfold send_command. unfold bind at 1.
  rewrite (connect_alive st Hs Hp). cbn [negb].
  cbn [retry_loop]. unfold max_retries. cbn [Nat.leb]. unfold try_except.
  fold request. fold op_timeout.
  erewrite attempt_sends; [| reflexivity | exact Hsend].
  unfold bind at 1.
  change (after_send (request_bytes request) op_timeout (after_probe st))
    with st0.
  change (recvs (env (after_probe st))) with (recvs (env st)).
  change (clock (env (after_probe st)) (ticks (env (after_probe st))))
    with (clock (env st) (ticks (env st))).
  rewrite Hw. reflexivity.
Qed.

(** The same for the call a tool makes on the shared session. *)
Lemma call_sketchup_answered name arguments rid (ts : tstate)
    (c : SketchupConnection) (s : socket) (ch : bytes) (d : dict)
    (rest : list recv_event) :
  conn ts = Some c ->
  sock c = Some s ->
  hd true (probes (tenv ts)) = true ->
  hd None (sends (tenv ts)) = None ->
  recvs (tenv ts) = RData ch :: rest ->
  ch <> [] ->
  decode_response ch = Ok (JObj d) ->
  final_result_for rid (JObj d) = true ->
  timely (clock (tenv ts)) (ticks (tenv ts)) 1
         (operation_timeout "tools/call" (tool_params name arguments)) ->
  call_sketchup name arguments rid ts
  = (Ret (dict_get_default "result" (JObj []) d),
     tool_state
       (after_messages 1 rest
          (after_send
             (request_bytes
                (build_request "tools/call" (tool_params name arguments) rid))
             (operation_timeout "tools/call" (tool_params name arguments))
             (after_probe (session_of ts c))))).
Proof.
  intros Hc Hs Hp Hsend Hr Hch Hd Hf Ht.
  unfold call_sketchup. unfold bind at 1.
  assert (Hg : get_sketchup_connection ts = (Ret tt, ts)).
  { destruct ts as [cn w]. cbn [conn] in Hc. subst cn.
    destruct c as [h p sk]. cbn [sock] in Hs. subst sk. reflexivity. }
  rewrite Hg. unfold method. rewrite Hc.
  rewrite (@send_command_answered "tools/call" (tool_params name arguments)
             rid (mkState c (tenv ts)) s ch d rest Hs Hp Hsend Hr Hch Hd Hf
             Ht).
  reflexivity.
Qed.


(** X13. A tool that forwards its arguments returns [json.dumps] of the
    peer's "result", untouched, when the connected peer answers with a
    final result for the call; it has sent its request once and has read
    the one message. *)
Theorem forwarding_tool_returns_the_result
    (name : string) (arguments : dict) (prefix : string) (request_id : json)
    (ts : tstate) (c : SketchupConnection) (s : socket) (ch : bytes)
    (d : dict) (rest : list recv_event) :
  conn ts = Some c ->
  sock c = Some s ->
  hd true (probes (tenv ts)) = true ->
  hd None (sends (tenv ts)) = None ->
  recvs (tenv ts) = RData ch :: rest ->
  ch <> [] ->
  decode_response ch = Ok (JObj d) ->
  final_result_for request_id (JObj d) = true ->
  timely (clock (tenv ts)) (ticks (tenv ts)) 1
         (operation_timeout "tools/call" (tool_params name arguments)) ->
  fst (forwarding_tool name arguments prefix request_id ts)
  = Ret (json_dumps (dict_get_default "result" (JObj []) d))
  /\ ttrace (snd (forwarding_tool name arguments prefix request_id ts))
     = ttrace ts
       ++ [EvProbe true;
           EvSend (request_bytes
                     (build_request "tools/call" (tool_params name arguments)
                        request_id))]
  /\ recvs (tenv (snd (forwarding_tool name arguments prefix request_id ts)))
     = rest.
Proof.
  intros Hc Hs Hp Hsend Hr Hch Hd Hf Ht.
  assert (E : forwarding_tool name arguments prefix request_id ts
              = (Ret (json_dumps (dict_get_default "result" (JObj []) d)),
                 tool_state
                   (after_messages 1 rest
                      (after_send
                         (request_bytes
                            (build_request "tools/call"
                               (tool_params name arguments) request_id))
                         (operation_timeout "tools/call"
                            (tool_params name arguments))
                         (after_probe (session_of ts c)))))).
  { unfold forwarding_tool, try_except. unfold bind at 1.
    rewrite (@call_sketchup_answered name arguments request_id ts c s ch d
               rest Hc Hs Hp Hsend Hr Hch Hd Hf Ht).
    reflexivity. }
  rewrite E. cbn [fst snd]. split; [reflexivity|]. split; [|reflexivity].
  unfold ttrace, tool_state, after_messages, after_send, after_probe,
    session_of.
  cbn [tenv env trace]. rewrite <- app_assoc. reflexivity.
Qed.

(** X14. The three answers of delete_component to a result that is an
    object: with a true "success" the message of success; otherwise, for a
    non-empty result, the message of failure with the "message" of the
    result as the reason (or the default reason); and for an empty result
    the error payload of an unexpected response. The result is the
    "details" of the first two. *)
Theorem delete_component_answers
    (request_id : json) (id : string) (ts : tstate)
    (c : SketchupConnection) (s : socket) (ch : bytes) (d rd : dict)
    (rest : list recv_event) :
  conn ts = Some c ->
  sock c = Some s ->
  hd true (probes (tenv ts)) = true ->
  hd None (sends (tenv ts)) = None ->
  recvs (tenv ts) = RData ch :: rest ->
  ch <> [] ->
  decode_response ch = Ok (JObj d) ->
  final_result_for request_id (JObj d) = true ->
  dict_get_default "result" (JObj []) d = JObj rd ->
  timely (clock (tenv ts)) (ticks (tenv ts)) 1 120 ->
  fst (delete_component request_id id ts)
  = Ret (if py_truthy (JObj rd)
            && py_truthy (dict_get_default "success" JNull rd)
         then payload ("Component with ID '" ++ id
                       ++ "' deleted successfully.") (JObj rd)
         else if py_truthy (JObj rd)
         then payload ("Failed to delete component with ID '" ++ id
                       ++ "'. Reason: "
                       ++ py_str (dict_get_default "message"
                                    (JStr ("Component ID '" ++ id
                                           ++ "' not found or another error occurred."))
                                    rd))
                      (JObj rd)
         else error_payload
                ("Received an unexpected or empty response when trying to delete component ID '"
                 ++ id ++ "'.")).
Proof.
  intros Hc Hs Hp Hsend Hr Hch Hd Hf Hres Ht.
  unfold delete_component, try_except. unfold bind at 1.
  rewrite (@call_sketchup_answered "delete_component" [("id", JStr id)]
             request_id ts c s ch d rest Hc Hs Hp Hsend Hr Hch Hd Hf Ht).
  rewrite Hres. unfold answer, reports_success, lift.
  destruct (py_truthy (JObj rd)); cbn [rbind py_get andb];
    [|reflexivity].
  destruct (py_truthy (dict_get_default "success" JNull rd));
    reflexivity.
Qed.

(** X15. create_component checks its arguments before anything else: it
    converts the dimensions, and with a direction or an origin mode that is
    not in the list it returns the error payload that names it; when a
    dimension is an int too large for a float it returns the error payload
    of the OverflowError instead. In each case the state is untouched: no
    connection is looked for and nothing is sent. *)
Theorem create_component_validates_first
    (request_id : json) (type : string) (position : json)
    (dimensions : option (list pynum)) (direction origin_mode : string)
    (ts : tstate) :
  (forall e : exn,
      normalize_dimensions type dimensions = Err e ->
      create_component request_id type position dimensions direction
                       origin_mode ts
      = (Ret (error_payload
                "Error creating component: int too large to convert to float"),
         ts))
  /\ (forall dims : list float,
        normalize_dimensions type dimensions = Ok dims ->
        ~ In direction valid_directions ->
        create_component request_id type position dimensions direction
                         origin_mode ts
        = (Ret (error_payload
                  ("Error creating component: Invalid direction '"
                   ++ direction
                   ++ "'. Must be one of: ['up', 'down', 'forward', 'back', 'right', 'left', 'auto']")),
           ts))
  /\ (forall dims : list float,
        normalize_dimensions type dimensions = Ok dims ->
        In direction valid_directions ->
        ~ In origin_mode valid_origin_modes ->
        create_component request_id type position dimensions direction
                         origin_mode ts
        = (Ret (error_payload
                  ("Error creating component: Invalid origin_mode '"
                   ++ origin_mode
                   ++ "'. Must be one of: ['center', 'bottom_center', 'top_center', 'min_corner', 'max_corner']")),
           ts)).
Proof.
  assert (Hin : forall x l, existsb (String.eqb x) l = true <-> In x l).
  { intros x l. rewrite existsb_exists. split.
    - intros [y [Hy E]]. apply String.eqb_eq in E. subst. exact Hy.
    - intro Hx. exists x. split; [exact Hx | apply String.eqb_refl]. }
  split; [|split].
  - intros e E. unfold create_component, try_except.
    rewrite E, bind_lift_err.
    rewrite normalize_as_specified in E. apply clamp_dimensions_err in E.
    destruct E as [-> _]. reflexivity.
  - intros dims E Hd. unfold create_component, try_except.
    rewrite E, bind_lift_ok.
    destruct (existsb (String.eqb direction) valid_directions) eqn:Ed;
      [apply Hin in Ed; contradiction|].
    reflexivity.
  - intros dims E Hd Ho. unfold create_component, try_except.
    rewrite E, bind_lift_ok.
    apply Hin in Hd. rewrite Hd.
    destruct (existsb (String.eqb origin_mode) valid_origin_modes) eqn:Eo;
      [apply Hin in Eo; contradiction|].
    reflexivity.
Qed.

Lemma emits_called name arguments rid {A} (k : json -> M tstate A)
    (handler : exn -> M tstate A) :
  (forall result, emits ttrace nothing 0 (k result)) ->
  (forall e, emits ttrace nothing 0 (handler e)) ->
  emits ttrace
    (only_sends (request_bytes
                   (build_request "tools/call" (tool_params name arguments)
                      rid))) 4
    (try_except (result <- call_sketchup name arguments rid;; k result)
                handler).
Proof.
  intros Hk Hh.
  eapply emits_try with (k1 := 4) (k2 := 0); [|intro e|lia].
  - eapply emits_bind with (k1 := 4) (k2 := 0);
      [apply emits_call_sketchup|intro result|lia].
    eapply emits_weaken; [apply Hk| |lia]. intros ev [].
  - eapply emits_weaken; [apply Hh| |lia]. intros ev [].
Qed.

Lemma emits_forwarding_tool name arguments prefix rid :
  emits ttrace
    (only_sends (request_bytes
                   (build_request "tools/call" (tool_params name arguments)
                      rid))) 4
    (forwarding_tool name arguments prefix rid).
Proof.
  unfold forwarding_tool.
  apply emits_called with (k := fun result => ret (json_dumps result));
    intros; apply emits_ret.
Qed.

Lemma transform_arguments id position rotation scale :
  fst (add_transformation "scale" scale
         (add_transformation "rotation" rotation
            (add_transformation "position" position
               ([("id", JStr id)], []))))
  = [("id", JStr id)] ++ given "position" position
    ++ given "rotation" rotation ++ given "scale" scale.
Proof.
  destruct position; destruct rotation; destruct scale; reflexivity.
Qed.

Lemma emits_transform_component rid id position rotation scale :
  emits ttrace
    (only_sends
       (request_bytes
          (build_request "tools/call"
             (tool_params "transform_component"
                ([("id", JStr id)] ++ given "position" position
                 ++ given "rotation" rotation ++ given "scale" scale))
             rid))) 4
    (transform_component rid id position rotation scale).
Proof.
  rewrite <- transform_arguments.
  unfold transform_component.
  eapply emits_try with (k1 := 4) (k2 := 0); [|intro; apply emits_ret|lia].
  eapply emits_bind with (k1 := 0) (k2 := 4); [|intros _|lia].
  { eapply emits_weaken; [apply (emits_get_sketchup_connection 0)| |lia].
    intros ev Hev. apply no_send_only. exact Hev. }
  destruct (add_transformation "scale" scale
              (add_transformation "rotation" rotation
                 (add_transformation "position" position
                    ([("id", JStr id)], [])))) as [arguments applied].
  cbn [fst].
  destruct applied as [|a applied]; [apply emits_ret|].
  eapply emits_bind with (k1 := 4) (k2 := 0); [|intro result|lia].
  - apply emits_method. apply emits_send_command.
  - apply emits_lift.
Qed.

(** X16. What transform_component sends: nothing but its request, at most
    four times, and the arguments of the request are the id followed by
    those of position, rotation and scale that are not None, in this
    order. *)
Theorem transform_component_sends_given_fields
    (request_id : json) (id : string) (position rotation scale : json)
    (ts : tstate) :
  exists evs : list event,
    ttrace (snd (transform_component request_id id position rotation scale
                   ts))
    = ttrace ts ++ evs
    /\ Forall (only_sends
                 (request_bytes
                    (build_request "tools/call"
                       (tool_params "transform_component"
                          ([("id", JStr id)] ++ given "position" position
                           ++ given "rotation" rotation
                           ++ given "scale" scale))
                       request_id))) evs
    /\ List.length (sends_of evs) <= 4.
Proof.
  exact (emits_transform_component request_id id position rotation scale ts).
Qed.

Lemma clamp_dimensions_length :
  forall (l : list pynum) (fs : list float),
    clamp_dimensions l = Ok fs -> List.length fs = List.length l.
Proof.
  intros l fs E. apply clamp_dimensions_ok in E. destruct E as [F _].
  induction F as [|d f l fs _ _ IH]; [reflexivity|].
  cbn [List.length]. rewrite IH. reflexivity.
Qed.

(** X17. When the dimensions can be converted, the normalized list has as
    many elements as the given one, and three when that has fewer or is
    None; a list of three or more is neither padded nor cut, only converted
    and clamped. *)
Theorem normalized_dimensions_length
    (type : string) (dimensions : option (list pynum)) :
  (forall out : list float,
      normalize_dimensions type dimensions = Ok out ->
      List.length out
      = Nat.max 3 (match dimensions with
                   | Some dims => List.length dims
                   | None => 3
                   end))
  /\ (forall dims : list pynum,
        dimensions = Some dims ->
        3 <= List.length dims ->
        normalize_dimensions type dimensions = clamp_dimensions dims).
Proof.
  split.
  - intros out E. rewrite normalize_as_specified in E.
    apply clamp_dimensions_length in E. rewrite E.
    unfold spec_dimensions.
    destruct dimensions as [dims|]; [|reflexivity].
    destruct dims as [|a [|b [|c dims]]]; cbn [List.length];
      try destruct (type =? "cylinder"); cbn [List.length]; lia.
  - intros dims -> L. rewrite normalize_as_specified.
    unfold spec_dimensions.
    destruct dims as [|a [|b [|c dims]]]; cbn [List.length] in L; try lia.
    reflexivity.
Qed.

(** X18. get_sketchup_connection keeps a session that holds a socket as it
    is, without testing the socket. Otherwise it makes a new session for
    localhost:9876 and connects it, once: when that succeeds the new
    session, with the timeout 30, is the global one; when it fails the
    global is None and the exception is "Could not connect to Sketchup.
    Make sure the Sketchup extension is running.". *)
Theorem get_sketchup_connection_reuses_or_connects (ts : tstate) :
  (forall (c : SketchupConnection) (s : socket),
      conn ts = Some c -> sock c = Some s ->
      get_sketchup_connection ts = (Ret tt, ts))
  /\ ((forall c, conn ts = Some c -> sock c = None) ->
      let w := tenv ts in
      let ok := hd true (conns w) in
      get_sketchup_connection ts
      = ((if ok then Ret tt else Raise could_not_connect),
         mkTState
           (if ok then Some (mkConn "localhost" 9876 (Some (mkSocket 30)))
            else None)
           (mkWorld (clock w) (ticks w) (recvs w) (sends w) (probes w)
                    (tl (conns w))
                    (trace w ++ [EvConnect "localhost" 9876 ok])))).
Proof.
  destruct ts as [[[h p sk]|] [clk t rs ss ps cs tr]]; split.
  - intros c s E1 E2. inversion E1; subst. cbn in E2. subst. reflexivity.
  - intro Hn. specialize (Hn _ eq_refl). cbn in Hn. subst sk.
    destruct cs as [|[|] cs]; reflexivity.
  - intros c s E1. discriminate.
  - intros _. destruct cs as [|[|] cs]; reflexivity.
Qed.

(** X19. Whatever the peer does, a tool writes nothing to the socket but
    one request, a "tools/call" envelope with the id of the call, at most
    four times (the first attempt and three retries). *)
Theorem tool_sends_only_its_request (request_id : json) (call : tool_call) :
  exists (name : string) (arguments : dict),
    forall ts : tstate,
    exists evs : list event,
      ttrace (snd (run_tool request_id call ts)) = ttrace ts ++ evs
      /\ Forall (only_sends
                   (request_bytes
                      (build_request "tools/call"
                         (tool_params name arguments) request_id))) evs
      /\ List.length (sends_of evs) <= 4.
Proof.
  destruct call; cbn [run_tool].
  - destruct (normalize_dimensions type dimensions) as [dims|e] eqn:E.
    + exists "create_component_with_verification",
        (create_component_arguments type position dims direction
           origin_mode).
      intro ts.
      pose proof (emits_create_component request_id type position
                    dimensions direction origin_mode ts) as Hm.
      rewrite E in Hm. exact Hm.
    + exists "create_component_with_verification", []. intro ts.
      exists []. unfold create_component, try_except.
      rewrite E, bind_lift_err. cbn [raise ret snd sends_of flat_map
        List.length]. rewrite app_nil_r.
      split; [reflexivity|]. split; [constructor|lia].
  - do 2 eexists. unfold delete_component.
    apply emits_called with (k := fun result => lift _);
      intros; first [apply emits_lift | apply emits_ret].
  - do 2 eexists. apply emits_transform_component.
  - do 2 eexists. unfold get_selection.
    apply emits_called with (k := fun result => lift _);
      intros; first [apply emits_lift | apply emits_ret].
  - do 2 eexists. unfold set_material.
    apply emits_called with (k := fun result => lift _);
      intros; first [apply emits_lift | apply emits_ret].
  - do 2 eexists. unfold export_scene.
    apply emits_called with (k := fun result => lift _);
      intros; first [apply emits_lift | apply emits_ret].
  - do 2 eexists. unfold eval_ruby.
    apply emits_called
      with (k := fun result =>
                   text <- lift (eval_ruby_text result);;
                   ret (json_dumps (JObj [("success", JBool true);
                                          ("result", text)])));
      intros; [|apply emits_ret].
    eapply emits_bind with (k1 := 0) (k2 := 0);
      [apply emits_lift | intro; apply emits_ret | lia].
  - do 2 eexists. unfold create_mortise_tenon. apply emits_forwarding_tool.
  - do 2 eexists. unfold create_dovetail. apply emits_forwarding_tool.
  - do 2 eexists. unfold create_finger_joint. apply emits_forwarding_tool.
  - do 2 eexists. unfold calculate_distance. apply emits_forwarding_tool.
  - do 2 eexists. unfold measure_components. apply emits_forwarding_tool.
  - do 2 eexists. unfold inspect_component. apply emits_forwarding_tool.
  - do 2 eexists. unfold create_reference_markers.
    apply emits_forwarding_tool.
  - do 2 eexists. unfold clear_reference_markers.
    apply emits_forwarding_tool.
  - do 2 eexists. unfold snap_align_component. apply emits_forwarding_tool.
  - do 2 eexists. unfold create_grid_system. apply emits_forwarding_tool.
  - do 2 eexists. unfold query_all_components. apply emits_forwarding_tool.
  - do 2 eexists. unfold position_relative_to_component.
    apply emits_forwarding_tool.
  - do 2 eexists. unfold position_between_components.
    apply emits_forwarding_tool.
  - do 2 eexists. unfold show_component_bounds. apply emits_forwarding_tool.
  - do 2 eexists. unfold preview_position. apply emits_forwarding_tool.
Qed.

End ToolMore.

Section ToolAnswers.
Context `{PyLib}.

Lemma item_descs_map (items : list dict) :
  item_descs (map JObj items) = Ok (map item_desc items).
Proof.
  induction items as [|item items IH]; [reflexivity|].
  cbn [map item_descs py_get rbind]. rewrite IH. reflexivity.
Qed.

(** X20. The message of get_selection for a successful result. Without a
    "selection", or with an empty one, it says that nothing is selected.
    For a list of items that are objects it gives the number of items and,
    separated by commas, the type and the id of each, "Entity" and "Unknown
    ID" standing for a missing one. *)
Theorem selection_message_lists_the_items (rd : dict) (items : list dict) :
  (dict_get "selection" rd = None ->
   selection_message (JObj rd) = Ok "No components are currently selected.")
  /\ (dict_get "selection" rd = Some (JArr []) ->
      selection_message (JObj rd)
      = Ok "No components are currently selected.")
  /\ (dict_get "selection" rd = Some (JArr (map JObj items)) ->
      items <> [] ->
      selection_message (JObj rd)
      = Ok ("Currently selected components ("
            ++ nat_str (List.length items) ++ "): "
            ++ String.concat ", " (map item_desc items) ++ ".")%string).
Proof.
  unfold selection_message, dict_get_default. cbn [py_get rbind].
  unfold dict_get_default.
  split; [|split].
  - intros ->. reflexivity.
  - intros ->. reflexivity.
  - intros -> Hne. destruct items as [|item items]; [congruence|].
    cbn [map py_truthy py_iter rbind].
    change (JObj item :: map JObj items) with (map JObj (item :: items)).
    rewrite item_descs_map. cbn [rbind]. rewrite length_map. reflexivity.
Qed.

Lemma get_sketchup_connection_refused (ts : tstate) :
  (forall c, conn ts = Some c -> sock c = None) ->
  hd true (conns (tenv ts)) = false ->
  get_sketchup_connection ts
  = (Raise could_not_connect, mkTState None (refused (tenv ts))).
Proof.
  intros Hn Hc.
  destruct ts as [[[h p sk]|] [clk t rs ss ps cs tr]];
    cbn [tenv conns] in Hc; destruct cs as [|[|] cs]; try discriminate.
  - specialize (Hn _ eq_refl). cbn in Hn. subst sk. reflexivity.
  - reflexivity.
Qed.

Lemma forwarding_tool_refused name arguments prefix rid (ts : tstate) :
  (forall c, conn ts = Some c -> sock c = None) ->
  hd true (conns (tenv ts)) = false ->
  forwarding_tool name arguments prefix rid ts
  = (Ret (prefix
          ++ "Could not connect to Sketchup. Make sure the Sketchup extension is running.")%string,
     mkTState None (refused (tenv ts))).
Proof.
  intros Hn Hc. unfold forwarding_tool, try_except, call_sketchup.
  unfold bind at 1. unfold bind at 1.
  rewrite (get_sketchup_connection_refused ts Hn Hc). reflexivity.
Qed.

(** X21. When SketchUp cannot be reached (no session holds a socket and the
    connection is refused), each of the fifteen forwarding tools returns its
    error prefix followed by "Could not connect to Sketchup. Make sure the
    Sketchup extension is running."; it has tried to connect once, has sent
    nothing, and leaves no session behind. *)
Theorem forwarding_tools_report_a_refused_connection
    (request_id : json) (call : tool_call) (ts : tstate) :
  answers_with_object call = false ->
  (forall c, conn ts = Some c -> sock c = None) ->
  hd true (conns (tenv ts)) = false ->
  run_tool request_id call ts
  = (Ret (error_prefix call
          ++ "Could not connect to Sketchup. Make sure the Sketchup extension is running.")%string,
     mkTState None (refused (tenv ts))).
Proof.
  intros Ha Hn Hc.
  destruct call; try discriminate Ha; cbn [run_tool error_prefix].
  - unfold create_mortise_tenon. apply forwarding_tool_refused; assumption.
  - unfold create_dovetail. apply forwarding_tool_refused; assumption.
  - unfold create_finger_joint. apply forwarding_tool_refused; assumption.
  - unfold calculate_distance. apply forwarding_tool_refused; assumption.
  - unfold measure_components. apply forwarding_tool_refused; assumption.
  - unfold inspect_component. apply forwarding_tool_refused; assumption.
  - unfold create_reference_markers.
    apply forwarding_tool_refused; assumption.
  - unfold clear_reference_markers.
    apply forwarding_tool_refused; assumption.
  - unfold snap_align_component. apply forwarding_tool_refused; assumption.
  - unfold create_grid_system. apply forwarding_tool_refused; assumption.
  - unfold query_all_components. apply forwarding_tool_refused; assumption.
  - unfold position_relative_to_component.
    apply forwarding_tool_refused; assumption.
  - unfold position_between_components.
    apply forwarding_tool_refused; assumption.
  - unfold show_component_bounds. apply forwarding_tool_refused; assumption.
  - unfold preview_position. apply forwarding_tool_refused; assumption.
Qed.

End ToolAnswers.

Section ToolResults.
Context `{PyLib}.

(** X23. eval_ruby on a connected peer that answers in time, within the
    budget of 300 seconds of its name, with a result that is an object:
    the answer has "success": true, and its "result" is the "text" of the
    first item of the result's "content" when that is a list whose first
    item is an object ("Success" when the item has no "text"), and
    "Success" when the content is missing or is not a non-empty list. *)
Theorem eval_ruby_answers_with_the_text
    (request_id : json) (code : string) (ts : tstate)
    (c : SketchupConnection) (s : socket) (ch : bytes) (d rd : dict)
    (rest : list recv_event) :
  conn ts = Some c ->
  sock c = Some s ->
  hd true (probes (tenv ts)) = true ->
  hd None (sends (tenv ts)) = None ->
  recvs (tenv ts) = RData ch :: rest ->
  ch <> [] ->
  decode_response ch = Ok (JObj d) ->
  final_result_for request_id (JObj d) = true ->
  dict_get_default "result" (JObj []) d = JObj rd ->
  timely (clock (tenv ts)) (ticks (tenv ts)) 1 300 ->
  (forall x rest', dict_get "content" rd = Some (JArr (x :: rest')) ->
                   exists first, x = JObj first) ->
  fst (eval_ruby request_id code ts)
  = Ret (json_dumps
           (JObj [("success", JBool true);
                  ("result",
                   match dict_get "content" rd with
                   | Some (JArr (JObj first :: _)) =>
                       dict_get_default "text" (JStr "Success") first
                   | _ => JStr "Success"
                   end)])).
Proof.
  intros Hc Hs Hp Hsend Hr Hch Hd Hf Hres Ht Hobj.
  unfold eval_ruby, try_except. unfold bind at 1.
  rewrite (@call_sketchup_answered H "eval_ruby" [("code", JStr code)]
             request_id ts c s ch d rest Hc Hs Hp Hsend Hr Hch Hd Hf Ht).
  rewrite Hres. unfold eval_ruby_text, bind, lift, dict_get_default.
  cbn [py_get rbind]. unfold dict_get_default.
  destruct (dict_get "content" rd) as [content|] eqn:Ec; [|reflexivity].
  destruct content as [| | | | |l|]; try reflexivity.
  destruct l as [|x l]; [reflexivity|].
  destruct (Hobj x l eq_refl) as [first ->]. reflexivity.
Qed.

(** X24. For dimensions that can be converted, create_component has two
    answers to a result that is an object, not three: without a true "success", and also for the empty result, it
    answers "Failed to create component: " with the result's "error" (or
    "Unknown error during component creation."), with the result as the
    details and without the error flag. Its call waits with the default
    budget of 120 seconds, the name it sends being
    create_component_with_verification. *)
Theorem create_component_reports_the_failure
    (request_id : json) (type : string) (position : json)
    (dimensions : option (list pynum)) (direction origin_mode : string)
    (ts : tstate) (c : SketchupConnection) (s : socket) (ch : bytes)
    (d rd : dict) (rest : list recv_event) (dims : list float) :
  normalize_dimensions type dimensions = Ok dims ->
  In direction valid_directions ->
  In origin_mode valid_origin_modes ->
  conn ts = Some c ->
  sock c = Some s ->
  hd true (probes (tenv ts)) = true ->
  hd None (sends (tenv ts)) = None ->
  recvs (tenv ts) = RData ch :: rest ->
  ch <> [] ->
  decode_response ch = Ok (JObj d) ->
  final_result_for request_id (JObj d) = true ->
  dict_get_default "result" (JObj []) d = JObj rd ->
  py_truthy (JObj rd) && py_truthy (dict_get_default "success" JNull rd)
  = false ->
  timely (clock (tenv ts)) (ticks (tenv ts)) 1 120 ->
  fst (create_component request_id type position dimensions direction
         origin_mode ts)
  = Ret (payload
           ("Failed to create component: "
            ++ py_str (dict_get_default "error"
                         (JStr "Unknown error during component creation.")
                         rd))
           (JObj rd)).
Proof.
  intros Hnorm Hdir Hom Hc Hs Hp Hsend Hr Hch Hd Hf Hres Hfail Ht.
  assert (Hin : forall x l, In x l -> existsb (String.eqb x) l = true).
  { intros x l Hx. apply existsb_exists. exists x.
    split; [exact Hx | apply String.eqb_refl]. }
  unfold create_component, try_except.
  rewrite Hnorm, bind_lift_ok.
  rewrite (Hin _ _ Hdir), (Hin _ _ Hom). cbn [negb].
  unfold bind at 1.
  rewrite (@call_sketchup_answered H "create_component_with_verification"
             (create_component_arguments type position dims direction
                origin_mode)
             request_id ts c s ch d rest Hc Hs Hp Hsend Hr Hch Hd Hf Ht).
  rewrite Hres. unfold bind at 1. unfold lift at 1, reports_success.
  destruct (py_truthy (JObj rd)); cbn [andb] in Hfail;
    cbn [py_get rbind]; rewrite ?Hfail; reflexivity.
Qed.

End ToolResults.

(** * The claims on concrete sessions

    The statements above hold for every implementation of the library
    functions; the sessions below run with the reference implementation
    [Ref.lib]. *)

#[local] Existing Instance Ref.lib.

Ltac run := vm_compute; reflexivity.
Ltac runs := repeat match goal with |- _ /\ _ => split end; run.

Lemma running_op1_is_running : running_chunk (chunk running_op1).
Proof.
  split; [discriminate|].
  exists (JObj [("method", JStr "operation/status");
                ("params", JObj [("operation_id", JStr "op-1");
                                 ("status", JStr "running")])]).
  split; run.
Qed.

(** C1, as stated, fails: an error response whose id is 2 ends the call
    whose correlation-id is 1 (the matching result that follows is left
    unread), and so does a completed status update whose id is 2, with
    success. *)
Lemma response_with_other_id_ends_call :
  decode_response (chunk boom_other_id)
  = Ok (JObj [("error", JObj [("message", JStr "boom")]); ("id", JInt 2)])
  /\ py_eq (JInt 2) (JInt 1) = false
  /\ fst (send_command "tools/call" example_params (JInt 1)
            (connected [delivers boom_other_id; delivers result_own_id]))
     = Raise (PyException "Communication error with Sketchup: boom")
  /\ recvs (env (snd (send_command "tools/call" example_params (JInt 1)
                        (connected [delivers boom_other_id;
                                    delivers result_own_id]))))
     = [delivers result_own_id]
  /\ fst (send_command "tools/call" example_params (JInt 1)
            (connected [delivers completed_other_id; delivers result_own_id]))
     = Ret (JObj [("a", JInt 1)]).
Proof. runs. Qed.

(** C1 (amended) on a result whose id is 2, for the call 1: the loop goes on
    with the next message. *)
Lemma result_accepted_only_for_matching_id_witness :
  wait_loop 2 "tools/call" example_params (JInt 1) 120 0 JNull
    (connected [delivers result_other_id; delivers result_own_id])
  = wait_loop 1 "tools/call" example_params (JInt 1) 120 0 JNull
      (after_message [delivers result_own_id]
         (connected [delivers result_other_id; delivers result_own_id])).
Proof.
  apply (@result_accepted_only_for_matching_id Ref.lib 1 "tools/call"
           example_params (JInt 1) 120%float 0%float JNull
           (connected [delivers result_other_id; delivers result_own_id])
           (mkSocket 30) (chunk result_other_id)
           [("result", JObj [("a", JInt 1)]); ("id", JInt 2)]
           [delivers result_own_id]);
    first [ discriminate | run ].
Defined.

(** C2, as stated, fails: a peer error whose message contains "Connection
    closed" is retried; the session disconnects, sleeps, connects and sends
    the request again, and the call returns the result that follows. *)
Lemma peer_error_naming_connection_closed_is_retried :
  decode_response (chunk closed_by_peer)
  = Ok (JObj [("error",
               JObj [("message", JStr "Connection closed by peer")])])
  /\ fst (send_command "tools/call" example_params (JInt 1)
            (connected [delivers closed_by_peer; delivers result_own_id]))
     = Ret (JObj [("a", JInt 5)])
  /\ mtrace (snd (send_command "tools/call" example_params (JInt 1)
                    (connected [delivers closed_by_peer;
                                delivers result_own_id])))
     = [EvProbe true; EvSend (request_bytes example_request);
        EvClose; EvSleep 0.5; EvConnect "localhost" 9876 true;
        EvSend (request_bytes example_request)].
Proof. runs. Qed.

(** C2 (amended) on the peer error "boom". *)
Lemma peer_error_fails_without_retry_witness :
  send_command "tools/call" example_params (JInt 1)
    (connected [delivers boom])
  = (Raise (PyException "Communication error with Sketchup: boom"),
     drop_sock
       (after_message []
          (after_send (request_bytes example_request) 120
             (after_probe (connected [delivers boom])))))
  /\ mtrace (snd (send_command "tools/call" example_params (JInt 1)
                    (connected [delivers boom])))
     = [EvProbe true; EvSend (request_bytes example_request)].
Proof.
  apply (@peer_error_fails_without_retry Ref.lib "tools/call" example_params
           (JInt 1) (connected [delivers boom]) (mkSocket 30) (chunk boom)
           [("error", JObj [("message", JStr "boom")])]
           [("message", JStr "boom")] []);
    first [ discriminate | run | intros j Hj; split; run ].
Defined.

(** The scenario of the specification: the connection is reset on the first
    two attempts and the third succeeds; the delays are 0.5 and 1.0. *)
Example two_resets_then_success :
  fst (send_command "tools/call" example_params (JInt 1)
         (failing_sends [reset; reset] [delivers success_own_id]))
  = Ret (JObj [("success", JBool true)])
  /\ mtrace (snd (send_command "tools/call" example_params (JInt 1)
                    (failing_sends [reset; reset] [delivers success_own_id])))
     = [EvProbe true; EvSend (request_bytes example_request);
        EvClose; EvSleep 0.5; EvConnect "localhost" 9876 true;
        EvSend (request_bytes example_request);
        EvClose; EvSleep 1; EvConnect "localhost" 9876 true;
        EvSend (request_bytes example_request)].
Proof. runs. Qed.

Example four_resets_exhaust_the_retries :
  fst (send_command "tools/call" example_params (JInt 1)
         (failing_sends [reset; reset; reset; reset] []))
  = Raise (PyException
             "Connection to Sketchup lost after 4 attempts: Connection reset by peer")
  /\ mtrace (snd (send_command "tools/call" example_params (JInt 1)
                    (failing_sends [reset; reset; reset; reset] [])))
     = [EvProbe true; EvSend (request_bytes example_request);
        EvClose; EvSleep 0.5; EvConnect "localhost" 9876 true;
        EvSend (request_bytes example_request);
        EvClose; EvSleep 1; EvConnect "localhost" 9876 true;
        EvSend (request_bytes example_request);
        EvClose; EvSleep 1.5; EvConnect "localhost" 9876 true;
        EvSend (request_bytes example_request)].
Proof. runs. Qed.

(** C3, as stated, fails: a socket timeout of [recv] is not retried. When
    the first [recv] times out the call ends at once, after its one
    [sendall], and the result that the peer sends next is left unread. And
    the delay before a retry is not always [min(n * 0.5, 2.0)]: after a
    reset of the first [sendall], a peer that closes before sending any
    data is retried with delays of 0.5, 0.5 and 0.5 seconds. *)
Lemma recv_timeout_is_not_retried :
  is_socket_timeout (OSError Timeout "timed out") = true
  /\ fst (send_command "tools/call" example_params (JInt 1)
            (connected [RError Timeout "timed out"; delivers result_own_id]))
     = Raise (PyException
                "Communication error with Sketchup: No data received")
  /\ mtrace (snd (send_command "tools/call" example_params (JInt 1)
                    (connected [RError Timeout "timed out";
                                delivers result_own_id])))
     = [EvProbe true; EvSend (request_bytes example_request)]
  /\ recvs (env (snd (send_command "tools/call" example_params (JInt 1)
                        (connected [RError Timeout "timed out";
                                    delivers result_own_id]))))
     = [delivers result_own_id]
  /\ mtrace (snd (send_command "tools/call" example_params (JInt 1)
                    (failing_sends [reset] [])))
     = [EvProbe true; EvSend (request_bytes example_request);
        EvClose; EvSleep 0.5; EvConnect "localhost" 9876 true;
        EvSend (request_bytes example_request);
        EvClose; EvSleep 0.5; EvConnect "localhost" 9876 true;
        EvSend (request_bytes example_request);
        EvClose; EvSleep 0.5; EvConnect "localhost" 9876 true;
        EvSend (request_bytes example_request)].
Proof. runs. Qed.

(** C3 on a connection reset during the first [sendall]: the first retry. *)
Lemma transport_failures_retried_with_backoff_witness :
  retry_loop 5 example_request "tools/call" example_params (JInt 1) 120 0
    (failing_sends [reset] [])
  = retry_loop 4 example_request "tools/call" example_params (JInt 1) 120 1
      (after_backoff (backoff 1)
         (snd (attempt example_request "tools/call" example_params (JInt 1)
                 120 (failing_sends [reset] [])))).
Proof.
  apply (proj1 (proj2 (proj2 (proj2
           (@transport_failures_retried_with_backoff Ref.lib "tools/call"
              example_params (JInt 1)))))
         4 example_request 120%float 0 (failing_sends [reset] []) _
         (OSError ConnectionReset "Connection reset by peer"));
    first [ lia | run ].
Defined.

(** C5, as stated, fails: when [recv] times out before any byte arrived, and
    when the peer closes in the middle of a document, the call ends at once;
    nothing follows the one [sendall]. *)
Lemma framing_failure_without_data_is_terminal :
  fst (send_command "tools/call" example_params (JInt 1)
         (connected [RError Timeout "timed out"]))
  = Raise (PyException "Communication error with Sketchup: No data received")
  /\ mtrace (snd (send_command "tools/call" example_params (JInt 1)
                    (connected [RError Timeout "timed out"])))
     = [EvProbe true; EvSend (request_bytes example_request)]
  /\ fst (send_command "tools/call" example_params (JInt 1)
            (connected [delivers "{'result':"]))
     = Raise (PyException
                "Communication error with Sketchup: Incomplete JSON response received")
  /\ mtrace (snd (send_command "tools/call" example_params (JInt 1)
                    (connected [delivers "{'result':"])))
     = [EvProbe true; EvSend (request_bytes example_request)].
Proof. runs. Qed.

(** C5 (amended) on "No data received". *)
Lemma framing_failures_mostly_terminal_witness :
  retry_loop 5 example_request "tools/call" example_params (JInt 1) 120 0
    (connected [RError Timeout "timed out"])
  = (Raise (PyException "Communication error with Sketchup: No data received"),
     drop_sock
       (snd (attempt example_request "tools/call" example_params (JInt 1)
               120 (connected [RError Timeout "timed out"])))).
Proof.
  apply (proj1 (proj2 (proj2
           (@framing_failures_mostly_terminal Ref.lib "tools/call"
              example_params (JInt 1))))
         4 example_request 120%float 0
         (connected [RError Timeout "timed out"]) _ "No data received");
    first [ lia | run | cbn; tauto ].
Defined.

(** C6, as stated, fails: a running status that arrives when the budget of
    120 seconds is spent ends the call with a timeout; the matching final
    result that follows is left unread. *)
Lemma running_status_outlasting_the_budget_fails :
  Forall running_chunk [chunk running_op1]
  /\ decode_response (chunk result_own_id)
     = Ok (JObj [("result", JObj [("a", JInt 5)]); ("id", JInt 1)])
  /\ final_result_for (JInt 1)
       (JObj [("result", JObj [("a", JInt 5)]); ("id", JInt 1)]) = true
  /\ fst (send_command "tools/call" example_params (JInt 1)
            (slow_peer [delivers running_op1; delivers result_own_id]))
     = Raise (PyException
                "Communication error with Sketchup: Operation op-1 timed out after 120.0 seconds")
  /\ recvs (env (snd (send_command "tools/call" example_params (JInt 1)
                        (slow_peer [delivers running_op1;
                                    delivers result_own_id]))))
     = [delivers result_own_id].
Proof.
  split; [|runs].
  apply Forall_cons; [apply running_op1_is_running | apply Forall_nil].
Qed.

(** C6 (amended) on two running notifications and the final result. *)
Lemma running_status_is_not_terminal_witness :
  send_command "tools/call" example_params (JInt 1)
    (connected [delivers running_op1; delivers running_op1;
                delivers result_own_id])
  = (Ret (JObj [("a", JInt 5)]),
     after_messages 3 []
       (after_send (request_bytes example_request) 120
          (after_probe (connected [delivers running_op1; delivers running_op1;
                                   delivers result_own_id])))).
Proof.
  apply (@running_status_is_not_terminal Ref.lib "tools/call" example_params
           (JInt 1)
           (connected [delivers running_op1; delivers running_op1;
                       delivers result_own_id])
           (mkSocket 30) [chunk running_op1; chunk running_op1]
           (chunk result_own_id)
           [("result", JObj [("a", JInt 5)]); ("id", JInt 1)] []).
  - reflexivity.
  - reflexivity.
  - reflexivity.
  - reflexivity.
  - repeat apply Forall_cons; try apply Forall_nil;
      apply running_op1_is_running.
  - discriminate.
  - run.
  - reflexivity.
  - intros j Hj; split; run.
Defined.

(** C7, as stated, fails: when no connection can be made,
    create_mortise_tenon returns a plain text, which is not JSON. *)
Lemma forwarding_tool_answers_in_plain_text :
  run_tool (JInt 1)
    (CreateMortiseTenon (JStr "a") (JStr "b") (JInt 1) (JInt 1) (JInt 1)
       (JInt 0) (JInt 0) (JInt 0)) peer_down
  = (Ret "Error creating mortise and tenon joint: Could not connect to Sketchup. Make sure the Sketchup extension is running.",
     mkTState None
       (mkWorld (fun _ => 0%float) 0 [] [] [] []
          [EvConnect "localhost" 9876 false]))
  /\ json_loads "Error creating mortise and tenon joint: Could not connect to Sketchup. Make sure the Sketchup extension is running."
     = None.
Proof. runs. Qed.

(** C8, as stated, fails: the document 123 in one chunk is returned whole,
    and in the chunks 12 and 3 it is cut to 12. *)
Lemma number_split_in_two_chunks_is_cut :
  try_parse (list_byte_of_string "123") = Complete
  /\ fst (receive_full_response
            (connected [RData (list_byte_of_string "123")]))
     = Ret (list_byte_of_string "123")
  /\ fst (receive_full_response
            (connected [RData (list_byte_of_string "12");
                        RData (list_byte_of_string "3")]))
     = Ret (list_byte_of_string "12").
Proof. runs. Qed.

(** C8 (amended) on an object in three chunks. *)
Lemma receive_full_response_chunk_invariant_witness :
  receive_full_response
    (connected [RData (chunk "{'a'"); RData (chunk ":1"); RData (chunk "}")])
  = (Ret (chunk "{'a':1}"),
     after_receive 3 []
       (connected [RData (chunk "{'a'"); RData (chunk ":1");
                   RData (chunk "}")])).
Proof.
  apply (@receive_full_response_chunk_invariant Ref.lib
           (connected [RData (chunk "{'a'"); RData (chunk ":1");
                       RData (chunk "}")])
           (mkSocket 30) [chunk "{'a'"; chunk ":1"; chunk "}"] []).
  - reflexivity.
  - reflexivity.
  - discriminate.
  - repeat apply Forall_cons; try apply Forall_nil; discriminate.
  - run.
  - intros k Hk. cbn [List.length] in Hk.
    assert (E : k = 1 \/ k = 2) by lia.
    destruct E as [-> | ->]; vm_compute; discriminate.
  - intros i Hi. run.
Defined.

(** C4, as stated, fails: the direct command eval_ruby is sent as the
    operation eval_ruby and waits for the default 120 seconds. *)
Lemma direct_eval_ruby_waits_the_default :
  build_request "eval_ruby" (Some [("code", JStr "1+1")]) (JInt 1)
  = JObj [("jsonrpc", JStr "2.0"); ("method", JStr "tools/call");
          ("params", JObj [("name", JStr "eval_ruby");
                           ("arguments", JObj [("code", JStr "1+1")])]);
          ("id", JInt 1)]
  /\ operation_timeout "eval_ruby" (Some [("code", JStr "1+1")]) = 120%float.
Proof. runs. Qed.

(** C10 on a session that has to be opened. *)
Lemma transform_without_changes_sends_nothing_witness :
  transform_component (JInt 1) "c1" JNull JNull JNull no_session
  = (Ret (payload no_transformation_message
            (JObj [("success", JBool true); ("id", JStr "c1");
                   ("changes_applied", JBool false)])),
     snd (get_sketchup_connection no_session))
  /\ ttrace (snd (get_sketchup_connection no_session))
     = [EvConnect "localhost" 9876 true].
Proof.
  split; [|run].
  apply (@transform_without_changes_sends_nothing Ref.lib (JInt 1) "c1"
           no_session (snd (get_sketchup_connection no_session))).
  run.
Defined.

(** ** The further properties on concrete sessions *)

Ltac side := first [ discriminate | run | intros j Hj; split; run ].

(** X4 on a result that arrives in one chunk. *)
Lemma received_data_is_a_document_witness :
  try_parse (chunk result_own_id) = Complete
  /\ (exists r, decode_response (chunk result_own_id) = Ok r)
  /\ sock (self (snd (receive_full_response
                        (connected [delivers result_own_id]))))
     = Some (mkSocket 30).
Proof.
  apply (@received_data_is_a_document Ref.lib
           (connected [delivers result_own_id])
           (snd (receive_full_response (connected [delivers result_own_id])))
           (chunk result_own_id)).
  run.
Defined.

(** X6 on two documents in two chunks: the second is left for the next
    call. *)
Lemma receive_returns_first_document_witness :
  receive_full_response
    (connected [RData (chunk "{'a':1}"); RData (chunk "{'b':2}")])
  = (Ret (chunk "{'a':1}"),
     after_receive 1 [RData (chunk "{'b':2}")]
       (connected [RData (chunk "{'a':1}"); RData (chunk "{'b':2}")])).
Proof.
  apply (@receive_returns_first_document Ref.lib
           (connected [RData (chunk "{'a':1}"); RData (chunk "{'b':2}")])
           (mkSocket 30) [chunk "{'a':1}"; chunk "{'b':2}"] 1 []).
  - reflexivity.
  - reflexivity.
  - repeat apply Forall_cons; try apply Forall_nil; discriminate.
  - cbn [List.length]. lia.
  - run.
  - intros j Hj. lia.
  - intros i Hi. run.
Defined.

(** X7 on a peer that has closed. *)
Lemma receive_without_data_witness :
  receive_full_response (connected [])
  = (Raise (PyException "Connection closed before receiving any data"),
     after_receive 1 [] (connected [])).
Proof.
  apply (proj1 (proj2 (@receive_without_data Ref.lib (connected []))
                  (mkSocket 30) eq_refl eq_refl)).
  left. reflexivity.
Defined.

(** X9 on a reset followed by a refused connection. *)
Lemma failed_reconnect_ends_call_witness :
  retry_loop 5 example_request "tools/call" example_params (JInt 1) 120 0
    lost_after_reset
  = (Raise (PyException
              "Communication error with Sketchup: 'NoneType' object has no attribute 'settimeout'"),
     after_backoff (backoff 1)
       (snd (attempt example_request "tools/call" example_params (JInt 1)
               120 lost_after_reset))).
Proof.
  apply (@failed_reconnect_ends_call Ref.lib 3 example_request "tools/call"
           example_params (JInt 1) 120%float 0 lost_after_reset _
           (OSError ConnectionReset "Connection reset by peer"));
    first [ lia | run ].
Defined.

(** X10 on a failed status update. *)
Lemma status_update_is_classified_by_status_witness :
  wait_loop 1 "tools/call" example_params (JInt 1) 120 0 JNull
    (connected [delivers failed_op1])
  = (Raise (PyException "Operation failed: no such entity"),
     after_message [] (connected [delivers failed_op1])).
Proof.
  rewrite (@status_update_is_classified_by_status Ref.lib 0 "tools/call"
             example_params (JInt 1) 120%float 0%float JNull
             (connected [delivers failed_op1]) (mkSocket 30)
             (chunk failed_op1)
             [("method", JStr "operation/status");
              ("params", JObj [("operation_id", JStr "op-1");
                               ("status", JStr "failed");
                               ("message", JStr "no such entity")])]
             [("operation_id", JStr "op-1"); ("status", JStr "failed");
              ("message", JStr "no such entity")] [])
    by side.
  run.
Defined.

(** X12 on a dead socket and a peer that refuses the connection. *)
Lemma send_command_needs_a_connection_witness :
  fst (send_command "tools/call" example_params (JInt 1) dead_session)
  = Raise (OSError ConnectionOther "Not connected to Sketchup")
  /\ mtrace (snd (send_command "tools/call" example_params (JInt 1)
                    dead_session))
     = [EvProbe false; EvClose; EvConnect "localhost" 9876 false]
  /\ sock (self (snd (send_command "tools/call" example_params (JInt 1)
                        dead_session))) = None
  /\ recvs (env (snd (send_command "tools/call" example_params (JInt 1)
                        dead_session))) = [].
Proof.
  apply (@send_command_needs_a_connection Ref.lib "tools/call" example_params
           (JInt 1) dead_session);
    [right; reflexivity | reflexivity].
Defined.

(** X13 on inspect_component. *)
Lemma forwarding_tool_returns_the_result_witness :
  fst (run_tool (JInt 1) (InspectComponent (JStr "c1"))
         (connected_tools [delivers success_own_id]))
  = Ret (json_dumps (JObj [("success", JBool true)]))
  /\ ttrace (snd (run_tool (JInt 1) (InspectComponent (JStr "c1"))
                    (connected_tools [delivers success_own_id])))
     = [EvProbe true;
        EvSend (request_bytes
                  (build_request "tools/call"
                     (tool_params "inspect_component"
                        [("component_id", JStr "c1")]) (JInt 1)))]
  /\ recvs (tenv (snd (run_tool (JInt 1) (InspectComponent (JStr "c1"))
                         (connected_tools [delivers success_own_id]))))
     = [].
Proof.
  apply (@forwarding_tool_returns_the_result Ref.lib "inspect_component"
           [("component_id", JStr "c1")] "Error inspecting component: "
           (JInt 1) (connected_tools [delivers success_own_id])
           (mkConn "localhost" 9876 (Some (mkSocket 30))) (mkSocket 30)
           (chunk success_own_id)
           [("result", JObj [("success", JBool true)]); ("id", JInt 1)] []);
    side.
Defined.

(** X14 on a successful deletion. *)
Lemma delete_component_answers_witness :
  fst (delete_component (JInt 1) "c1"
         (connected_tools [delivers success_own_id]))
  = Ret (payload "Component with ID 'c1' deleted successfully."
           (JObj [("success", JBool true)])).
Proof.
  rewrite (@delete_component_answers Ref.lib (JInt 1) "c1"
             (connected_tools [delivers success_own_id])
             (mkConn "localhost" 9876 (Some (mkSocket 30))) (mkSocket 30)
             (chunk success_own_id)
             [("result", JObj [("success", JBool true)]); ("id", JInt 1)]
             [("success", JBool true)] [])
    by side.
  reflexivity.
Defined.

(** X15 on a direction that is not in the list. *)
Lemma create_component_validates_first_witness :
  create_component (JInt 1) "cube" JNull None "sideways" "center" no_session
  = (Ret (error_payload
            "Error creating component: Invalid direction 'sideways'. Must be one of: ['up', 'down', 'forward', 'back', 'right', 'left', 'auto']"),
     no_session).
Proof.
  apply (proj1 (proj2 (@create_component_validates_first Ref.lib (JInt 1)
                         "cube" JNull None "sideways" "center" no_session))
           [1; 1; 1]%float).
  - run.
  - cbn. intros [E|[E|[E|[E|[E|[E|[E|[]]]]]]]]; discriminate E.
Defined.

(** X17 on the single dimension 5: it is repeated three times. *)
Lemma normalized_dimensions_length_witness :
  normalize_dimensions "cube" (Some [PInt 5]) = Ok [5; 5; 5]%float
  /\ List.length [5; 5; 5]%float = Nat.max 3 (List.length [PInt 5]).
Proof.
  split; [run|].
  apply (proj1 (@normalized_dimensions_length "cube" (Some [PInt 5]))).
  run.
Defined.

(** X20 on a selection of two items, the second without a type. *)
Lemma selection_message_lists_the_items_witness :
  selection_message
    (JObj [("success", JBool true);
           ("selection",
            JArr [JObj [("id", JInt 7); ("type", JStr "Group")];
                  JObj [("id", JInt 9)]])])
  = Ok "Currently selected components (2): Group (ID: 7), Entity (ID: 9).".
Proof.
  rewrite (proj2 (proj2
             (@selection_message_lists_the_items Ref.lib
                [("success", JBool true);
                 ("selection",
                  JArr [JObj [("id", JInt 7); ("type", JStr "Group")];
                        JObj [("id", JInt 9)]])]
                [[("id", JInt 7); ("type", JStr "Group")];
                 [("id", JInt 9)]]))
             eq_refl)
    by discriminate.
  run.
Defined.

(** X21 on inspect_component. *)
Lemma forwarding_tools_report_a_refused_connection_witness :
  run_tool (JInt 1) (InspectComponent (JStr "c1")) peer_down
  = (Ret "Error inspecting component: Could not connect to Sketchup. Make sure the Sketchup extension is running.",
     mkTState None (refused (tenv peer_down))).
Proof.
  apply (@forwarding_tools_report_a_refused_connection Ref.lib (JInt 1)
           (InspectComponent (JStr "c1")) peer_down);
    first [ reflexivity | intros c E; discriminate E ].
Defined.

(** X23 on a result whose content has one item. *)
Lemma eval_ruby_answers_with_the_text_witness :
  fst (eval_ruby (JInt 1) "6 * 7" (connected_tools [delivers ruby_answer]))
  = Ret (json_dumps (JObj [("success", JBool true); ("result", JStr "42")])).
Proof.
  rewrite (@eval_ruby_answers_with_the_text Ref.lib (JInt 1) "6 * 7"
             (connected_tools [delivers ruby_answer])
             (mkConn "localhost" 9876 (Some (mkSocket 30))) (mkSocket 30)
             (chunk ruby_answer)
             [("result", JObj [("content", JArr [JObj [("text", JStr "42")]])]);
              ("id", JInt 1)]
             [("content", JArr [JObj [("text", JStr "42")]])] [])
    by first [ discriminate | run | intros j Hj; split; run
             | intros x rest' E; inversion E; eexists; reflexivity ].
  reflexivity.
Defined.

(** X24 on a creation that the peer refuses. *)
Lemma create_component_reports_the_failure_witness :
  fst (create_component (JInt 1) "cube" JNull None "up" "center"
         (connected_tools [delivers creation_refused]))
  = Ret (payload "Failed to create component: bad type"
           (JObj [("success", JBool false); ("error", JStr "bad type")])).
Proof.
  rewrite (@create_component_reports_the_failure Ref.lib (JInt 1) "cube"
             JNull None "up" "center"
             (connected_tools [delivers creation_refused])
             (mkConn "localhost" 9876 (Some (mkSocket 30))) (mkSocket 30)
             (chunk creation_refused)
             [("result", JObj [("success", JBool false);
                               ("error", JStr "bad type")]);
              ("id", JInt 1)]
             [("success", JBool false); ("error", JStr "bad type")] []
             [1; 1; 1]%float)
    by first [ discriminate | run | intros j Hj; split; run
             | cbn; tauto ].
  reflexivity.
Defined.

(** [float(d)] on large ints: 2^63 is converted exactly, 2^53 + 1 is rounded
    to even, and 10^400 raises. *)
Example float_of_large_ints :
  normalize_dimensions "cube" (Some [PInt (2 ^ 63); PInt 1; PInt 1])
  = Ok [9223372036854775808; 1; 1]%float
  /\ float_of_int 9007199254740993 = Ok 9007199254740992%float
  /\ normalize_dimensions "cube" (Some [PInt (10 ^ 400); PInt 1; PInt 1])
     = Err (OverflowError "int too large to convert to float").
Proof. runs. Qed.

(** C9 on the cylinder [2, 0]: the request carries [2.0, 2.0, 0.1]. *)
Lemma create_component_normalizes_dimensions_witness :
  normalize_dimensions "cylinder" (Some [PInt 2; PInt 0])
  = Ok [2; 2; 0.1]%float
  /\ exists evs : list event,
       ttrace (snd (create_component (JInt 1) "cylinder" JNull
                      (Some [PInt 2; PInt 0]) "up" "center"
                      (connected_tools [delivers success_own_id])))
       = ttrace (connected_tools [delivers success_own_id])
         ++ EvProbe true
            :: EvSend
                 (request_bytes
                    (JObj [("jsonrpc", JStr "2.0");
                           ("method", JStr "tools/call");
                           ("params",
                            JObj [("name",
                                   JStr "create_component_with_verification");
                                  ("arguments",
                                   JObj [("type", JStr "cylinder");
                                         ("position", or_origin JNull);
                                         ("dimensions",
                                          JArr (map JFloat
                                                  [2; 2; 0.1]%float));
                                         ("direction", JStr "up");
                                         ("origin_mode", JStr "center")])]);
                           ("id", JInt 1)]))
            :: evs
       /\ List.length (sends_of evs) <= 3.
Proof.
  split; [run|].
  apply (proj1 (proj2 (proj2
           (@create_component_normalizes_dimensions Ref.lib (JInt 1)
              "cylinder" JNull (Some [PInt 2; PInt 0]) "up" "center")))
         [2; 2; 0.1]%float (connected_tools [delivers success_own_id])
         (mkConn "localhost" 9876 (Some (mkSocket 30))) (mkSocket 30));
    first [ run | cbn; tauto ].
Defined.
